(** * Shallow embedding of the ERA5/CDS download core of
      weather_data_retrieval (session state, config mapping, month planning,
      retry executor, filename hashing, runner exit codes). *)

From Stdlib Require Import ZArith QArith Lia.
From stdpp Require Import base list strings sorting.

Set Warnings "-register-all".
Open Scope string_scope.
Open Scope list_scope.
Open Scope Z_scope.

(* ------------------------------------------------------------------ *)
(** ** Python values *)

(** The fragment of Python values that flows through the session and the
    JSON configuration.  [PObj tag id] stands for an opaque object
    (a [cdsapi.Client], a [Path]). *)
Inductive pyval : Type :=
  | PNone
  | PBool (b : bool)
  | PInt (z : Z)
  | PFloat (q : Q)
  | PStr (s : string)
  | PList (l : list pyval)
  | PDict (kv : list (string * pyval))
  | PPath (p : string)
  | PObj (tag : string) (id : nat).

(** [bool(x)] *)
Definition py_truthy (v : pyval) : bool :=
  match v with
  | PNone => false
  | PBool b => b
  | PInt z => negb (Z.eqb z 0)
  | PFloat q => negb (Qeq_bool q 0)
  | PStr s => negb (String.eqb s "")
  | PList l => negb (Nat.eqb (length l) 0)
  | PDict kv => negb (Nat.eqb (length kv) 0)
  | PPath _ | PObj _ _ => true
  end.

(** Lookup in a dict (insertion-ordered association list, unique keys). *)
Fixpoint assoc_get {A} (k : string) (kv : list (string * A)) : option A :=
  match kv with
  | [] => None
  | (k', v) :: r => if String.eqb k k' then Some v else assoc_get k r
  end.

(** [d.get(k, default)] *)
Definition dict_get (kv : list (string * pyval)) (k : string) (default : pyval)
  : pyval :=
  match assoc_get k kv with Some v => v | None => default end.

(** Python exceptions raised by the modelled code. *)
Inductive py_exc : Type :=
  | ValueError (msg : string)
  | TypeError (msg : string)
  | KeyError (msg : string)
  | AttributeError (msg : string)
  | RuntimeError (msg : string)
  | OtherError (msg : string).

(** Result of a Python call: a returned value or a raised exception. *)
Inductive pyres (A : Type) : Type :=
  | Ret (a : A)
  | Raise (e : py_exc).
Arguments Ret {A} a.
Arguments Raise {A} e.

(** Exceptions propagate: [x ← m; k] runs [k] only when [m] returned. *)
Global Instance pyres_ret : MRet pyres := fun _ a => Ret a.
Global Instance pyres_bind : MBind pyres := fun _ _ k m =>
  match m with Ret a => k a | Raise e => Raise e end.

(* ------------------------------------------------------------------ *)
(** ** SessionState  (utils/session_management.py, class SessionState) *)

Module SessionState.

Record field : Type := mk_field { value : pyval; filled : bool }.

(** The ordered fields of [self.fields]; order matters (prompt flow). *)
Definition session_keys : list string :=
  [ "data_provider"; "dataset_short_name"; "api_url"; "api_key";
    "session_client"; "save_dir"; "start_date"; "end_date";
    "region_bounds"; "variables"; "existing_file_action";
    "parallel_settings"; "retry_settings"; "inputs_confirmed" ].

(** [self.fields]: an insertion-ordered dict from key to field. *)
Definition t : Type := list (string * field).

(** [__init__] *)
Definition init : t :=
  map (fun k => (k, mk_field PNone false)) session_keys.

(** [key in self.fields] *)
Definition key_in (s : t) (k : string) : bool :=
  existsb (fun kv => String.eqb k kv.1) s.

(** In-place update of the entry stored under [k]. *)
Fixpoint update_field (k : string) (f : field -> field) (s : t) : t :=
  match s with
  | [] => []
  | (k', e) :: r =>
      if String.eqb k k' then (k', f e) :: r else (k', e) :: update_field k f r
  end.

(** [set(key, value)] *)
Definition set (s : t) (k : string) (v : pyval) : t :=
  if key_in s k then update_field k (fun _ => mk_field v true) s else s.

(** [unset(key)] *)
Definition unset (s : t) (k : string) : t :=
  if key_in s k then update_field k (fun _ => mk_field PNone false) s else s.

(** [get(key)] *)
Definition get (s : t) (k : string) : pyval :=
  if key_in s k then
    match assoc_get k s with Some e => value e | None => PNone end
  else PNone.

(** [first_unfilled_key()] *)
Fixpoint first_unfilled_key (s : t) : option string :=
  match s with
  | [] => None
  | (k, e) :: r => if filled e then first_unfilled_key r else Some k
  end.

(** [to_dict(only_filled)] (package version) *)
Definition to_dict (s : t) (only_filled : bool) : list (string * pyval) :=
  if only_filled then map (fun kv => (kv.1, value kv.2)) (filter (fun kv => filled kv.2) s)
  else map (fun kv => (kv.1, value kv.2)) s.

(** The mutating operations of the class. *)
Inductive op : Type :=
  | OpSet (k : string) (v : pyval)
  | OpUnset (k : string).

Definition apply_op (s : t) (o : op) : t :=
  match o with OpSet k v => set s k v | OpUnset k => unset s k end.

Definition apply_ops (s : t) (os : list op) : t := fold_left apply_op os s.

End SessionState.

(* ------------------------------------------------------------------ *)
(** ** Effects: exceptions and the log  (utils/logging.py, log_msg) *)

Record logentry : Type := mk_log { lvl : string; text : string }.

(** The request dict sent by [client.retrieve(name, request, target)]. *)
Record cds_request : Type := mk_request {
  req_product_type : list string;
  req_variable : pyval;
  req_year : string;
  req_month : list string;
  req_day : list string;
  req_time : list string;
  req_area : pyval;
  req_format : string }.

(** Call sites of [time.sleep]: the retry loop of [execute_cds_download]
    and the reconnection loop of [ensure_cds_connection]. *)
Inductive sleep_site : Type := RetryDelay | ReauthWait.

(** Observable external actions. *)
Inductive event : Type :=
  | ERetrieve (client : nat) (product : string) (req : cds_request) (target : string)
  | ESleep (site : sleep_site) (secs : pyval)
  | EClientInit (client : nat).

(** What a run has done so far: the lines written to the logger (they
    stay written when an exception follows), the external actions, and
    counters indexing the remote's answers. *)
Record world : Type := mk_world {
  w_log : list logentry;
  w_events : list event;
  w_retrieves : nat;
  w_checks : nat;
  w_inits : nat }.

Definition world0 : world := mk_world [] [] 0 0 0.

Definition w_add_log (w : world) (e : logentry) : world :=
  mk_world (w_log w ++ [e]) (w_events w) (w_retrieves w) (w_checks w) (w_inits w).

(** A computation that may raise, threading the world. *)
Definition M (A : Type) : Type := world -> pyres A * world.

Global Instance M_ret : MRet M := fun _ a w => (Ret a, w).
Global Instance M_bind : MBind M := fun _ _ k m w =>
  match m w with
  | (Ret a, w') => k a w'
  | (Raise e, w') => (Raise e, w')
  end.

Definition raise {A} (e : py_exc) : M A := fun l => (Raise e, l).

(** [try: m  except Exception as e: h e] *)
Definition try_except {A} (m : M A) (h : py_exc -> M A) : M A := fun l =>
  match m l with
  | (Ret a, l') => (Ret a, l')
  | (Raise e, l') => h e l'
  end.

(** A call that does not touch the world. *)
Definition lift {A} (r : pyres A) : M A := fun w => (r, w).

(** Run a computation from the empty world. *)
Definition run_M {A} (m : M A) : pyres A * world := m world0.

(** [log_msg(msg, logger, *, level=...)].  The [logger] parameter is
    positional and has no default: [None] models a call that omits it
    (Python raises [TypeError] when binding the arguments); a passed but
    falsy logger raises the [ValueError] of the function body. *)
Definition log_msg (msg : string) (logger : option pyval) (level : string)
  : M unit := fun l =>
  match logger with
  | None =>
      (Raise (TypeError "log_msg() missing 1 required positional argument: 'logger'"), l)
  | Some lg =>
      if py_truthy lg then (Ret tt, w_add_log l (mk_log level msg))
      else (Raise (ValueError "Logger instance must be provided to log_msg()."), l)
  end.

(* ------------------------------------------------------------------ *)
(** ** Calendar and datetime  (Python's calendar / datetime modules) *)

(** [calendar.isleap] *)
Definition isleap (y : Z) : bool :=
  (Z.eqb (y mod 4) 0 && (negb (Z.eqb (y mod 100) 0) || Z.eqb (y mod 400) 0))%bool.

(** datetime's [_DAYS_IN_MONTH] (index 0 is the unused [-1]) *)
Definition DAYS_IN_MONTH : list Z :=
  [-1; 31; 28; 31; 30; 31; 30; 31; 31; 30; 31; 30; 31]%Z.

(** datetime's [_DAYS_BEFORE_MONTH] *)
Definition DAYS_BEFORE_MONTH : list Z :=
  [-1; 0; 31; 59; 90; 120; 151; 181; 212; 243; 273; 304; 334]%Z.

Definition zget (l : list Z) (i : Z) : Z := nth (Z.to_nat i) l 0%Z.

(** [calendar.monthrange(y, m)[1]] (datetime's [_days_in_month]) *)
Definition days_in_month (y m : Z) : Z :=
  if (Z.eqb m 2 && isleap y)%bool then 29 else zget DAYS_IN_MONTH m.

(** datetime's [_days_before_year] *)
Definition days_before_year (y : Z) : Z :=
  let y1 := y - 1 in y1 * 365 + y1 / 4 - y1 / 100 + y1 / 400.

(** datetime's [_days_before_month] *)
Definition days_before_month (y m : Z) : Z :=
  zget DAYS_BEFORE_MONTH m + (if (Z.gtb m 2 && isleap y)%bool then 1 else 0).

(** datetime's [_ymd2ord]: proleptic Gregorian ordinal, 0001-01-01 is 1. *)
Definition ymd2ord (y m d : Z) : Z :=
  days_before_year y + days_before_month y m + d.

(** datetime's [_ord2ymd] *)
Definition ord2ymd (n0 : Z) : Z * Z * Z :=
  let n := n0 - 1 in
  let n400 := n / 146097 in let n := n mod 146097 in
  let year := n400 * 400 + 1 in
  let n100 := n / 36524 in let n := n mod 36524 in
  let n4 := n / 1461 in let n := n mod 1461 in
  let n1 := n / 365 in let n := n mod 365 in
  let year := year + n100 * 100 + n4 * 4 + n1 in
  if (Z.eqb n1 4 || Z.eqb n100 4)%bool then (year - 1, 12, 31)
  else
    let leapyear := (Z.eqb n1 3 && (negb (Z.eqb n4 24) || Z.eqb n100 3))%bool in
    let month := Z.shiftr (n + 50) 5 in
    let preceding := zget DAYS_BEFORE_MONTH month
                     + (if (Z.gtb month 2 && leapyear)%bool then 1 else 0) in
    if Z.gtb preceding n then
      let month := month - 1 in
      let preceding := preceding - (zget DAYS_IN_MONTH month
                       + (if (Z.eqb month 2 && leapyear)%bool then 1 else 0)) in
      (year, month, n - preceding + 1)
    else (year, month, n - preceding + 1).

(** A naive [datetime]: date fields and the microseconds elapsed since
    midnight ([0 <= us < 86400 * 10^6]).  CPython compares datetimes
    field by field (year, month, day, time), i.e. lexicographically. *)
Record datetime : Type := mk_dt { year : Z; month : Z; day : Z; us : Z }.

Definition US_PER_DAY : Z := 86400 * 1000000.

Definition dt_le (a b : datetime) : bool :=
  (Z.ltb (year a) (year b) ||
   (Z.eqb (year a) (year b) &&
    (Z.ltb (month a) (month b) ||
     (Z.eqb (month a) (month b) &&
      (Z.ltb (day a) (day b) ||
       (Z.eqb (day a) (day b) && Z.leb (us a) (us b)))))))%bool.
Definition dt_gt (a b : datetime) : bool := negb (dt_le a b).

(** [datetime(y, m, d)] (midnight) *)
Definition datetime_ymd (y m d : Z) : datetime := mk_dt y m d 0.

(** [dt.replace(hour=0, minute=0, second=0, microsecond=0)] *)
Definition dt_midnight (t : datetime) : datetime := mk_dt (year t) (month t) (day t) 0.

(** [dt - timedelta(days=k)]: through the ordinal, as CPython does. *)
Definition dt_sub_days (t : datetime) (k : Z) : datetime :=
  let '(y, m, d) := ord2ymd (ymd2ord (year t) (month t) (day t) - k) in
  mk_dt y m d (us t).

(** A well-formed datetime (what the [datetime] constructor accepts). *)
Definition valid_datetime (t : datetime) : Prop :=
  (1 <= year t <= 9999) /\ (1 <= month t <= 12) /\
  (1 <= day t <= days_in_month (year t) (month t)) /\ (0 <= us t < US_PER_DAY).

(** Decimal rendering of a non-negative integer, zero-padded to [w]. *)
Fixpoint digits_rev (fuel : nat) (n : Z) : list Z :=
  match fuel with
  | O => []
  | S f => if Z.ltb n 10 then [n] else (n mod 10) :: digits_rev f (n / 10)
  end.
Definition digit_char (d : Z) : Ascii.ascii := Ascii.ascii_of_N (Z.to_N (48 + d)).
Definition str_of_nat_Z (n : Z) : string :=
  String.string_of_list_ascii (map digit_char (rev (digits_rev 64 n))).
Definition zpad (w : nat) (n : Z) : string :=
  let s := str_of_nat_Z n in
  String.string_of_list_ascii (repeat (Ascii.ascii_of_nat 48) (w - String.length s)%nat) ++ s.

(** [str(z)] / [f"{z}"] for an int *)
Definition py_str_int (z : Z) : string :=
  if Z.ltb z 0 then "-" ++ str_of_nat_Z (- z) else str_of_nat_Z z.

(** [dt.date().isoformat()] *)
Definition date_isoformat (t : datetime) : string :=
  zpad 4 (year t) ++ "-" ++ zpad 2 (month t) ++ "-" ++ zpad 2 (day t).

(** [f"{v}"] for the values whose text reaches a log message; container
    and object values are rendered by a placeholder (only log text). *)
Definition py_str (v : pyval) : string :=
  match v with
  | PNone => "None"
  | PBool b => if b then "True" else "False"
  | PInt z => py_str_int z
  | PStr s => s
  | PPath p => p
  | _ => "<value>"
  end.

(** [v == "lit"] *)
Definition pv_is_str (v : pyval) (lit : string) : bool :=
  match v with PStr s => String.eqb s lit | _ => false end.

(** [d[k] = v]: replaces in place, or appends a new key at the end. *)
Fixpoint dict_set (kv : list (string * pyval)) (k : string) (v : pyval)
  : list (string * pyval) :=
  match kv with
  | [] => [(k, v)]
  | (k', v') :: r => if String.eqb k k' then (k', v) :: r else (k', v') :: dict_set r k v
  end.

(* ------------------------------------------------------------------ *)
(** ** utils/data_validation.py *)

(** [clamp_era5_available_end_date(end)]; [now] is [datetime.now()].  The
    log call of the clamping branch passes no logger. *)
Definition EIGHT_DAY_LAG : Z := 8.

Definition clamp_era5_available_end_date (now end_ : datetime) : M datetime :=
  let upper := dt_sub_days (dt_midnight now) EIGHT_DAY_LAG in
  if dt_gt end_ upper then
    _ ← log_msg ("Adjusting end date from " ++ date_isoformat end_
                 ++ " to data availability boundary " ++ date_isoformat upper
                 ++ " (-" ++ py_str_int EIGHT_DAY_LAG ++ " days).") None "info";
    mret upper
  else mret end_.

(** [validate_coordinates(north, west, south, east)] over finite numbers. *)
Definition validate_coordinates (north west south east : Q) : bool :=
  forallb id
    [ (Qle_bool (-90) south && Qle_bool south 90)%bool;
      (Qle_bool (-90) north && Qle_bool north 90)%bool;
      (Qle_bool (-180) west && Qle_bool west 180)%bool;
      (Qle_bool (-180) east && Qle_bool east 180)%bool;
      negb (Qle_bool north south) ].

Definition EFA_ALLOWED : list string := ["overwrite_all"; "skip_all"; "case_by_case"].

Definition str_in (s : string) (l : list string) : bool := existsb (String.eqb s) l.

(** [validate_existing_file_action(session, allow_prompts=..., logger=...)]
    returns the policy and the (mutated) session. *)
Definition validate_existing_file_action (session : SessionState.t)
    (allow_prompts : bool) (logger : pyval) : M (string * SessionState.t) :=
  let raw := SessionState.get session "existing_file_action" in
  let policy := if py_truthy raw then raw else PStr "case_by_case" in
  (* [policy not in allowed]: a set lookup, so unhashable values raise *)
  in_allowed ← (match policy with
                | PStr p => mret (str_in p EFA_ALLOWED)
                | PList _ => raise (TypeError "unhashable type: 'list'")
                | PDict _ => raise (TypeError "unhashable type: 'dict'")
                | _ => mret false
                end : M bool);
  if negb in_allowed then
    if allow_prompts then
      _ ← log_msg ("Unrecognized existing_file_action='" ++ py_str policy
                   ++ "'; treating as 'case_by_case' due to interactive mode.")
                  (Some logger) "warning";
      mret ("case_by_case", session)
    else
      _ ← log_msg ("Unrecognized existing_file_action='" ++ py_str policy
                   ++ "'; coercing to 'skip_all' for automatic mode.")
                  (Some logger) "warning";
      mret ("skip_all", SessionState.set session "existing_file_action" (PStr "skip_all"))
  else if (pv_is_str policy "case_by_case" && negb allow_prompts)%bool then
    _ ← log_msg ("existing_file_action='case_by_case' is not supported without prompts; coercing to 'skip_all' for automatic mode.")
                (Some logger) "warning";
    mret ("skip_all", SessionState.set session "existing_file_action" (PStr "skip_all"))
  else mret (py_str policy, session).

(** The existing_file_action step of [_validate_common(config, ...)]
    (it mutates [config]). *)
Definition validate_common_existing_file_action (config : list (string * pyval))
    (run_mode : string) (logger : pyval) : M (list (string * pyval)) :=
  let efa := py_str (dict_get config "existing_file_action" (PStr "case_by_case")) in
  if negb (str_in efa EFA_ALLOWED) then
    raise (ValueError "existing_file_action must be one of: overwrite_all | skip_all | case_by_case")
  else if (String.eqb run_mode "automatic" && String.eqb efa "case_by_case")%bool then
    _ ← log_msg "Config provided 'case_by_case' in automatic mode; coercing to 'skip_all'."
                (Some logger) "warning";
    mret (dict_set config "existing_file_action" (PStr "skip_all"))
  else mret config.

(* ------------------------------------------------------------------ *)
(** ** Month planning  (sources/cds_era5.py, plan_cds_months) *)

Definition ascii_digit (c : Ascii.ascii) : option Z :=
  let n := Z.of_nat (Ascii.nat_of_ascii c) in
  if (Z.leb 48 n && Z.leb n 57)%bool then Some (n - 48) else None.

Fixpoint digits_value (cs : list Ascii.ascii) (acc : Z) : option Z :=
  match cs with
  | [] => Some acc
  | c :: r => match ascii_digit c with
              | Some d => digits_value r (10 * acc + d)
              | None => None
              end
  end.

Definition is_dash (c : Ascii.ascii) : bool := Nat.eqb (Ascii.nat_of_ascii c) 45.

(** [datetime.strptime(v, "%Y-%m-%d")] on the zero-padded form that
    [date().isoformat()] writes into the session. *)
Definition strptime_ymd (v : pyval) : M datetime :=
  match v with
  | PStr s =>
      match String.list_ascii_of_string s with
      | [y1; y2; y3; y4; c1; m1; m2; c2; d1; d2] =>
          match digits_value [y1; y2; y3; y4] 0, digits_value [m1; m2] 0,
                digits_value [d1; d2] 0 with
          | Some y, Some m, Some d =>
              if (is_dash c1 && is_dash c2)%bool then
                if negb (Z.leb 1 m && Z.leb m 12)%bool then
                  raise (ValueError ("time data '" ++ s ++ "' does not match format '%Y-%m-%d'"))
                else if negb (Z.leb 1 y)%bool then
                  raise (ValueError ("year 0 is out of range"))
                else if negb (Z.leb 1 d && Z.leb d (days_in_month y m))%bool then
                  raise (ValueError "day is out of range for month")
                else mret (datetime_ymd y m d)
              else raise (ValueError ("time data '" ++ s ++ "' does not match format '%Y-%m-%d'"))
          | _, _, _ => raise (ValueError ("time data '" ++ s ++ "' does not match format '%Y-%m-%d'"))
          end
      | _ => raise (ValueError ("time data '" ++ s ++ "' does not match format '%Y-%m-%d'"))
      end
  | _ => raise (TypeError "strptime() argument 1 must be str")
  end.

(** [Path(v)] *)
Definition py_path (v : pyval) : M string :=
  match v with
  | PStr s => mret s
  | PPath p => mret p
  | _ => raise (TypeError "expected str, bytes or os.PathLike object")
  end.

(** The [while cur <= e] loop building the month list.  Each iteration
    moves [cur] to the first day of the next month, and [datetime(...)]
    rejects a year above 9999 ([MAXYEAR]); [fuel] bounds the iterations
    and [build_month_list] supplies more than the loop makes. *)
Fixpoint month_loop (fuel : nat) (cur_y cur_m : Z) (e : datetime) : pyres (list (Z * Z)) :=
  match fuel with
  | O => Ret []
  | S f =>
      if dt_le (datetime_ymd cur_y cur_m 1) e then
        if Z.eqb cur_m 12 then
          if Z.ltb 9999 (cur_y + 1) then
            Raise (ValueError ("year " ++ py_str_int (cur_y + 1) ++ " is out of range"))
          else rest ← month_loop f (cur_y + 1) 1 e; Ret ((cur_y, cur_m) :: rest)
        else rest ← month_loop f cur_y (cur_m + 1) e; Ret ((cur_y, cur_m) :: rest)
      else Ret []
  end.

(** Months are numbered consecutively: (y, m) is month [12 * y + m - 1]. *)
Definition month_index (y m : Z) : Z := 12 * y + (m - 1).

Definition month_loop_fuel (s e : datetime) : nat :=
  Z.to_nat (month_index (year e) (month e) - month_index (year s) (month s) + 2).

(** [cur = datetime(s.year, s.month, 1); while cur <= e: ...] *)
Definition build_month_list (s e : datetime) : pyres (list (Z * Z)) :=
  month_loop (month_loop_fuel s e) (year s) (month s) e.

(** Reference reading of the spec: every (year, month) from the start's
    month through the end's month, in order. *)
Definition month_of_index (i : Z) : Z * Z := (i / 12, i mod 12 + 1).

Definition spec_month_range (s e : datetime) : list (Z * Z) :=
  let i0 := month_index (year s) (month s) in
  map (fun k : nat => month_of_index (i0 + Z.of_nat k))
      (seq 0 (Z.to_nat (month_index (year e) (month e) - i0 + 1))).

(** The directory listing behind [find_existing_month_file(save_dir,
    filename_base, year, month)]. *)
Record FS : Type := mk_fs {
  find_existing_month_file : string -> string -> Z -> Z -> option string }.

Inductive month_decision : Type := Download | Skip (existing : string).

(** One month of the planning loop, for the validated [policy]. *)
Definition plan_month (policy : string) (existing : option string) : M month_decision :=
  match existing with
  | None => mret Download
  | Some p =>
      if String.eqb policy "skip_all" then mret (Skip p)
      else if String.eqb policy "overwrite_all" then mret Download
      else
        (* interactive 'case_by_case': [read_input(..., logger=logger,
           run_mode="interactive")] -- read_input takes no [run_mode] *)
        raise (TypeError "read_input() got an unexpected keyword argument 'run_mode'")
  end.

Fixpoint plan_loop (fs : FS) (save_dir filename_base policy : string)
    (months : list (Z * Z)) (dl : list (Z * Z)) (sk : list (Z * Z * string))
  : M (list (Z * Z) * list (Z * Z * string)) :=
  match months with
  | [] => mret (dl, sk)
  | (y, m) :: rest =>
      d ← plan_month policy (find_existing_month_file fs save_dir filename_base y m);
      match d with
      | Download => plan_loop fs save_dir filename_base policy rest (dl ++ [(y, m)]) sk
      | Skip p => plan_loop fs save_dir filename_base policy rest dl (sk ++ [(y, m, p)])
      end
  end.

Definition nl : string := String (Ascii.ascii_of_nat 10) EmptyString.

(** [plan_cds_months(session, filename_base, logger=..., allow_prompts=...)];
    also returns the session, which [validate_existing_file_action] mutates. *)
Definition plan_cds_months (fs : FS) (session : SessionState.t) (filename_base : string)
    (logger : pyval) (allow_prompts : bool)
  : M (list (Z * Z) * list (Z * Z * string) * SessionState.t) :=
  '(policy, session) ← validate_existing_file_action session allow_prompts logger;
  let start_date := SessionState.get session "start_date" in
  let end_date := SessionState.get session "end_date" in
  save_dir ← py_path (SessionState.get session "save_dir");
  s ← strptime_ymd start_date;
  e ← strptime_ymd end_date;
  months ← lift (build_month_list s e);
  '(dl, sk) ← plan_loop fs save_dir filename_base policy months [] [];
  _ ← log_msg (nl ++ "=== Existing File Check ===") (Some logger) "info";
  _ ← log_msg ("Found " ++ py_str_int (Z.of_nat (length sk)) ++ " existing monthly files.")
              (Some logger) "info";
  _ ← mapM (fun '(y, m, p) =>
              log_msg ("  - " ++ py_str_int y ++ "-" ++ zpad 2 m ++ ": " ++ p) (Some logger) "info")
           (take 5 sk);
  _ ← (if Nat.ltb 5 (length sk) then
         log_msg ("  ... and " ++ py_str_int (Z.of_nat (length sk) - 5) ++ " more.") (Some logger) "info"
       else mret tt);
  _ ← log_msg ("Planned downloads: " ++ py_str_int (Z.of_nat (length dl)) ++ " month(s).")
              (Some logger) "info";
  mret (dl, sk, session).

(* ------------------------------------------------------------------ *)
(** ** Download executor  (sources/cds_era5.py, execute_cds_download) *)

(** An entry of [CDS_DATASETS]. *)
Record ds_config : Type := mk_ds {
  dataset_product_name : string;
  product_type : string;
  data_download_format : string }.

Definition CDS_DATASETS : list (string * ds_config) :=
  [ ("era5-world", mk_ds "reanalysis-era5-single-levels" "reanalysis" "grib");
    ("era5-land", mk_ds "reanalysis-era5-land" "reanalysis" "grib") ].

(** [get_cds_dataset_config(session, dataset_config_mapping)] *)
Definition get_cds_dataset_config (session : SessionState.t)
    (mapping : list (string * ds_config)) : M ds_config :=
  match SessionState.get session "dataset_short_name" with
  | PStr sn =>
      match assoc_get sn mapping with
      | Some c => mret c
      | None => raise (KeyError ("Dataset short name '" ++ sn ++ "' not found"))
      end
  | PList _ => raise (TypeError "unhashable type: 'list'")
  | PDict _ => raise (TypeError "unhashable type: 'dict'")
  | v => raise (KeyError ("Dataset short name '" ++ py_str v ++ "' not found"))
  end.

(** [[f"{h:02d}:00" for h in range(24)]] *)
Definition default_times : list string :=
  map (fun h : nat => (zpad 2 (Z.of_nat h) ++ ":00")%string) (seq 0 24).

(** [month_days(year, month)] *)
Definition month_days (y m : Z) : M (list string) :=
  if negb (Z.leb 1 m && Z.leb m 12)%bool then
    raise (ValueError ("bad month number " ++ py_str_int m ++ "; must be 1-12"))
  else
    mret (map (fun d : nat => zpad 2 (Z.of_nat d)) (seq 1 (Z.to_nat (days_in_month y m)))).

(** [range(1, n + 1)] *)
Definition py_range1 (n : Z) : list Z :=
  map (fun k : nat => 1 + Z.of_nat k) (seq 0 (Z.to_nat n)).

(** [x + 1] followed by [range(...)]: only ints (and bools) are accepted. *)
Definition py_int_for_range (v : pyval) : M Z :=
  match v with
  | PInt z => mret z
  | PBool b => mret (if b then 1 else 0)
  | _ => raise (TypeError "'float' object cannot be interpreted as an integer")
  end.

(** [d[k]] on the value read from the session. *)
Definition py_subscript (v : pyval) (k : string) : M pyval :=
  match v with
  | PDict kv =>
      match assoc_get k kv with Some x => mret x | None => raise (KeyError k) end
  | _ => raise (TypeError "object is not subscriptable")
  end.

(** The remote service: the answer to the k-th [retrieve] call of the run,
    whether the handle's [.session] attribute is readable at the k-th
    reconnection check, and whether the k-th [cdsapi.Client(...)]
    construction succeeds. *)
Record Remote : Type := mk_remote {
  retrieve_ok : nat -> bool;
  session_alive : nat -> bool;
  client_init_ok : nat -> bool }.

Definition is_client (v : pyval) : option nat :=
  match v with
  | PObj tag id => if String.eqb tag "cdsapi.Client" then Some id else None
  | _ => None
  end.

(** [client.retrieve(product, request, target)] *)
Definition cds_retrieve (rm : Remote) (client : pyval) (product : string)
    (req : cds_request) (target : string) : M unit := fun w =>
  match is_client client with
  | Some id =>
      let k := w_retrieves w in
      let w' := mk_world (w_log w) (w_events w ++ [ERetrieve id product req target])
                         (S k) (w_checks w) (w_inits w) in
      if retrieve_ok rm k then (Ret tt, w')
      else (Raise (OtherError "CDS retrieval failed"), w')
  | None => (Raise (AttributeError "object has no attribute 'retrieve'"), w)
  end.

(** [time.sleep(secs)] *)
Definition time_sleep (site : sleep_site) (secs : pyval) : M unit := fun w =>
  let w' := mk_world (w_log w) (w_events w ++ [ESleep site secs])
                     (w_retrieves w) (w_checks w) (w_inits w) in
  match secs with
  | PInt z => if Z.ltb z 0 then (Raise (ValueError "sleep length must be non-negative"), w)
              else (Ret tt, w')
  | PBool _ => (Ret tt, w')
  | PFloat q => if negb (Qle_bool 0 q) then (Raise (ValueError "sleep length must be non-negative"), w)
                else (Ret tt, w')
  | _ => (Raise (TypeError "'str' object cannot be interpreted as an integer"), w)
  end.

(** [client.session]: the liveness probe of [ensure_cds_connection]. *)
Definition client_session_probe (rm : Remote) (client : pyval) : M unit := fun w =>
  match is_client client with
  | Some _ =>
      let k := w_checks w in
      let w' := mk_world (w_log w) (w_events w) (w_retrieves w) (S k) (w_inits w) in
      if session_alive rm k then (Ret tt, w')
      else (Raise (OtherError "connection lost"), w')
  | None => (Raise (AttributeError "object has no attribute 'session'"), w)
  end.

(** [cdsapi.Client(url=..., key=..., quiet=True)] *)
Definition cdsapi_client (rm : Remote) : M pyval := fun w =>
  let k := w_inits w in
  let w' := mk_world (w_log w) (w_events w ++ [EClientInit k]) (w_retrieves w)
                     (w_checks w) (S k) in
  if client_init_ok rm k then (Ret (PObj "cdsapi.Client" k), w')
  else (Raise (OtherError "client initialisation failed"), w).

(** The loop of [ensure_cds_connection(client, creds, max_reauth_attempts=6,
    wait_between_attempts=15)] over the remaining [attempts]; its [print]
    output is not modelled.  [None] is the Python [None]. *)
Fixpoint ensure_loop (rm : Remote) (client : pyval) (max_reauth : Z) (wait : Z)
    (attempts : list Z) : M (option pyval) :=
  match attempts with
  | [] => mret None
  | attempt :: rest =>
      try_except (_ ← client_session_probe rm client; mret (Some client))
        (fun _ =>
           try_except (c ← cdsapi_client rm; mret (Some c))
             (fun _ =>
                if Z.ltb attempt max_reauth then
                  _ ← time_sleep ReauthWait (PInt wait);
                  ensure_loop rm client max_reauth wait rest
                else mret None))
  end.

Definition ensure_cds_connection (rm : Remote) (client : pyval) : M (option pyval) :=
  ensure_loop rm client 6 15 (py_range1 6).

Definition exc_str (e : py_exc) : string :=
  match e with
  | ValueError m | TypeError m | KeyError m | AttributeError m
  | RuntimeError m | OtherError m => m
  end.

Definition tab : string := String (Ascii.ascii_of_nat 9) EmptyString.

(** Outcome of one pass through the body of the [for attempt] loop:
    a [return] or the next iteration with the current client and session. *)
Inductive attempt_outcome : Type :=
  | Returned (r : Z * Z * string)
  | NextAttempt (client : pyval) (session : SessionState.t).

(** The [for attempt in range(1, max_retries + 1)] loop. *)
Fixpoint retry_loop (rm : Remote) (logger : pyval) (product : string)
    (req : cds_request) (save_path : string) (y m : Z) (max_retries : Z)
    (retry_delay_sec : pyval) (attempts : list Z) (client : pyval)
    (session : SessionState.t) : M (option (Z * Z * string) * SessionState.t) :=
  match attempts with
  | [] => mret (None, session)
  | attempt :: rest =>
      o ← try_except
            (_ ← log_msg (tab ++ "Attempt " ++ py_str_int attempt ++ " of " ++ py_str_int max_retries
                          ++ " for " ++ py_str_int y ++ "-" ++ zpad 2 m ++ "...") (Some logger) "info";
             _ ← cds_retrieve rm client product req save_path;
             (* the elapsed-time suffix of the message is not modelled *)
             _ ← log_msg ("SUCCESS: " ++ py_str_int y ++ "-" ++ zpad 2 m) (Some logger) "info";
             mret (Returned (y, m, "success")))
            (fun e =>
               _ ← log_msg ("WARNING: Attempt " ++ py_str_int attempt ++ " failed for "
                            ++ py_str_int y ++ "-" ++ zpad 2 m ++ ": " ++ exc_str e)
                           (Some logger) "warning";
               if Z.ltb attempt max_retries then
                 _ ← log_msg (tab ++ "Waiting " ++ py_str retry_delay_sec
                              ++ " seconds before retrying...") (Some logger) "info";
                 _ ← time_sleep RetryDelay retry_delay_sec;
                 try_except
                   (nc ← ensure_cds_connection rm client;
                    match nc with
                    | None => raise (RuntimeError "Re-authentication returned None client.")
                    | Some c =>
                        let session := SessionState.set session "session_client" c in
                        _ ← log_msg (tab ++ "Re-authenticated CDS API client.") (Some logger) "info";
                        mret (NextAttempt c session)
                    end)
                   (fun auth_e =>
                      _ ← log_msg (tab ++ "Re-authentication failed: " ++ exc_str auth_e)
                                  (Some logger) "warning";
                      mret (NextAttempt client session))
               else
                 _ ← log_msg ("FAILURE: all " ++ py_str_int max_retries ++ " attempts failed for "
                              ++ py_str_int y ++ "-" ++ zpad 2 m ++ ".") (Some logger) "error";
                 mret (Returned (y, m, "failed")));
      match o with
      | Returned r => mret (Some r, session)
      | NextAttempt c s => retry_loop rm logger product req save_path y m max_retries
                                      retry_delay_sec rest c s
      end
  end.

(** [execute_cds_download(session, save_path, year, month, logger=...,
    echo_console=...)]: the returned tuple, or [None] when the loop ends
    without a [return]; the session is returned as mutated. *)
Definition execute_cds_download (rm : Remote) (session : SessionState.t)
    (save_path : string) (y m : Z) (logger : pyval)
  : M (option (Z * Z * string) * SessionState.t) :=
  cfg ← get_cds_dataset_config session CDS_DATASETS;
  let times := default_times in
  let variables := SessionState.get session "variables" in
  let grid_area := SessionState.get session "region_bounds" in
  let client := SessionState.get session "session_client" in
  match client with
  | PNone => raise (ValueError "CDS client not initialized in session")
  | _ =>
      let rs := SessionState.get session "retry_settings" in
      let retry_conf := if py_truthy rs then rs
                        else PDict [("max_retries", PInt 6); ("retry_delay_sec", PInt 15)] in
      mr ← py_subscript retry_conf "max_retries";
      retry_delay_sec ← py_subscript retry_conf "retry_delay_sec";
      days ← month_days y m;
      max_retries ← py_int_for_range mr;
      let req := mk_request [product_type cfg] variables (py_str_int y) [zpad 2 m]
                            days times grid_area (data_download_format cfg) in
      retry_loop rm logger (dataset_product_name cfg) req save_path y m max_retries
                 retry_delay_sec (py_range1 max_retries) client session
  end.

(* ------------------------------------------------------------------ *)
(** ** MD5  (hashlib.md5, RFC 1321) over bytes as Z in [0, 256) *)

Module MD5.

Definition mask32 (x : Z) : Z := Z.land x (2 ^ 32 - 1).
Definition add32 (x y : Z) : Z := mask32 (x + y).
Definition not32 (x : Z) : Z := Z.lxor x (2 ^ 32 - 1).
Definition rotl32 (x : Z) (c : Z) : Z :=
  mask32 (Z.lor (Z.shiftl x c) (Z.shiftr x (32 - c))).

Definition K : list Z :=
  [ 0xd76aa478; 0xe8c7b756; 0x242070db; 0xc1bdceee; 0xf57c0faf; 0x4787c62a;
    0xa8304613; 0xfd469501; 0x698098d8; 0x8b44f7af; 0xffff5bb1; 0x895cd7be;
    0x6b901122; 0xfd987193; 0xa679438e; 0x49b40821; 0xf61e2562; 0xc040b340;
    0x265e5a51; 0xe9b6c7aa; 0xd62f105d; 0x02441453; 0xd8a1e681; 0xe7d3fbc8;
    0x21e1cde6; 0xc33707d6; 0xf4d50d87; 0x455a14ed; 0xa9e3e905; 0xfcefa3f8;
    0x676f02d9; 0x8d2a4c8a; 0xfffa3942; 0x8771f681; 0x6d9d6122; 0xfde5380c;
    0xa4beea44; 0x4bdecfa9; 0xf6bb4b60; 0xbebfbc70; 0x289b7ec6; 0xeaa127fa;
    0xd4ef3085; 0x04881d05; 0xd9d4d039; 0xe6db99e5; 0x1fa27cf8; 0xc4ac5665;
    0xf4292244; 0x432aff97; 0xab9423a7; 0xfc93a039; 0x655b59c3; 0x8f0ccc92;
    0xffeff47d; 0x85845dd1; 0x6fa87e4f; 0xfe2ce6e0; 0xa3014314; 0x4e0811a1;
    0xf7537e82; 0xbd3af235; 0x2ad7d2bb; 0xeb86d391 ].

Definition shift (i : Z) : Z :=
  let r := i / 16 in
  let j := i mod 4 in
  zget (match r with
        | 0 => [7; 12; 17; 22]
        | 1 => [5; 9; 14; 20]
        | 2 => [4; 11; 16; 23]
        | _ => [6; 10; 15; 21]
        end) j.

(** The four 32-bit registers A, B, C, D. *)
Record regs : Type := mk_regs { rA : Z; rB : Z; rC : Z; rD : Z }.

Definition init : regs := mk_regs 0x67452301 0xefcdab89 0x98badcfe 0x10325476.

(** Little-endian 32-bit words of a 64-byte block. *)
Definition word_at (blk : list Z) (j : Z) : Z :=
  let b k := zget blk (4 * j + k) in
  b 0 + Z.shiftl (b 1) 8 + Z.shiftl (b 2) 16 + Z.shiftl (b 3) 24.

Definition step (blk : list Z) (st : regs) (i : Z) : regs :=
  let '(mk_regs a b c d) := st in
  let '(f, g) :=
    if Z.ltb i 16 then (Z.lor (Z.land b c) (Z.land (not32 b) d), i)
    else if Z.ltb i 32 then (Z.lor (Z.land d b) (Z.land (not32 d) c), (5 * i + 1) mod 16)
    else if Z.ltb i 48 then (Z.lxor b (Z.lxor c d), (3 * i + 5) mod 16)
    else (Z.lxor c (Z.lor b (not32 d)), (7 * i) mod 16) in
  let f := add32 (add32 (add32 f a) (zget K i)) (word_at blk g) in
  mk_regs d (add32 b (rotl32 f (shift i))) b c.

Definition block (st : regs) (blk : list Z) : regs :=
  let st' := fold_left (step blk) (map Z.of_nat (seq 0 64)) st in
  mk_regs (add32 (rA st) (rA st')) (add32 (rB st) (rB st'))
          (add32 (rC st) (rC st')) (add32 (rD st) (rD st')).

Definition le_bytes (n : nat) (x : Z) : list Z :=
  map (fun k : nat => Z.land (Z.shiftr x (8 * Z.of_nat k)) 255) (seq 0 n).

(** Padding: [0x80], zeros up to 56 mod 64, the 64-bit bit length. *)
Definition pad (msg : list Z) : list Z :=
  let len := Z.of_nat (length msg) in
  msg ++ [128] ++ repeat 0 (Z.to_nat ((55 - len) mod 64))
      ++ le_bytes 8 ((8 * len) mod 2 ^ 64).

Fixpoint blocks (n : nat) (bytes : list Z) (st : regs) : regs :=
  match n with
  | O => st
  | S n' => blocks n' (skipn 64 bytes) (block st (firstn 64 bytes))
  end.

(** [hashlib.md5(data).digest()] *)
Definition digest (msg : list Z) : list Z :=
  let p := pad msg in
  let st := blocks (length p / 64) p init in
  le_bytes 4 (rA st) ++ le_bytes 4 (rB st) ++ le_bytes 4 (rC st) ++ le_bytes 4 (rD st).

Definition hex_char (d : Z) : Ascii.ascii :=
  if Z.ltb d 10 then Ascii.ascii_of_N (Z.to_N (48 + d))
  else Ascii.ascii_of_N (Z.to_N (87 + d)).

(** [.hexdigest()]: two lowercase hex digits per byte. *)
Definition hexdigest (msg : list Z) : string :=
  String.string_of_list_ascii
    (flat_map (fun b => [hex_char (b / 16); hex_char (b mod 16)]) (digest msg)).

End MD5.

(* ------------------------------------------------------------------ *)
(** ** Python str rendering and encoding, for the hashed parameter string *)

(** Strings hold code points 0..255, one per character. *)
Definition code (c : Ascii.ascii) : Z := Z.of_nat (Ascii.nat_of_ascii c).

(** [s.encode()] (UTF-8) *)
Definition utf8_encode (s : string) : list Z :=
  flat_map (fun c => let n := code c in
                     if Z.ltb n 128 then [n]
                     else [192 + n / 64; 128 + n mod 64])
           (String.list_ascii_of_string s).

Definition str_of_codes (l : list Z) : string :=
  String.string_of_list_ascii (map (fun n => Ascii.ascii_of_N (Z.to_N n)) l).

(** [str.isprintable()] on code points 0..255. *)
Definition py_printable (n : Z) : bool :=
  ((Z.leb 32 n && Z.ltb n 127) || (Z.leb 161 n && Z.leb n 255 && negb (Z.eqb n 173)))%bool.

(** [repr(s)] for a str: quote choice and escapes of CPython's
    [unicode_repr]. *)
Definition py_repr_str (s : string) : string :=
  let cs := map code (String.list_ascii_of_string s) in
  let has c := existsb (Z.eqb c) cs in
  let q := if (has 39 && negb (has 34))%bool then 34 else 39 in
  let esc n :=
    if (Z.eqb n q || Z.eqb n 92)%bool then [92; n]
    else if Z.eqb n 9 then [92; 116]
    else if Z.eqb n 10 then [92; 110]
    else if Z.eqb n 13 then [92; 114]
    else if negb (py_printable n) then
      [92; 120] ++ map (fun d => code (MD5.hex_char d)) [n / 16; n mod 16]
    else [n] in
  str_of_codes ([q] ++ flat_map esc cs ++ [q]).

(** [", ".join(items)] *)
Fixpoint join_comma (items : list string) : string :=
  match items with
  | [] => ""
  | [x] => x
  | x :: r => x ++ ", " ++ join_comma r
  end.

(** [str(lst)] from the reprs of the elements. *)
Definition py_list_str (reprs : list string) : string := "[" ++ join_comma reprs ++ "]".

(** [sorted(strs)]: code point order. *)
Definition py_sorted (l : list string) : list string := merge_sort String.le l.

(* ------------------------------------------------------------------ *)
(** ** utils/file_management.py, generate_filename_hash *)

Section FilenameHash.

(** The bounds list holds Python numbers; [num_repr] is their [repr]. *)
Variable Num : Type.
Variable num_repr : Num -> string.

(** [f"{dataset_short_name}|{sorted(variables)}|{boundaries}"] *)
Definition param_string (dataset_short_name : string) (variables : list string)
    (boundaries : list Num) : string :=
  dataset_short_name ++ "|" ++ py_list_str (map py_repr_str (py_sorted variables))
  ++ "|" ++ py_list_str (map num_repr boundaries).

(** [hashlib.md5(param_string.encode()).hexdigest()[:12]] *)
Definition generate_filename_hash (dataset_short_name : string)
    (variables : list string) (boundaries : list Num) : string :=
  String.substring 0 12
    (MD5.hexdigest (utf8_encode (param_string dataset_short_name variables boundaries))).

End FilenameHash.

(* ------------------------------------------------------------------ *)
(** ** Python str methods on code points 0..255 *)

(** [str.isspace()] *)
Definition py_isspace (n : Z) : bool :=
  ((Z.leb 9 n && Z.leb n 13) || (Z.leb 28 n && Z.leb n 32)
   || Z.eqb n 133 || Z.eqb n 160)%bool.

Fixpoint drop_while (p : Z -> bool) (cs : list Z) : list Z :=
  match cs with
  | [] => []
  | c :: r => if p c then drop_while p r else cs
  end.

Definition codes (s : string) : list Z := map code (String.list_ascii_of_string s).

Definition py_strip_by (p : Z -> bool) (s : string) : string :=
  str_of_codes (rev (drop_while p (rev (drop_while p (codes s))))).

(** [s.strip()] *)
Definition py_strip (s : string) : string := py_strip_by py_isspace s.

(** [s.strip(c)] for a one-character [c] *)
Definition py_strip_char (c : Z) (s : string) : string := py_strip_by (Z.eqb c) s.

(** [s.lower()] *)
Definition py_lower (s : string) : string :=
  str_of_codes (map (fun n => if ((Z.leb 65 n && Z.leb n 90)
                                  || (Z.leb 192 n && Z.leb n 222 && negb (Z.eqb n 215)))%bool
                              then n + 32 else n) (codes s)).

Fixpoint split_codes (sep : Z) (cs : list Z) (cur : list Z) : list string :=
  match cs with
  | [] => [str_of_codes (rev cur)]
  | c :: r => if Z.eqb c sep then str_of_codes (rev cur) :: split_codes sep r []
              else split_codes sep r (c :: cur)
  end.

(** [s.split(",")] *)
Definition py_split_comma (s : string) : list string := split_codes 44 (codes s) [].

(** Digits of [int(s)] with single underscores between digits. *)
Fixpoint int_body (cs : list Z) (acc : Z) (after_digit : bool) : option Z :=
  match cs with
  | [] => if after_digit then Some acc else None
  | c :: r =>
      if (Z.leb 48 c && Z.leb c 57)%bool then int_body r (10 * acc + (c - 48)) true
      else if (Z.eqb c 95 && after_digit)%bool then int_body r acc false
      else None
  end.

(** [int(s)] for a str, base 10: surrounding whitespace, optional sign. *)
Definition parse_int_str (s : string) : option Z :=
  match codes (py_strip s) with
  | 45 :: r => option_map Z.opp (int_body r 0 false)
  | 43 :: r => int_body r 0 false
  | cs => int_body cs 0 false
  end.

Definition py_type_name (v : pyval) : string :=
  match v with
  | PNone => "NoneType" | PBool _ => "bool" | PInt _ => "int" | PFloat _ => "float"
  | PStr _ => "str" | PList _ => "list" | PDict _ => "dict" | PPath _ => "PosixPath"
  | PObj tag _ => tag
  end.

(** [int(v)] *)
Definition py_int (v : pyval) : M Z :=
  match v with
  | PBool b => mret (if b then 1 else 0)
  | PInt z => mret z
  | PFloat q => mret (Z.quot (Qnum q) (Zpos (Qden q)))
  | PStr s =>
      match parse_int_str s with
      | Some z => mret z
      | None => raise (ValueError ("invalid literal for int() with base 10: " ++ py_repr_str s))
      end
  | _ => raise (TypeError ("int() argument must be a string, a bytes-like object or a real number, not '"
                          ++ py_type_name v ++ "'"))
  end.

(** [obj.get(k, default)] where [obj] must be a dict. *)
Definition py_get (obj : pyval) (k : string) (default : pyval) : M pyval :=
  match obj with
  | PDict kv => mret (dict_get kv k default)
  | _ => raise (AttributeError ("'" ++ py_type_name obj ++ "' object has no attribute 'get'"))
  end.

(* ------------------------------------------------------------------ *)
(** ** utils/data_validation.py, normalisation and simple validators *)

Definition NORM_data_provider : list (string * pyval) :=
  [("cds", PStr "cds"); ("copernicus", PStr "cds"); ("copernicus climate", PStr "cds");
   ("copernicus data store", PStr "cds"); ("copernicus climate data store", PStr "cds");
   ("era5", PStr "cds"); ("1", PStr "cds"); ("open-meteo", PStr "open-meteo");
   ("openmeteo", PStr "open-meteo"); ("om", PStr "open-meteo"); ("open", PStr "open-meteo");
   ("2", PStr "open-meteo")].

Definition NORM_era5_dataset_short_name : list (string * pyval) :=
  [("era5land", PStr "era5-land"); ("era5-land", PStr "era5-land"); ("land", PStr "era5-land");
   ("0.1", PStr "era5-land"); ("1", PStr "era5-land"); ("era5-world", PStr "era5-world");
   ("era5_world", PStr "era5-world"); ("world", PStr "era5-world"); ("era5", PStr "era5-world");
   ("0.25", PStr "era5-world"); ("2", PStr "era5-world")].

Definition NORM_boolean : list (string * pyval) :=
  [("yes", PBool true); ("y", PBool true); ("1", PBool true); ("true", PBool true);
   ("t", PBool true); ("on", PBool true); ("no", PBool false); ("n", PBool false);
   ("0", PBool false); ("false", PBool false); ("f", PBool false); ("off", PBool false)].

Definition NORMALIZATION_MAP : list (string * list (string * pyval)) :=
  [("data_provider", NORM_data_provider);
   ("era5_dataset_short_name", NORM_era5_dataset_short_name);
   ("boolean", NORM_boolean)].

(** [normalize_input(value, category)] on a str value *)
Definition normalize_input (value : string) (category : string) : pyval :=
  let v := py_lower (py_strip value) in
  let table := match assoc_get category NORMALIZATION_MAP with Some t => t | None => [] end in
  dict_get table v (PStr value).

(** [validate_data_provider(provider)] *)
Definition validate_data_provider (provider : pyval) : bool :=
  (pv_is_str provider "cds" || pv_is_str provider "open-meteo")%bool.

(** [validate_dataset_short_name(ds, "cds")] *)
Definition validate_dataset_short_name_cds (ds : pyval) : bool :=
  match ds with
  | PStr s => if assoc_get s CDS_DATASETS then true else false
  | _ => false
  end.

Definition invalid_era5_world_variables : list string :=
  ["fraction_of_cloud_cover"; "large_scale_precipitation"; "snow_density"; "snow_depth";
   "snowfall"; "surface_runoff"; "sub_surface_runoff"; "total_evaporation";
   "volumetric_soil_water_layer_1"; "volumetric_soil_water_layer_2";
   "volumetric_soil_water_layer_3"; "volumetric_soil_water_layer_4";
   "skin_reservoir_content"; "temperature_of_snow_layer"; "soil_temperature_level_1";
   "soil_temperature_level_2"; "soil_temperature_level_3"; "soil_temperature_level_4"].

(* ------------------------------------------------------------------ *)
(** ** utils/session_management.py, map_config_to_session *)

(** What [map_config_to_session] reaches outside the modules modelled
    here: the text of values without a concrete rendering above (floats,
    containers, objects), [float(s)] of a str, the result of
    [validate_cds_api_key] (a client or [None]; the function catches its
    own errors), whether a directory exists or can be created, the outcome
    of [parse_date_with_defaults] (its exceptions are all caught by the
    dates section), [datetime.now()], and [str(default_save_dir)]. *)
Record MapEnv : Type := mk_mapenv {
  env_text : pyval -> string;
  env_float_of_str : string -> option Q;
  env_validate_cds_api_key : pyval -> pyval -> option pyval;
  env_dir_ok : string -> bool;
  env_parse_date : string -> bool -> pyres (datetime * string);
  env_now : datetime;
  env_default_save_dir : string
}.

Section MapConfig.

Variable env : MapEnv.

(** [str(v)] *)
Definition py_text (v : pyval) : string :=
  match v with
  | PNone | PBool _ | PInt _ => py_str v
  | PStr s => s
  | PPath p => p
  | _ => env_text env v
  end.

(** [repr(v)] *)
Definition py_repr (v : pyval) : string :=
  match v with
  | PNone | PBool _ | PInt _ => py_str v
  | PStr s => py_repr_str s
  | _ => env_text env v
  end.

(** [float(v)]; [None] when it raises. *)
Definition py_float (v : pyval) : option Q :=
  match v with
  | PBool b => Some (if b then 1 else 0)%Q
  | PInt z => Some (inject_Z z)
  | PFloat q => Some q
  | PStr s => env_float_of_str env s
  | _ => None
  end.

Fixpoint py_floats (l : list pyval) : option (list Q) :=
  match l with
  | [] => Some []
  | x :: r => match py_float x, py_floats r with
              | Some q, Some qs => Some (q :: qs)
              | _, _ => None
              end
  end.

(** The nested [try_extract_bounds(obj)]. *)
Definition try_extract_bounds (obj : pyval) : option (list Q) :=
  match obj with
  | PNone => None
  | PDict kv =>
      let keys := rev (map (fun kv => (py_lower kv.1, kv.2)) kv) in
      let pick (names : list string) :=
        if forallb (fun k => if assoc_get k keys then true else false) names
        then Some (py_floats (map (fun k => match assoc_get k keys with
                                            | Some v => v | None => PNone end) names))
        else None in
      match pick ["north"; "west"; "south"; "east"] with
      | Some r => r
      | None => match pick ["n"; "w"; "s"; "e"] with Some r => r | None => None end
      end
  | PList l => if Nat.eqb (length l) 4 then py_floats l else None
  | _ => None
  end.

(** [validate_directory(path)]: [Path(path)] rejects other types. *)
Definition validate_directory (path : pyval) : M bool :=
  match path with
  | PStr s | PPath s => mret (env_dir_ok env s)
  | _ => raise (TypeError ("argument should be a str or an os.PathLike object, not '"
                           ++ py_type_name path ++ "'"))
  end.

(** [session], [messages] and [errors] as the function body grows them. *)
Record acc : Type := mk_acc { a_session : SessionState.t; a_msgs : list string;
                              a_errs : list string }.

Definition add_msg (a : acc) (m : string) : acc :=
  mk_acc (a_session a) (a_msgs a ++ [m]) (a_errs a).
Definition add_err (a : acc) (m : string) : acc :=
  mk_acc (a_session a) (a_msgs a) (a_errs a ++ [m]).
Definition set_acc (a : acc) (k : string) (v : pyval) : acc :=
  mk_acc (SessionState.set (a_session a) k v) (a_msgs a) (a_errs a).

Definition sec_provider (cfg : list (string * pyval)) (a : acc) : acc :=
  let raw_provider := dict_get cfg "data_provider" (PStr "cds") in
  let provider := normalize_input (py_text raw_provider) "data_provider" in
  if negb (validate_data_provider provider) then
    add_err a ("Invalid data_provider: " ++ py_repr raw_provider ++ ". Allowed: 'cds'.")
  else if negb (pv_is_str provider "cds") then
    add_err a "Only 'cds' is supported in this version."
  else add_msg (set_acc a "data_provider" provider) ("data_provider = " ++ py_text provider).

Definition sec_dataset (cfg : list (string * pyval)) (a : acc) : acc :=
  let raw_ds := dict_get cfg "dataset_short_name" (dict_get cfg "dataset" (PStr "era5-world")) in
  let ds := normalize_input (py_text raw_ds) "era5_dataset_short_name" in
  if negb (validate_dataset_short_name_cds ds) then
    add_err a ("Invalid dataset_short_name for CDS: " ++ py_repr raw_ds ++ ". Try 'era5-world'.")
  else if negb (pv_is_str ds "era5-world") then
    add_err a "Only 'era5-world' is implemented in this version."
  else add_msg (set_acc a "dataset_short_name" ds) ("dataset_short_name = " ++ py_text ds).

Definition sec_api (cfg : list (string * pyval)) (a : acc) : acc :=
  let api_url := dict_get cfg "api_url" (PStr "https://cds.climate.copernicus.eu/api") in
  let api_key := dict_get cfg "api_key" (PStr "") in
  if negb (py_truthy api_key) then add_err a "Missing 'api_key' in config."
  else
    let a := set_acc (set_acc a "api_url" api_url) "api_key" api_key in
    match env_validate_cds_api_key env api_url api_key with
    | None => add_err a "CDS authentication failed with provided api_url/api_key."
    | Some client => add_msg (set_acc a "session_client" client) "CDS authentication successful."
    end.

(** The dates section; every exception of its [try] body becomes an
    error message, after the mutations made before it. *)
Definition sec_dates (cfg : list (string * pyval)) (a : acc) : M acc := fun w =>
  let start_in := dict_get cfg "start_date" (dict_get cfg "start" PNone) in
  let end_in := dict_get cfg "end_date" (dict_get cfg "end" PNone) in
  let invalid a e := add_err a ("Invalid dates: " ++ exc_str e) in
  if negb (py_truthy start_in) || negb (py_truthy end_in) then
    (Ret (add_err a "Both 'start_date' and 'end_date' are required in config."), w)
  else
    match env_parse_date env (py_text start_in) false with
    | Raise e => (Ret (invalid a e), w)
    | Ret (s_dt, s_str) =>
        match env_parse_date env (py_text end_in) true with
        | Raise e => (Ret (invalid a e), w)
        | Ret (e_dt, e_str) =>
            let a := if dt_le e_dt s_dt then
                       add_err a ("end_date (" ++ e_str ++ ") must be after start_date ("
                                  ++ s_str ++ ").")
                     else a in
            match clamp_era5_available_end_date (env_now env) e_dt w with
            | (Raise e, w') => (Ret (invalid a e), w')
            | (Ret e_dt, w') =>
                let a := set_acc a "start_date" (PStr (date_isoformat s_dt)) in
                let a := set_acc a "end_date" (PStr (date_isoformat e_dt)) in
                (Ret (add_msg a ("date range = " ++ date_isoformat s_dt ++ " → "
                                 ++ date_isoformat e_dt)), w')
            end
        end
    end.

Definition sec_bounds (cfg : list (string * pyval)) (a : acc) : acc :=
  let bounds :=
    match try_extract_bounds (dict_get cfg "region_bounds" PNone) with
    | Some b => Some b
    | None =>
    match try_extract_bounds (dict_get cfg "bounds" PNone) with
    | Some b => Some b
    | None =>
    match try_extract_bounds (dict_get cfg "area" PNone) with
    | Some b => Some b
    | None => try_extract_bounds
                (PDict [("north", dict_get cfg "north" PNone); ("south", dict_get cfg "south" PNone);
                        ("west", dict_get cfg "west" PNone); ("east", dict_get cfg "east" PNone)])
    end end end in
  match bounds with
  | Some [n; w; s; e] =>
      let f q := env_text env (PFloat q) in
      if negb (validate_coordinates n w s e) then
        add_err a ("Invalid region bounds: " ++ env_text env (PList (map PFloat [n; w; s; e])) ++ ".")
      else add_msg (set_acc a "region_bounds" (PList (map PFloat [n; w; s; e])))
                   ("region_bounds = N" ++ f n ++ ", W" ++ f w ++ ", S" ++ f s ++ ", E" ++ f e)
  | _ => add_err a "Missing or invalid region bounds. Provide [north, west, south, east] or dict with those keys."
  end.

(** [v.strip().lower()], then strip double quotes, then single quotes. *)
Definition clean_variable (v : string) : string :=
  py_strip_char 39 (py_strip_char 34 (py_lower (py_strip v))).

Definition sec_variables (cfg : list (string * pyval)) (a : acc) : acc :=
  let raw_vars := dict_get cfg "variables" PNone in
  let '(variables, a) :=
    match raw_vars with
    | PStr s =>
        (map clean_variable
             (filter (fun v => negb (String.eqb (py_strip v) "")) (py_split_comma s)), a)
    | PList l =>
        (map (fun v => clean_variable (py_text v))
             (filter (fun v => negb (String.eqb (py_strip (py_text v)) "")) l), a)
    | _ => ([], add_err a "Missing 'variables' (list or comma-separated string).")
    end in
  match variables with
  | [] => a
  | _ =>
      let valid := filter (fun v => negb (str_in v invalid_era5_world_variables)) variables in
      let invalid := filter (fun v => str_in v invalid_era5_world_variables) variables in
      let a := match invalid with
               | [] => a
               | _ => add_msg a ("Filtering out disallowed variables: " ++ join_comma invalid)
               end in
      match valid with
      | [] => add_err a "After filtering disallowed variables, no variables remain."
      | _ => add_msg (set_acc a "variables" (PList (map PStr valid)))
                     ("variables = " ++ join_comma valid)
      end
  end.

Definition sec_save_dir (cfg : list (string * pyval)) (a : acc) : M acc :=
  let save_dir := dict_get cfg "save_dir" (PStr (env_default_save_dir env)) in
  ok ← validate_directory save_dir;
  if negb ok then mret (add_err a ("Cannot access/create save_dir: " ++ py_text save_dir))
  else mret (add_msg (set_acc a "save_dir" (PPath (py_text save_dir)))
                     ("save_dir = " ++ py_text save_dir)).

Definition sec_existing_file_action (cfg : list (string * pyval)) (a : acc) : acc :=
  let efa_raw := dict_get cfg "existing_file_action"
                          (dict_get cfg "file_policy" (PStr "case_by_case")) in
  let efa_norm := py_lower (py_strip (py_text efa_raw)) in
  if str_in efa_norm EFA_ALLOWED then
    add_msg (set_acc a "existing_file_action" (PStr efa_norm))
            ("existing_file_action = " ++ efa_norm)
  else if str_in efa_norm ["1"; "2"; "3"] then
    let mapped := if String.eqb efa_norm "1" then "overwrite_all"
                  else if String.eqb efa_norm "2" then "skip_all" else "case_by_case" in
    add_msg (set_acc a "existing_file_action" (PStr mapped))
            ("existing_file_action = " ++ mapped)
  else add_msg (set_acc a "existing_file_action" (PStr "case_by_case"))
               "existing_file_action not recognized; defaulting to 'case_by_case'.".

(** The retry section: [retries.get(...)] and [int(...)] are outside
    any [try]. *)
Definition sec_retry (cfg : list (string * pyval)) (a : acc) : M acc :=
  let retries := dict_get cfg "retry_settings" (PDict []) in
  mr ← py_get retries "max_retries" (PInt 6);
  max_retries ← py_int mr;
  rd_alias ← py_get retries "retry_delay" (PInt 15);
  rd ← py_get retries "retry_delay_sec" rd_alias;
  retry_delay ← py_int rd;
  if (Z.ltb max_retries 0 || Z.ltb retry_delay 0)%bool then
    mret (add_err a "retry_settings must be non-negative.")
  else
    mret (add_msg (set_acc a "retry_settings"
                     (PDict [("max_retries", PInt max_retries);
                             ("retry_delay_sec", PInt retry_delay)]))
                  ("retry_settings = {'max_retries': " ++ py_str_int max_retries
                   ++ ", 'retry_delay_sec': " ++ py_str_int retry_delay ++ "}")).

Definition sec_parallel (cfg : list (string * pyval)) (a : acc) : M acc :=
  let parallel := dict_get cfg "parallel_settings" (dict_get cfg "parallel" (PDict [])) in
  enabled ← py_get parallel "enabled" (PBool true);
  let enabled := match enabled with PStr s => normalize_input s "boolean" | v => v end in
  let enabled := py_truthy enabled in
  mc ← py_get parallel "max_concurrent" (PInt 2);
  mc ← try_except (py_int mc) (fun _ => mret 2);
  if negb enabled then
    mret (add_msg (set_acc a "parallel_settings"
                     (PDict [("enabled", PBool false); ("max_concurrent", PInt 1)]))
                  "parallel_settings = disabled")
  else
    let mc := if Z.ltb mc 2 then 2 else mc in
    mret (add_msg (set_acc a "parallel_settings"
                     (PDict [("enabled", PBool true); ("max_concurrent", PInt mc)]))
                  ("parallel_settings = enabled, max_concurrent=" ++ py_str_int mc)).

(** [map_config_to_session(cfg, session)]: [(ok, messages)] and the
    mutated session.  The [print] of each error goes to stdout only. *)
Definition map_config_to_session (cfg : list (string * pyval)) (session : SessionState.t)
  : M (bool * list string * SessionState.t) :=
  let a := mk_acc session [] [] in
  let a := sec_provider cfg a in
  let a := sec_dataset cfg a in
  let a := sec_api cfg a in
  a ← sec_dates cfg a;
  let a := sec_bounds cfg a in
  let a := sec_variables cfg a in
  a ← sec_save_dir cfg a;
  let a := sec_existing_file_action cfg a in
  a ← sec_retry cfg a;
  a ← sec_parallel cfg a;
  match a_errs a with
  | [] => mret (true, a_msgs a, a_session a)
  | errs => mret (false, a_msgs a ++ errs, a_session a)
  end.

End MapConfig.

(* ------------------------------------------------------------------ *)
(** ** packages/weather_data_retrieval/.../runner.py, run *)

(** [s.upper()] *)
Definition py_upper (s : string) : string :=
  str_of_codes (map (fun n => if ((Z.leb 97 n && Z.leb n 122)
                                  || (Z.leb 224 n && Z.leb n 254 && negb (Z.eqb n 247)))%bool
                              then n - 32 else n) (codes s)).

Definition rule (c : string) (n : nat) : string :=
  String.concat "" (repeat c n).

(** What [run] obtains from its callees, for a fixed [config]: the logger
    built by [setup_logger] (it always attaches a [FileHandler]) and
    whether the logger in use carries a [FileHandler]; the outcome of
    [validate_config]; [map_config_to_session] (its result and the session
    object as mutated, also when it raises); [data_dir] with the [mkdir]
    of step 3; the speed test (its formatted value); [estimate_cds_download];
    the formatted parallel-adjusted duration for a concurrency; the
    coordinate string and the hash of the filename; the summary text;
    [orchestrate_cds_downloads] (lengths of the successful, failed and
    skipped lists it fills); and the body of [create_final_log_file] past
    the lookup of the file handler. *)
Record RunEnv : Type := mk_runenv {
  re_setup_logger : pyval;
  re_log_dir : string;
  re_has_file_handler : bool;
  re_now_iso : string;
  re_validate_config : pyres unit;
  re_map_config : SessionState.t -> pyres (bool * list string) * SessionState.t;
  re_data_dir : pyres unit;
  re_speedtest : pyres string;
  re_estimate : SessionState.t -> pyres unit;
  re_parallel_time : Z -> pyres string;
  re_coord_str : SessionState.t -> pyres string;
  re_hash : SessionState.t -> pyres string;
  re_summary : SessionState.t -> pyres string;
  re_orchestrate : SessionState.t -> string -> pyres (nat * nat * nat);
  re_final_log : SessionState.t -> string -> pyres unit
}.

Section Run.

Local Open Scope string_scope.

Variable env : RunEnv.

(** A call of [create_final_log_file]: [kw_ok] is false for the call
    that passes [logger=] where the parameter is [original_logger]
    (Python rejects it when binding the arguments). *)
Definition create_final_log_file (session : option SessionState.t) (filename_base : string)
    (kw_ok : bool) : M unit :=
  if negb kw_ok then
    raise (TypeError "create_final_log_file() got an unexpected keyword argument 'logger'")
  else if negb (re_has_file_handler env) then mret tt
  else match session with
       | None => raise (AttributeError "'NoneType' object has no attribute 'get'")
       | Some s => lift (re_final_log env s filename_base)
       end.

Fixpoint log_all (lg : pyval) (msgs : list string) : M unit :=
  match msgs with
  | [] => mret tt
  | m :: r => _ ← log_msg m (Some lg) "info"; log_all lg r
  end.

(** Steps 2 (after the mapping) to 8 of the [try] body. *)
Definition run_after_map (lg : pyval) (ok : bool) (notes : list string)
    (session : SessionState.t) : M (option Z) :=
  _ ← log_all lg notes;
  if negb ok then
    _ ← log_msg "Config mapping reported blocking issues. Exiting." (Some lg) "error";
    (* [if "filename_base":] tests a non-empty literal *)
    _ ← create_final_log_file (Some session) "None" true;
    mret (Some 1)
  else
    let ds := SessionState.get session "dataset_short_name" in
    if negb (py_truthy ds && match ds with PStr _ => true | _ => false end)%bool then
      raise (ValueError "dataset_short_name must be set in session before computing save_path")
    else
    _ ← lift (re_data_dir env);
    speed ← lift (re_speedtest env);
    _ ← log_msg ("Detected speed: " ++ speed ++ " Mbps") (Some lg) "info";
    if negb (pv_is_str ds "era5-world" || pv_is_str ds "era5-land")%bool then
      raise (ValueError ("Unknown dataset_short_name: " ++ py_str ds))
    else
    _ ← lift (re_estimate env session);
    let parallel_conf := SessionState.get session "parallel_settings" in
    _ ← (if py_truthy parallel_conf then
           enabled ← py_get parallel_conf "enabled" PNone;
           if py_truthy enabled then
             mcv ← py_subscript parallel_conf "max_concurrent";
             mc ← py_int mcv;
             t ← lift (re_parallel_time env (Z.max 1 mc));
             log_msg ("Adjusted total time for parallel downloads: " ++ t) (Some lg) "info"
           else mret tt
         else mret tt);
    coord_str ← lift (re_coord_str env session);
    hash_str ← lift (re_hash env session);
    let filename_base := py_str ds ++ "_" ++ coord_str ++ "_" ++ hash_str in
    summary ← lift (re_summary env session);
    _ ← log_msg summary (Some lg) "info";
    _ ← log_msg ("Output base filename: " ++ filename_base) (Some lg) "info";
    _ ← log_msg (rule "-" 60 ++ nl ++ nl) (Some lg) "info";
    _ ← log_msg ("Beginning download process..." ++ nl ++ nl) (Some lg) "info";
    _ ← log_msg (rule "-" 60) (Some lg) "info";
    counts ← lift (re_orchestrate env session filename_base);
    let '(n_ok, n_failed, n_skipped) := counts in
    _ ← log_msg (rule "-" 60) (Some lg) "info";
    _ ← log_msg "Download process completed." (Some lg) "info";
    _ ← log_msg (tab ++ "Successful : " ++ py_str_int (Z.of_nat n_ok)) (Some lg) "info";
    _ ← log_msg (tab ++ "Skipped    : " ++ py_str_int (Z.of_nat n_skipped)) (Some lg) "info";
    _ ← log_msg (tab ++ "Failed     : " ++ py_str_int (Z.of_nat n_failed)) (Some lg) "info";
    _ ← log_msg (rule "-" 60) (Some lg) "info";
    if negb (Nat.eqb n_failed 0) then
      _ ← log_msg "Some downloads failed. Review logs for details." (Some lg) "warning";
      _ ← create_final_log_file (Some session) filename_base true;
      _ ← log_msg "" (Some lg) "info";
      _ ← log_msg (rule "*" 60) (Some lg) "info";
      _ ← log_msg "Program ended, goodbye." (Some lg) "info";
      _ ← log_msg (rule "*" 60 ++ nl ++ nl) (Some lg) "info";
      mret (Some 2)
    else
      _ ← create_final_log_file (Some session) filename_base true;
      _ ← log_msg "" (Some lg) "info";
      _ ← log_msg (rule "*" 60) (Some lg) "info";
      _ ← log_msg "Program completed, thank you for using this tool. Goodbye!" (Some lg) "info";
      _ ← log_msg (rule "*" 60 ++ nl ++ nl) (Some lg) "info";
      (* the [try] block ends here: the function falls off its end *)
      mret None.

(** The [except Exception as e] branch, with the value of [session] at
    the time of the exception. *)
Definition run_handler (lg : pyval) (e : py_exc) (session : option SessionState.t)
  : M (option Z) :=
  _ ← log_msg ("Run failed with exception: " ++ exc_str e) (Some lg) "exception";
  _ ← match session with
      | Some s =>
          if (py_truthy (SessionState.get s "region_bounds")
              && py_truthy (SessionState.get s "dataset_short_name"))%bool then
            coord_str ← lift (re_coord_str env s);
            hash_str ← lift (re_hash env s);
            create_final_log_file (Some s)
              (py_str (SessionState.get s "dataset_short_name") ++ "_" ++ coord_str ++ "_" ++ hash_str)
              true
          else create_final_log_file None "run_failed_early" false
      | None => create_final_log_file None "run_failed_early" false
      end;
  _ ← log_msg (nl ++ "Program ended, goodbye." ++ nl ++ nl) (Some lg) "info";
  mret (Some 1).

(** [run(config, run_mode, verbose, logger)]: [Some c] is [return c],
    [None] is falling off the end (the value [None]). *)
Definition run (config : list (string * pyval)) (run_mode : string) (logger : option pyval)
  : M (option Z) :=
  let lg := match logger with None => re_setup_logger env | Some l => l end in
  _ ← log_msg (match logger with
               | None => "Logging initialized at " ++ re_log_dir env
               | Some _ => "Using provided logger."
               end) (Some lg) "info";
  _ ← log_msg (rule "=" 60) (Some lg) "info";
  _ ← log_msg ("Starting " ++ py_upper run_mode ++ " run at " ++ re_now_iso env) (Some lg) "info";
  _ ← log_msg (rule "=" 60) (Some lg) "info";
  ((fun w =>
    (* step 1, while [session] is still [None] *)
    match (_ ← lift (re_validate_config env);
           log_msg "Configuration validation successful." (Some lg) "info") w with
    | (Raise e, w1) => run_handler lg e None w1
    | (Ret _, w1) =>
        (* step 2: [session = SessionState()], mapped in place *)
        let '(mres, session) := re_map_config env SessionState.init in
        match mres with
        | Raise e => run_handler lg e (Some session) w1
        | Ret (ok, notes) =>
            match run_after_map lg ok notes session w1 with
            | (Raise e, w2) => run_handler lg e (Some session) w2
            | (Ret r, w2) => (Ret r, w2)
            end
        end
    end) : M (option Z)).

End Run.

(* ------------------------------------------------------------------ *)
(** ** utils/session_management.py, SessionState.previous_key and summary *)

(** [lst.index(x)] without the [ValueError]. *)
Fixpoint list_index (x : string) (l : list string) : option nat :=
  match l with
  | [] => None
  | y :: r => if String.eqb x y then Some O else option_map S (list_index x r)
  end.

(** [previous_key(current_key)]: [keys.index] raises for an unknown key. *)
Definition previous_key (s : SessionState.t) (current_key : string) : M (option string) :=
  let keys := map fst s in
  match list_index current_key keys with
  | None => raise (ValueError (py_repr_str current_key ++ " is not in list"))
  | Some idx => if Nat.ltb 0 idx then mret (Some (nth (idx - 1) keys "")) else mret None
  end.

(** [f"{s:<w}"] *)
Definition ljust (w : nat) (s : string) : string :=
  s ++ String.string_of_list_ascii (repeat (Ascii.ascii_of_nat 32) (w - String.length s)).

(** ["\n".join(lines)] *)
Fixpoint join_nl (lines : list string) : string :=
  match lines with
  | [] => ""
  | [x] => x
  | x :: r => x ++ nl ++ join_nl r
  end.

Section Summary.

(** [str(v)] of the values without a rendering above (floats, containers,
    objects). *)
Variable str_other : pyval -> string.

(** [str(v)] *)
Definition str_full (v : pyval) : string :=
  match v with
  | PFloat _ | PList _ | PDict _ | PObj _ _ => str_other v
  | _ => py_str v
  end.

Definition FIELD_WIDTH : nat := 25.
Definition STATUS_WIDTH : nat := 10.
Definition VALUE_WIDTH : nat := 40.

Definition SENSITIVE_FIELDS : list string := ["api_key"].

(** The [display_val] of a non-sensitive field. *)
Definition display_value (val : pyval) : string :=
  match val with
  | PNone => "None"
  | PList l =>
      if Nat.ltb 3 (length l) then "[" ++ join_comma (map str_full (firstn 3 l)) ++ "...]"
      else "[" ++ join_comma (map str_full l) ++ "]"
  | PDict kv =>
      "{" ++ join_comma (map (fun kv : string * pyval => (kv.1 ++ ":" ++ str_full kv.2)%string) (firstn 2 kv)) ++ "}"
      ++ (if Nat.ltb 2 (length kv) then "..." else "")
  | _ =>
      let str_val := str_full val in
      if Nat.ltb VALUE_WIDTH (String.length str_val)
      then String.substring 0 (VALUE_WIDTH - 3) str_val ++ "..." else str_val
  end.

Definition summary_line (k : string) (e : SessionState.field) : string :=
  let status := if SessionState.filled e then "Filled" else "Empty" in
  let display_val :=
    if str_in k SENSITIVE_FIELDS then
      (if SessionState.filled e then "*** REDACTED ***" else "None")
    else display_value (SessionState.value e) in
  ljust FIELD_WIDTH k ++ " " ++ ljust STATUS_WIDTH status ++ " " ++ ljust VALUE_WIDTH display_val.

(** [summary()] *)
Definition summary (s : SessionState.t) : string :=
  let sep := rule "-" (FIELD_WIDTH + STATUS_WIDTH + VALUE_WIDTH + 4) in
  let header := (ljust FIELD_WIDTH "Variable" ++ " " ++ ljust STATUS_WIDTH "Status" ++ " "
                 ++ ljust VALUE_WIDTH "Values")%string in
  join_nl ([sep; header; sep]
           ++ map (fun ke : string * SessionState.field => summary_line ke.1 ke.2) s).

End Summary.

(* ------------------------------------------------------------------ *)
(** ** utils/data_validation.py, config validation helpers *)

(** [k in config] *)
Definition dict_has (kv : list (string * pyval)) (k : string) : bool :=
  if assoc_get k kv then true else false.

(** [_require_keys(config, keys)] *)
Definition require_keys (config : list (string * pyval)) (keys : list string) : M unit :=
  let missing := List.filter (fun k => negb (dict_has config k)) keys in
  match missing with
  | [] => mret tt
  | _ => raise (ValueError ("Missing required config keys: " ++ join_comma missing))
  end.

(** [v.lower().strip()] *)
Definition lower_strip (v : pyval) : M string :=
  match v with
  | PStr s => mret (py_strip (py_lower s))
  | _ => raise (AttributeError ("'" ++ py_type_name v ++ "' object has no attribute 'lower'"))
  end.

(** [validate_variables(variable_list, variable_restrictions, restriction_allow)] *)
Definition validate_variables (variable_list : list pyval) (variable_restrictions : list string)
    (restriction_allow : bool) : M bool :=
  match variable_list with
  | [] => mret false
  | _ =>
      variables ← mapM lower_strip variable_list;
      let restrictions := map (fun r => py_strip (py_lower r)) variable_restrictions in
      if restriction_allow then mret (forallb (fun v => str_in v restrictions) variables)
      else mret (forallb (fun v => negb (str_in v restrictions)) variables)
  end.

(** [validate_dataset_short_name(dataset_short_name, provider)]; the
    warning of an unknown provider calls [log_msg] without a logger. *)
Definition validate_dataset_short_name (ds provider : pyval) : M bool :=
  if pv_is_str provider "cds" then
    match ds with
    | PStr s => mret (if assoc_get s CDS_DATASETS then true else false)
    | PList _ => raise (TypeError "unhashable type: 'list'")
    | PDict _ => raise (TypeError "unhashable type: 'dict'")
    | _ => mret false
    end
  else if pv_is_str provider "open-meteo" then
    (* [NotImplementedError] *)
    raise (OtherError "Open-Meteo dataset validation not yet implemented.")
  else
    _ ← log_msg ("Warning: Unknown provider '" ++ py_str provider ++ "'.") None "info";
    mret false.

(* ------------------------------------------------------------------ *)
(** ** datetime.strptime  (CPython's _strptime) for %Y, %m, %d and literals *)

(** Directives and literal characters of a format string. *)
Inductive fmt_tok : Type := FY | Fm | Fd | FLit (c : Z).

Definition is_digit (c : Z) : bool := (Z.leb 48 c && Z.leb c 57)%bool.
Definition in_range (lo hi c : Z) : bool := (Z.leb lo c && Z.leb c hi)%bool.

(** The alternatives of each directive's regex in [TimeRE], in order:
    [%Y] is [\d\d\d\d], [%m] is [1[0-2]|0[1-9]|[1-9]] and [%d] is
    [3[0-1]|[1-2]\d|0[1-9]|[1-9]| [1-9]]; each alternative is a sequence of
    character classes. *)
Definition tok_alts (t : fmt_tok) : list (list (Z -> bool)) :=
  match t with
  | FY => [[is_digit; is_digit; is_digit; is_digit]]
  | Fm => [[Z.eqb 49; in_range 48 50]; [Z.eqb 48; in_range 49 57]; [in_range 49 57]]
  | Fd => [[Z.eqb 51; in_range 48 49]; [in_range 49 50; is_digit]; [Z.eqb 48; in_range 49 57];
           [in_range 49 57]; [Z.eqb 32; in_range 49 57]]
  | FLit c => [[Z.eqb c]]
  end.

(** Match one alternative at the start of [cs]: the consumed characters
    and the rest. *)
Fixpoint match_seq (ps : list (Z -> bool)) (cs : list Z) : option (list Z * list Z) :=
  match ps, cs with
  | [], _ => Some ([], cs)
  | p :: ps', c :: cs' =>
      if p c then
        match match_seq ps' cs' with Some (g, r) => Some (c :: g, r) | None => None end
      else None
  | _ :: _, [] => None
  end.

(** All the ways [re.match] can match the format at the start of [cs], in
    the order the backtracking engine tries them: the groups and the
    unconsumed rest.  The head of the list is the match [re.match] returns. *)
Fixpoint match_fmt (ts : list fmt_tok) (cs : list Z) : list (list (list Z) * list Z) :=
  match ts with
  | [] => [([], cs)]
  | t :: ts' =>
      flat_map (fun alt =>
                  match match_seq alt cs with
                  | Some (g, r) => map (fun '(gs, r') => (g :: gs, r')) (match_fmt ts' r)
                  | None => []
                  end) (tok_alts t)
  end.

(** [int(group)] of a matched group (digits, possibly a leading space). *)
Definition group_int (g : list Z) : Z :=
  fold_left (fun acc c => if is_digit c then 10 * acc + (c - 48) else acc) g 0.

Fixpoint find_group (sel : fmt_tok -> bool) (ts : list fmt_tok) (gs : list (list Z)) : option Z :=
  match ts, gs with
  | t :: ts', g :: gs' => if sel t then Some (group_int g) else find_group sel ts' gs'
  | _, _ => None
  end.

Definition is_FY (t : fmt_tok) : bool := match t with FY => true | _ => false end.
Definition is_Fm (t : fmt_tok) : bool := match t with Fm => true | _ => false end.
Definition is_Fd (t : fmt_tok) : bool := match t with Fd => true | _ => false end.

Definition default_Z (d : Z) (o : option Z) : Z := match o with Some z => z | None => d end.

(** [datetime.strptime(v, format)], where [ts] is [format] read as
    directives and literals; a missing directive takes [_strptime]'s
    default (1900, 1, 1), and the date is checked by [datetime_date(year,
    month, day)] as [_strptime] does. *)
Definition strptime (v : pyval) (format : string) (ts : list fmt_tok) : M datetime :=
  match v with
  | PStr s =>
      match match_fmt ts (codes s) with
      | [] => raise (ValueError ("time data " ++ py_repr_str s ++ " does not match format "
                                 ++ py_repr_str format))
      | (gs, rest) :: _ =>
          match rest with
          | _ :: _ => raise (ValueError ("unconverted data remains: " ++ str_of_codes rest))
          | [] =>
              let y := default_Z 1900 (find_group is_FY ts gs) in
              let m := default_Z 1 (find_group is_Fm ts gs) in
              let d := default_Z 1 (find_group is_Fd ts gs) in
              if negb (Z.leb 1 y && Z.leb y 9999)%bool then
                raise (ValueError ("year " ++ py_str_int y ++ " is out of range"))
              else if negb (Z.leb 1 m && Z.leb m 12)%bool then
                raise (ValueError "month must be in 1..12")
              else if negb (Z.leb 1 d && Z.leb d (days_in_month y m))%bool then
                raise (ValueError "day is out of range for month")
              else mret (datetime_ymd y m d)
          end
      end
  | _ => raise (TypeError ("strptime() argument 1 must be str, not " ++ py_type_name v))
  end.

Definition FMT_YMD : list fmt_tok := [FY; FLit 45; Fm; FLit 45; Fd].
Definition FMT_YM : list fmt_tok := [FY; FLit 45; Fm].

(** [except ValueError: h] *)
Definition except_value {A} (m : M A) (h : string -> M A) : M A :=
  try_except m (fun e => match e with ValueError msg => h msg | _ => raise e end).

(** [validate_date(value, allow_month_only)]; the message of the last
    branch goes to [log_msg] without a logger. *)
Definition validate_date (value : pyval) (allow_month_only : bool) : M bool :=
  except_value (_ ← strptime value "%Y-%m-%d" FMT_YMD; mret true)
    (fun _ =>
       if allow_month_only then
         except_value (_ ← strptime value "%Y-%m" FMT_YM; mret true)
           (fun _ =>
              _ ← log_msg ("Invalid date format '" ++ py_str value
                           ++ "'. Expected YYYY-MM-DD or YYYY-MM." ++ nl) None "info";
              mret false)
       else mret false).

(** [f"{z:0wd}"] *)
Definition py_fmt0 (w : nat) (z : Z) : string :=
  if Z.ltb z 0 then "-" ++ zpad (w - 1) (- z) else zpad w z.

(** [calendar.monthrange(year, month)[1]] *)
Definition monthrange_days (year month : Z) : M Z :=
  if negb (Z.leb 1 month && Z.leb month 12)%bool then
    raise (ValueError ("bad month number " ++ py_str_int month ++ "; must be 1-12"))
  else mret (days_in_month year month).

(** [a, b = parts] *)
Definition unpack2 (parts : list string) : M (string * string) :=
  match parts with
  | [a; b] => mret (a, b)
  | [] | [_] => raise (ValueError ("not enough values to unpack (expected 2, got "
                                    ++ py_str_int (Z.of_nat (length parts)) ++ ")"))
  | _ => raise (ValueError "too many values to unpack (expected 2)")
  end.

(** [parse_date_with_defaults(date_str, default_to_month_end)] *)
Definition parse_date_with_defaults (date_str : string) (default_to_month_end : bool)
  : M (datetime * string) :=
  let n := String.length date_str in
  if Nat.eqb n 7 then
    '(ys, ms) ← unpack2 (split_codes 45 (codes date_str) []);
    year ← py_int (PStr ys);
    month ← py_int (PStr ms);
    date_str_full ←
      (if default_to_month_end then
         last_day ← monthrange_days year month;
         mret (py_str_int year ++ "-" ++ py_fmt0 2 month ++ "-" ++ py_fmt0 2 last_day)%string
       else mret (py_str_int year ++ "-" ++ py_fmt0 2 month ++ "-01")%string) : M string;
    dt ← strptime (PStr date_str_full) "%Y-%m-%d" FMT_YMD;
    mret (dt, date_str_full)
  else if Nat.eqb n 10 then
    dt ← strptime (PStr date_str) "%Y-%m-%d" FMT_YMD;
    mret (dt, date_str)
  else raise (ValueError ("Invalid date format '" ++ date_str
                          ++ "'. Expected YYYY-MM-DD or YYYY-MM.")).

(* ------------------------------------------------------------------ *)
(** ** utils/data_validation.py, validate_config *)

(** What [validate_config] reaches outside the modules modelled here:
    [str(Path(s).expanduser())] ([None] when [expanduser] raises), the
    outcome of [mkdir(parents=True, exist_ok=True)] on it ([Some] text of
    the exception it raises), [float(s)] of a str ([None] when it raises,
    [Some None] for a non-finite result), and [datetime.now()]. *)
Record VEnv : Type := mk_venv {
  ve_path : string -> option string;
  ve_mkdir : string -> option string;
  ve_float_of_str : string -> option (option Q);
  ve_now : datetime
}.

(** Ints from this bound on overflow [float(int)]. *)
Definition FLOAT_OVERFLOW : Z := 2 ^ 1024 - 2 ^ 970.

(** [isinstance(v, int)] (bools included) and the int's value. *)
Definition py_int_val (v : pyval) : option Z :=
  match v with
  | PInt z => Some z
  | PBool b => Some (if b then 1 else 0)
  | _ => None
  end.

Section ValidateConfig.

Variable env : VEnv.

(** [float(v)]: [None] when it raises, [Some None] for nan and the
    infinities.  An int is read exactly: rounding it to a double moves no
    value across the bounds compared against below. *)
Definition py_float_num (v : pyval) : option (option Q) :=
  match v with
  | PBool b => Some (Some (if b then 1 else 0)%Q)
  | PInt z => if Z.leb FLOAT_OVERFLOW (Z.abs z) then None else Some (Some (inject_Z z))
  | PFloat q => Some (Some q)
  | PStr s => ve_float_of_str env s
  | _ => None
  end.

Fixpoint py_float_nums (l : list pyval) : option (list (option Q)) :=
  match l with
  | [] => Some []
  | x :: r => match py_float_num x, py_float_nums r with
              | Some q, Some qs => Some (q :: qs)
              | _, _ => None
              end
  end.

(** [validate_coordinates] on floats: every comparison with nan or an
    infinity that it makes fails. *)
Definition validate_coordinates_f (n w s e : option Q) : bool :=
  match n, w, s, e with
  | Some n, Some w, Some s, Some e => validate_coordinates n w s e
  | _, _, _, _ => false
  end.

(** [len(v)] of a value [validate_date] has accepted (a str). *)
Definition py_str_arg (v : pyval) : M string :=
  match v with
  | PStr s => mret s
  | _ => raise (TypeError ("object of type '" ++ py_type_name v ++ "' has no len()"))
  end.

Definition COMMON_KEYS : list string :=
  ["data_provider"; "dataset_short_name"; "save_dir"; "start_date"; "end_date";
   "region_bounds"; "variables"; "existing_file_action"; "retry_settings";
   "parallel_settings"].

(** [config[k]] for a key [_require_keys] has checked. *)
Definition cfg_at (config : list (string * pyval)) (k : string) : pyval := dict_get config k PNone.

(** The retry section of [_validate_common]. *)
Definition common_retry (config : list (string * pyval)) (logger : pyval)
  : M (list (string * pyval)) :=
  match cfg_at config "retry_settings" with
  | PDict rs =>
      let max_retries := dict_get rs "max_retries" (PInt 6) in
      let retry_delay := dict_get rs "retry_delay_sec" (PInt 15) in
      match py_int_val max_retries, py_int_val retry_delay with
      | Some mr, _ =>
          if Z.ltb mr 0 then raise (ValueError "retry_settings.max_retries must be an integer ≥ 0")
          else
          match py_int_val retry_delay with
          | Some rd =>
              if Z.ltb rd 0 then raise (ValueError "retry_settings.retry_delay_sec must be an integer ≥ 0")
              else
                max_retries ← (if Z.ltb 20 mr then
                                 _ ← log_msg "Capping max_retries at 20." (Some logger) "warning";
                                 mret (PInt 20)
                               else mret max_retries);
                retry_delay ← (if Z.ltb 3600 rd then
                                 _ ← log_msg "Capping retry_delay_sec at 3600." (Some logger) "warning";
                                 mret (PInt 3600)
                               else mret retry_delay);
                mret (dict_set config "retry_settings"
                        (PDict [("max_retries", max_retries); ("retry_delay_sec", retry_delay)]))
          | None => raise (ValueError "retry_settings.retry_delay_sec must be an integer ≥ 0")
          end
      | None, _ => raise (ValueError "retry_settings.max_retries must be an integer ≥ 0")
      end
  | _ => raise (ValueError "retry_settings must be a dict")
  end.

(** The parallel section of [_validate_common]. *)
Definition common_parallel (config : list (string * pyval)) (logger : pyval)
  : M (list (string * pyval)) :=
  match cfg_at config "parallel_settings" with
  | PDict ps =>
      let enabled := py_truthy (dict_get ps "enabled" (PBool false)) in
      let max_conc := dict_get ps "max_concurrent" (PInt 1) in
      match py_int_val max_conc with
      | None => raise (ValueError "parallel_settings.max_concurrent must be an integer")
      | Some mc =>
          '(max_conc, mc) ← (if (enabled && Z.ltb mc 1)%bool then
                               _ ← log_msg "parallel_settings.enabled=True but max_concurrent<1; forcing to 1."
                                           (Some logger) "warning";
                               mret (PInt 1, 1)
                             else mret (max_conc, mc));
          max_conc ← (if (enabled && Z.ltb 8 mc)%bool then
                        _ ← log_msg "Limiting max_concurrent to 8 to avoid throttling."
                                    (Some logger) "warning";
                        mret (PInt 8)
                      else mret max_conc);
          mret (dict_set config "parallel_settings"
                  (PDict [("enabled", PBool enabled); ("max_concurrent", max_conc)]))
      end
  | _ => raise (ValueError "parallel_settings must be a dict")
  end.

(** [_validate_common(config, logger=..., run_mode=...)]: the config as
    mutated when the function returns. *)
Definition validate_common (config : list (string * pyval)) (logger : pyval) (run_mode : string)
  : M (list (string * pyval)) :=
  _ ← require_keys config COMMON_KEYS;
  (* provider + dataset *)
  if negb (validate_data_provider (cfg_at config "data_provider")) then
    raise (ValueError "Invalid data provider")
  else
  ok ← validate_dataset_short_name (cfg_at config "dataset_short_name") (cfg_at config "data_provider");
  if negb ok then raise (ValueError "Invalid dataset short name")
  else
  (* save dir *)
  p ← (match cfg_at config "save_dir" with
       | PStr s | PPath s =>
           match ve_path env s with
           | Some p => mret p
           | None => raise (RuntimeError "Could not determine home directory.")
           end
       | v => raise (TypeError ("argument should be a str or an os.PathLike object where __fspath__ returns a str, not '"
                                ++ py_type_name v ++ "'"))
       end : M string);
  match ve_mkdir env p with
  | Some e => raise (ValueError ("Cannot create/access save_dir '" ++ p ++ "': " ++ e))
  | None =>
  let config := dict_set config "save_dir" (PStr p) in
  (* dates *)
  let s_raw := cfg_at config "start_date" in
  let e_raw := cfg_at config "end_date" in
  ok ← validate_date s_raw true;
  if negb ok then raise (ValueError "Invalid start_date format; use YYYY-MM-DD or YYYY-MM")
  else
  ok ← validate_date e_raw true;
  if negb ok then raise (ValueError "Invalid end_date format; use YYYY-MM-DD or YYYY-MM")
  else
  s_str ← py_str_arg s_raw;
  '(s_dt, s_iso) ← parse_date_with_defaults s_str false;
  e_str ← py_str_arg e_raw;
  '(e_dt, e_iso) ← parse_date_with_defaults e_str true;
  if dt_le e_dt s_dt then raise (ValueError "end_date must be strictly after start_date")
  else
  let config := dict_set (dict_set config "start_date" (PStr s_iso)) "end_date" (PStr e_iso) in
  (* region bounds *)
  match cfg_at config "region_bounds" with
  | PList rb =>
      if negb (Nat.eqb (length rb) 4) then raise (ValueError "region_bounds must be [north, west, south, east]")
      else
      match py_float_nums rb with
      | Some [n; w; s; e] =>
          if negb (validate_coordinates_f n w s e) then
            raise (ValueError "Invalid coordinates: ensure -90≤lat≤90, -180≤lon≤180, and north > south")
          else
          let config := dict_set config "region_bounds"
                          (PList (map (fun q => match q with Some q => PFloat q | None => PNone end)
                                      [n; w; s; e])) in
          (* variables *)
          match cfg_at config "variables" with
          | PList (_ :: _) =>
              config ← validate_common_existing_file_action config run_mode logger;
              config ← common_retry config logger;
              common_parallel config logger
          | _ => raise (ValueError "variables must be a non-empty list")
          end
      | _ => raise (ValueError "region_bounds entries must be numeric")
      end
  | _ => raise (ValueError "region_bounds must be [north, west, south, east]")
  end
  end.

(** Iterating a value: [for v in x]. *)
Definition py_iter (v : pyval) : M (list pyval) :=
  match v with
  | PList l => mret l
  | PStr s => mret (map (fun c => PStr (String c EmptyString)) (String.list_ascii_of_string s))
  | PDict kv => mret (map (fun kv => PStr kv.1) kv)
  | _ => raise (TypeError ("'" ++ py_type_name v ++ "' object is not iterable"))
  end.

(** [_validate_cds(config, logger=..., run_mode=..., live_auth_check=...)] *)
Definition validate_cds (config : list (string * pyval)) (logger : pyval)
    (live_auth_check : bool) : M (list (string * pyval)) :=
  _ ← require_keys config ["api_url"; "api_key"];
  let vars := cfg_at config "variables" in
  ok ← (if negb (py_truthy vars) then mret false
        else l ← py_iter vars; validate_variables l invalid_era5_world_variables false);
  if negb ok then raise (ValueError "Invalid variables specified for CDS dataset")
  else
  let end_date := cfg_at config "end_date" in
  e_dt ← strptime end_date "%Y-%m-%d" FMT_YMD;
  e_clamped ← clamp_era5_available_end_date (ve_now env) e_dt;
  config ← (if negb (pv_is_str end_date (date_isoformat e_clamped)) then
              _ ← log_msg ("End date clamped from " ++ py_str end_date ++ " to "
                           ++ date_isoformat e_clamped ++ " for ERA5 availability.")
                          (Some logger) "warning";
              mret (dict_set config "end_date" (PStr (date_isoformat e_clamped)))
            else mret config);
  if live_auth_check then
    (* [validate_cds_api_key] has no [run_mode] parameter *)
    raise (TypeError "validate_cds_api_key() got an unexpected keyword argument 'run_mode'")
  else mret config.

(** [validate_config(config, logger=..., run_mode=..., live_auth_check=...)]:
    the config as mutated. *)
Definition validate_config (config : list (string * pyval)) (logger : pyval) (run_mode : string)
    (live_auth_check : bool) : M (list (string * pyval)) :=
  config ← validate_common config logger run_mode;
  let provider := cfg_at config "data_provider" in
  if pv_is_str provider "cds" then validate_cds config logger live_auth_check
  else if pv_is_str provider "open-meteo" then mret config
  else raise (ValueError ("Unsupported provider: " ++ py_str provider)).

End ValidateConfig.

(* ------------------------------------------------------------------ *)
(** ** utils/file_management.py, find_existing_month_file *)

(** [posixpath.join(a, b)] *)
Definition os_path_join (a b : string) : string :=
  match codes b with
  | 47 :: _ => b
  | _ => match rev (codes a) with
         | [] => a ++ b
         | 47 :: _ => a ++ b
         | _ => a ++ "/" ++ b
         end
  end.

Fixpoint strip_prefix (p cs : list Z) : option (list Z) :=
  match p, cs with
  | [], _ => Some cs
  | x :: p', c :: cs' => if Z.eqb x c then strip_prefix p' cs' else None
  | _ :: _, [] => None
  end.

(** [[A-Za-z0-9]] *)
Definition is_alnum_ascii (c : Z) : bool :=
  (in_range 65 90 c || in_range 97 122 c || is_digit c)%bool.

(** [[A-Za-z0-9]+$]: [$] also matches before a final newline. *)
Definition ext_match (cs : list Z) : bool :=
  match cs with
  | [] => false
  | _ => (forallb is_alnum_ascii cs
          || (match rev cs with
              | 10 :: (_ :: _) as r => forallb is_alnum_ascii r
              | _ => false
              end))%bool
  end.

(** [re.compile(rf"^{re.escape(filename_base)}_(?:{year:04d}[-_]{month:02d})\.[A-Za-z0-9]+$").match(name)] *)
Definition month_file_match (filename_base : string) (year month : Z) (name : string) : bool :=
  match strip_prefix (codes (filename_base ++ "_" ++ py_fmt0 4 year)) (codes name) with
  | Some (sep :: r) =>
      if (Z.eqb sep 45 || Z.eqb sep 95)%bool then
        match strip_prefix (codes (py_fmt0 2 month ++ ".")) r with
        | Some ext => ext_match ext
        | None => false
        end
      else false
  | _ => false
  end.

(** [find_existing_month_file(save_dir, filename_base, year, month)] over
    the directory: [None] when it does not exist, else its entries in
    [iterdir()] order with whether each is a file.  The found entry is
    given by its name ([save_dir / name]). *)
Definition find_existing_month_file_dir (dir : option (list (string * bool)))
    (filename_base : string) (year month : Z) : option string :=
  match dir with
  | None => None
  | Some entries =>
      option_map fst (List.find (fun e => (e.2 && month_file_match filename_base year month e.1)%bool)
                                entries)
  end.

(** The file system seen by [plan_cds_months] when [listing] gives the
    contents of each directory. *)
Definition fs_of_dir (listing : string -> option (list (string * bool))) : FS :=
  mk_fs (fun save_dir base y m => find_existing_month_file_dir (listing save_dir) base y m).

(* ------------------------------------------------------------------ *)
(** ** sources/cds_era5.py, prepare / download / orchestrate *)

(** The lists [successful_downloads], [failed_downloads] and
    [skipped_downloads] shared by the download functions. *)
Record dl_lists : Type := mk_lists {
  successful : list (Z * Z); failed : list (Z * Z); skipped : list (Z * Z) }.

Section Downloads.

(** [os.path.exists(p)], and [str(v)] of the values without a rendering
    above. *)
Variable exists_path : string -> bool.
Variable str_other : pyval -> string.

(** [prepare_cds_download(session, filename_base, year, month, logger=...,
    allow_prompts=...)]: whether to download, the target path, and the
    session as mutated. *)
Definition prepare_cds_download (session : SessionState.t) (filename_base : string)
    (year month : Z) (logger : pyval) (allow_prompts : bool)
  : M (bool * string * SessionState.t) :=
  cfg ← get_cds_dataset_config session CDS_DATASETS;
  let data_file_format := data_download_format cfg in
  let save_dir := str_full str_other (SessionState.get session "save_dir") in
  let policy := SessionState.get session "existing_file_action" in
  let ym := (py_str_int year ++ "-" ++ py_fmt0 2 month)%string in
  let save_path := os_path_join save_dir (filename_base ++ "_" ++ py_str_int year ++ "_"
                                          ++ py_fmt0 2 month ++ "." ++ data_file_format)%string in
  if exists_path save_path then
    if pv_is_str policy "skip_all" then
      _ ← log_msg ("Skipping existing file for " ++ ym ++ ": " ++ save_path) (Some logger) "info";
      mret (false, save_path, session)
    else if pv_is_str policy "overwrite_all" then
      _ ← log_msg ("Overwriting existing file for " ++ ym ++ ": " ++ save_path) (Some logger) "info";
      mret (true, save_path, session)
    else if pv_is_str policy "case_by_case" then
      if negb allow_prompts then
        raise (ValueError ("existing_file_action='case_by_case' requires interactive mode. "
                           ++ "Use 'skip_all' or 'overwrite_all' for automatic runs."))
      else
        (* [read_input(..., logger=logger, run_mode="interactive")] *)
        raise (TypeError "read_input() got an unexpected keyword argument 'run_mode'")
    else
      _ ← log_msg ("Unknown existing_file_action policy '" ++ str_full str_other policy
                   ++ "'; defaulting to 'skip_all'.") (Some logger) "warning";
      mret (false, save_path, SessionState.set session "existing_file_action" (PStr "skip_all"))
  else mret (true, save_path, session).

Variable rm : Remote.

(** [download_cds_month(session, filename_base, year, month, ...)]: the
    returned tuple, the session and the three lists as mutated. *)
Definition download_cds_month (session : SessionState.t) (filename_base : string)
    (year month : Z) (logger : pyval) (allow_prompts : bool) (L : dl_lists)
  : M (Z * Z * string * SessionState.t * dl_lists) :=
  '(proceed, save_path, session) ← prepare_cds_download session filename_base year month
                                                          logger allow_prompts;
  if negb proceed then
    mret (year, month, "skipped", session,
          mk_lists (successful L) (failed L) (skipped L ++ [(year, month)]))
  else
    '(r, session) ← execute_cds_download rm session save_path year month logger;
    match r with
    | None => raise (TypeError "cannot unpack non-iterable NoneType object")
    | Some (y, m, status) =>
        if String.eqb status "success" then
          mret (y, m, status, session, mk_lists (successful L ++ [(y, m)]) (failed L) (skipped L))
        else
          mret (y, m, status, session, mk_lists (successful L) (failed L ++ [(y, m)]) (skipped L))
    end.

(** The sequential [for (y, m) in months_to_download] loop. *)
Fixpoint download_seq (session : SessionState.t) (filename_base : string) (logger : pyval)
    (allow_prompts : bool) (months : list (Z * Z)) (L : dl_lists)
  : M (SessionState.t * dl_lists) :=
  match months with
  | [] => mret (session, L)
  | (y, m) :: rest =>
      '(_, _, _, session, L) ← download_cds_month session filename_base y m logger allow_prompts L;
      download_seq session filename_base logger allow_prompts rest L
  end.

Variable fs : FS.

(** The parallel branch: [ThreadPoolExecutor] runs one [download_cds_month]
    per month with [max_workers] threads; the exceptions of the tasks are
    dropped ([as_completed] never calls [result()]).  Its interleaving is
    not modelled: [parallel_run] is its effect. *)
Variable parallel_run : Z -> list (Z * Z) -> SessionState.t -> dl_lists -> M (SessionState.t * dl_lists).

(** [orchestrate_cds_downloads(session, filename_base, successful_downloads,
    failed_downloads, skipped_downloads, logger=..., allow_prompts=...)]:
    the session and the lists as mutated. *)
Definition orchestrate_cds_downloads (session : SessionState.t) (filename_base : string)
    (L : dl_lists) (logger : pyval) (allow_prompts : bool) : M (SessionState.t * dl_lists) :=
  _ ← get_cds_dataset_config session CDS_DATASETS;
  '(months_to_download, months_skipped, session) ←
    plan_cds_months fs session filename_base logger allow_prompts;
  let L := mk_lists (successful L) (failed L)
                    (skipped L ++ map (fun '(y, m, _) => (y, m)) months_skipped) in
  match months_to_download with
  | [] =>
      _ ← log_msg (nl ++ "Nothing to download (all months skipped).") (Some logger) "info";
      mret (session, L)
  | _ =>
      let pc := SessionState.get session "parallel_settings" in
      let parallel_conf := if py_truthy pc then pc
                           else PDict [("enabled", PBool false); ("max_concurrent", PInt 1)] in
      enabled ← py_get parallel_conf "enabled" PNone;
      if py_truthy enabled then
        mc ← py_get parallel_conf "max_concurrent" (PInt 2);
        mc ← py_int mc;
        let max_workers := Z.max 2 mc in
        _ ← log_msg (nl ++ "Parallel downloads enabled (" ++ py_str_int max_workers
                     ++ " concurrent tasks)...") (Some logger) "info";
        parallel_run max_workers months_to_download session L
      else
        _ ← log_msg (nl ++ "Running in sequential download mode...") (Some logger) "info";
        download_seq session filename_base logger allow_prompts months_to_download L
  end.

End Downloads.


(* ------------------------------------------------------------------ *)
(** ** Auxiliary definitions: predicates, finite checks and sample inputs *)

(** The session with every field filled with [v]. *)
Definition session_all_set (v : pyval) : SessionState.t :=
  fold_left (fun s k => SessionState.set s k v) SessionState.session_keys SessionState.init.

(** The four digits of a year of four digits. *)
Definition year_digits (y : Z) : list Z :=
  [48 + y / 10 / 10 / 10; 48 + (y / 10 / 10) mod 10; 48 + (y / 10) mod 10; 48 + y mod 10].

(** The text [-MM-DD] after the year. *)
Definition md_tail (m d : Z) : list Z := 45 :: codes (zpad 2 m) ++ 45 :: codes (zpad 2 d).

(** The format [-%m-%d] as tokens. *)
Definition MD_FMT : list fmt_tok := [FLit 45; Fm; FLit 45; Fd].

(** [-MM-DD] matches [-%m-%d] and gives back month [m] and day [d]. *)
Definition check_md (m d : Z) : bool :=
  Nat.eqb (length (md_tail m d)) 6 &&
  match match_fmt MD_FMT (md_tail m d) with
  | (gs, []) :: _ =>
      match find_group is_Fm MD_FMT gs, find_group is_Fd MD_FMT gs with
      | Some m', Some d' => Z.eqb m m' && Z.eqb d d'
      | _, _ => false
      end
  | _ => false
  end.

(** [zpad 2 k] is the two digits of [k]. *)
Definition check_z2 (k : Z) : bool :=
  match codes (zpad 2 k) with
  | [a; b] => (is_digit a && is_digit b && Z.eqb (10 * (a - 48) + (b - 48)) k)%bool
  | _ => false
  end.

(** [%04d] of a short year is four digits that read back as it, and [str] of it is shorter. *)
Definition check_small_year (y : Z) : bool :=
  let c := codes (zpad 4 y) in
  let s := codes (str_of_nat_Z y) in
  (Nat.eqb (length c) 4 && forallb is_digit c && Z.eqb (group_int c) y
   && Nat.ltb (length s) 4 && forallb is_digit s)%bool.

(** [-MM] does not match [-%m-%d] but matches [-%m] with month [m]. *)
Definition check_ym_tail (m : Z) : bool :=
  match match_fmt [FLit 45; Fm; FLit 45; Fd] (45 :: codes (zpad 2 m)) with
  | [] =>
      match match_fmt [FLit 45; Fm] (45 :: codes (zpad 2 m)) with
      | (gs, []) :: _ =>
          match find_group is_Fm [FLit 45; Fm] gs with Some m' => Z.eqb m m' | None => false end
      | _ => false
      end
  | _ :: _ => false
  end.

(** An int (or a value [int] accepts) in [[lo, hi]]. *)
Definition int_in (v : pyval) (lo hi : Z) : bool :=
  match py_int_val v with Some z => (Z.leb lo z && Z.leb z hi)%bool | None => false end.

(** The retry section as [_validate_common] leaves it. *)
Definition retry_settings_ok (v : pyval) : bool :=
  match v with
  | PDict [(k1, mr); (k2, rd)] =>
      (String.eqb k1 "max_retries" && String.eqb k2 "retry_delay_sec"
       && int_in mr 0 20 && int_in rd 0 3600)%bool
  | _ => false
  end.

(** The parallel section as [_validate_common] leaves it. *)
Definition parallel_settings_ok (v : pyval) : bool :=
  match v with
  | PDict [(k1, PBool en); (k2, mc)] =>
      (String.eqb k1 "enabled" && String.eqb k2 "max_concurrent"
       && (if en then int_in mc 1 8
           else match py_int_val mc with Some _ => true | None => false end))%bool
  | _ => false
  end.

(** Four floats that pass [validate_coordinates]. *)
Definition region_bounds_ok (v : pyval) : bool :=
  match v with
  | PList [PFloat n; PFloat w; PFloat s; PFloat e] => validate_coordinates n w s e
  | _ => false
  end.

(** [c'] agrees with [c] on every key but [k]. *)
Definition keeps_other_keys (k : string) (c c' : list (string * pyval)) : Prop :=
  forall k', k' <> k -> assoc_get k' c' = assoc_get k' c.

(** Sample inputs for the witnesses below. *)
Definition sample_env : VEnv :=
  mk_venv (fun s => Some s) (fun _ => None) (fun _ => None) (datetime_ymd 2025 1 1).

Definition sample_config : list (string * pyval) :=
  [("data_provider", PStr "cds"); ("dataset_short_name", PStr "era5-world");
   ("save_dir", PStr "data"); ("start_date", PStr "2020-01-01"); ("end_date", PStr "2020-02");
   ("region_bounds", PList [PInt 10; PInt 0; PInt 0; PInt 10]);
   ("variables", PList [PStr "2m_temperature"]); ("existing_file_action", PStr "case_by_case");
   ("retry_settings", PDict [("max_retries", PInt 50)]);
   ("parallel_settings", PDict [("enabled", PBool true); ("max_concurrent", PInt 12)]);
   ("api_url", PStr "https://cds.climate.copernicus.eu/api"); ("api_key", PStr "key")].

(** An existing-file policy among the allowed ones. *)
Definition efa_session_ok (v : pyval) : bool :=
  match v with PStr p => str_in p EFA_ALLOWED | _ => false end.

(** The parallel settings as [map_config_to_session] stores them. *)
Definition parallel_session_ok (v : pyval) : bool :=
  match v with
  | PDict [(k1, PBool en); (k2, PInt mc)] =>
      (String.eqb k1 "enabled" && String.eqb k2 "max_concurrent"
       && (if en then Z.leb 2 mc else Z.eqb mc 1))%bool
  | _ => false
  end.

(** The retry settings as [map_config_to_session] stores them. *)
Definition retry_session_ok (v : pyval) : bool :=
  match v with
  | PDict [(k1, PInt mr); (k2, PInt rd)] =>
      (String.eqb k1 "max_retries" && String.eqb k2 "retry_delay_sec"
       && Z.leb 0 mr && Z.leb 0 rd)%bool
  | _ => false
  end.

(** The two sessions have the same fields. *)
Definition same_keys (s s' : SessionState.t) : Prop :=
  forall k, SessionState.key_in s' k = SessionState.key_in s k.

Definition sample_mapenv : MapEnv :=
  mk_mapenv (fun _ => "x") (fun _ => None) (fun _ _ => Some (PObj "Client" 0))
    (fun _ => true) (fun s b => fst (parse_date_with_defaults s b world0))
    (datetime_ymd 2025 1 1) "data".

(** Prefix matching of [p] against [l] fails at a differing character (not by running out of [l]). *)
Fixpoint strip_fails_early (p l : list Z) : bool :=
  match p, l with
  | x :: p', c :: l' => if Z.eqb x c then strip_fails_early p' l' else true
  | _, _ => false
  end.

(** [%04d] of [y] differs from [str(y) + "_"] before the latter ends. *)
Definition short_year_mismatch (y : Z) : bool :=
  strip_fails_early (codes (zpad 4 y)) (codes (str_of_nat_Z y) ++ [95]).

Definition sample_dl_session : SessionState.t :=
  fold_left (fun s kv => SessionState.set s kv.1 kv.2)
    [("dataset_short_name", PStr "era5-world"); ("save_dir", PStr "data");
     ("existing_file_action", PStr "skip_all");
     ("session_client", PObj "cdsapi.Client" 0);
     ("variables", PList [PStr "2m_temperature"]);
     ("region_bounds", PList [PInt 10; PInt 0; PInt 0; PInt 10]);
     ("retry_settings", PDict [("max_retries", PInt 2); ("retry_delay_sec", PInt 0)])]
    SessionState.init.

Definition sample_remote : Remote :=
  mk_remote (fun k => Nat.eqb k 0) (fun _ => true) (fun _ => true).
(* ================================================================== *)
(** * Properties *)

(* ------------------------------------------------------------------ *)
(** ** SessionState *)

Lemma update_field_keys (k : string) (f : SessionState.field -> SessionState.field)
    (s : SessionState.t) :
  map fst (SessionState.update_field k f s) = map fst s.
Proof.
  induction s as [|[k' e] r IH]; simpl; [reflexivity|].
  destruct (String.eqb k k'); simpl; [reflexivity | now rewrite IH].
Qed.

Lemma key_in_false (s : SessionState.t) (k : string) :
  ~ In k (map fst s) -> SessionState.key_in s k = false.
Proof.
  intros Hk. unfold SessionState.key_in.
  apply not_true_iff_false. rewrite existsb_exists.
  intros [[k' e] [Hin Heq]]. apply String.eqb_eq in Heq. simpl in Heq. subst k'.
  apply Hk. apply (in_map fst _ _ Hin).
Qed.

Lemma apply_op_keys (s : SessionState.t) (o : SessionState.op) :
  map fst (SessionState.apply_op s o) = map fst s.
Proof.
  destruct o as [k v|k]; simpl;
    [unfold SessionState.set | unfold SessionState.unset];
    destruct (SessionState.key_in s k); auto using update_field_keys.
Qed.

Lemma apply_ops_keys (s : SessionState.t) (os : list SessionState.op) :
  map fst (SessionState.apply_ops s os) = map fst s.
Proof.
  unfold SessionState.apply_ops. revert s.
  induction os as [|o r IH]; intros s; simpl; [reflexivity|].
  rewrite IH. apply apply_op_keys.
Qed.

Lemma init_keys : map fst SessionState.init = SessionState.session_keys.
Proof. reflexivity. Qed.

(** C10: every operation keeps the key list of the session (the 14 fields
    in declaration order); from the initial state any sequence of [set]
    and [unset] calls leaves exactly those keys in that order; and on a
    key outside the fields [set] and [unset] change nothing and [get]
    returns [None]. *)
Theorem session_state_keys_fixed :
  (forall (s : SessionState.t) (o : SessionState.op),
      map fst (SessionState.apply_op s o) = map fst s) /\
  (forall os : list SessionState.op,
      map fst (SessionState.apply_ops SessionState.init os) = SessionState.session_keys) /\
  (forall (s : SessionState.t) (k : string) (v : pyval),
      map fst s = SessionState.session_keys ->
      ~ In k SessionState.session_keys ->
      SessionState.set s k v = s /\ SessionState.unset s k = s /\
      SessionState.get s k = PNone).
Proof.
  split; [exact apply_op_keys|]. split.
  - intros os. rewrite apply_ops_keys. apply init_keys.
  - intros s k v Hs Hk. rewrite <- Hs in Hk. pose proof (key_in_false s k Hk) as Hf.
    unfold SessionState.set, SessionState.unset, SessionState.get.
    rewrite Hf. auto.
Qed.

Lemma session_state_keys_fixed_witness :
  map fst (SessionState.apply_ops SessionState.init
             [SessionState.OpSet "variables" (PList [PStr "2m_temperature"]);
              SessionState.OpSet "bogus" (PInt 1); SessionState.OpUnset "api_key"])
    = SessionState.session_keys /\
  SessionState.set SessionState.init "bogus" (PInt 1) = SessionState.init /\
  SessionState.unset SessionState.init "bogus" = SessionState.init /\
  SessionState.get SessionState.init "bogus" = PNone.
Proof.
  split; [apply (proj1 (proj2 session_state_keys_fixed))|].
  apply (proj2 (proj2 session_state_keys_fixed) SessionState.init "bogus" (PInt 1)).
  - reflexivity.
  - simpl. intuition discriminate.
Defined.

(* ------------------------------------------------------------------ *)
(** ** validate_coordinates *)

Lemma Qle_bool_false_iff (x y : Q) : Qle_bool x y = false <-> (y < x)%Q.
Proof.
  split.
  - intros H. apply Qnot_le_lt. intros Hle. apply Qle_bool_iff in Hle. congruence.
  - intros H. apply not_true_iff_false. intros Hle. apply Qle_bool_iff in Hle.
    apply (Qlt_not_le _ _ H Hle).
Qed.

(** C6 (as amended): [validate_coordinates] accepts exactly the bounds
    with -90 <= south < north <= 90 and both longitudes in [-180, 180]
    (east < west is accepted); (10, -200, 0, 20) and (-10, 0, 10, 20) are
    rejected. *)
Theorem validate_coordinates_iff (north west south east : Q) :
  (validate_coordinates north west south east = true <->
     ((-90 <= south)%Q /\ (south < north)%Q /\ (north <= 90)%Q /\
      (-180 <= west)%Q /\ (west <= 180)%Q /\ (-180 <= east)%Q /\ (east <= 180)%Q)) /\
  validate_coordinates 10 (-200) 0 20 = false /\
  validate_coordinates (-10) 0 10 20 = false.
Proof.
  split; [|split; reflexivity].
  unfold validate_coordinates. simpl.
  rewrite !andb_true_iff, negb_true_iff, !Qle_bool_iff, Qle_bool_false_iff.
  split.
  - intros [[Hs1 Hs2] [[Hn1 Hn2] [[Hw1 Hw2] [[He1 He2] [Hlt _]]]]]. tauto.
  - intros (Hs1 & Hlt & Hn2 & Hw1 & Hw2 & He1 & He2).
    assert (Hs2 : (south <= 90)%Q) by (apply Qle_trans with north; [apply Qlt_le_weak|]; assumption).
    assert (Hn1 : (-90 <= north)%Q) by (apply Qle_trans with south; [|apply Qlt_le_weak]; assumption).
    tauto.
Qed.

(** C6 counterexample: north = south = 0 (a zero-height box) satisfies
    -90 <= south <= north <= 90 and the longitude ranges, but the code
    rejects it. *)
Lemma validate_coordinates_equal_lats :
  validate_coordinates 0 0 0 0 = false /\
  ((-90 <= 0)%Q /\ (0 <= 0)%Q /\ (0 <= 90)%Q /\ (-180 <= 0)%Q /\ (0 <= 180)%Q).
Proof. split; [reflexivity|]. unfold Qle; simpl; lia. Qed.

(* ------------------------------------------------------------------ *)
(** ** Existing-file policy *)

Definition MSG_EFA_COERCE : string :=
  "existing_file_action='case_by_case' is not supported without prompts; coercing to 'skip_all' for automatic mode.".

Definition MSG_CONFIG_EFA_COERCE : string :=
  "Config provided 'case_by_case' in automatic mode; coercing to 'skip_all'.".

(** C5: with prompts disallowed, a session whose existing_file_action is
    "case_by_case" (or unset, which defaults to it) gets the policy
    "skip_all": [validate_existing_file_action] returns it, stores it in
    the session and logs one warning, without raising; in automatic mode
    the config check of [_validate_common] likewise rewrites
    "case_by_case" to "skip_all" with a warning; and under "skip_all" an
    existing month file is skipped. *)
Theorem case_by_case_coerced_to_skip_all (session : SessionState.t) (logger : pyval)
    (w : world) :
  py_truthy logger = true ->
  (SessionState.get session "existing_file_action" = PStr "case_by_case" \/
   py_truthy (SessionState.get session "existing_file_action") = false) ->
  validate_existing_file_action session false logger w =
    (Ret ("skip_all", SessionState.set session "existing_file_action" (PStr "skip_all")),
     w_add_log w (mk_log "warning" MSG_EFA_COERCE)) /\
  (forall config : list (string * pyval),
      dict_get config "existing_file_action" (PStr "case_by_case") = PStr "case_by_case" ->
      validate_common_existing_file_action config "automatic" logger w =
        (Ret (dict_set config "existing_file_action" (PStr "skip_all")),
         w_add_log w (mk_log "warning" MSG_CONFIG_EFA_COERCE))) /\
  (forall p : string, plan_month "skip_all" (Some p) w = (Ret (Skip p), w)).
Proof.
  intros Hlg Hefa. split; [|split].
  - unfold validate_existing_file_action.
    assert (Hp : (if py_truthy (SessionState.get session "existing_file_action")
                  then SessionState.get session "existing_file_action"
                  else PStr "case_by_case") = PStr "case_by_case").
    { destruct Hefa as [H|H]; rewrite H; reflexivity. }
    rewrite Hp. cbn. unfold log_msg. rewrite Hlg. reflexivity.
  - intros config Hc. unfold validate_common_existing_file_action. rewrite Hc.
    cbn. unfold log_msg. rewrite Hlg. reflexivity.
  - intros p. reflexivity.
Qed.

Lemma case_by_case_coerced_to_skip_all_witness :
  validate_existing_file_action
      (SessionState.set SessionState.init "existing_file_action" (PStr "case_by_case"))
      false (PObj "Logger" 0) world0 =
    (Ret ("skip_all",
          SessionState.set
            (SessionState.set SessionState.init "existing_file_action" (PStr "case_by_case"))
            "existing_file_action" (PStr "skip_all")),
     w_add_log world0 (mk_log "warning" MSG_EFA_COERCE)).
Proof.
  apply (proj1 (case_by_case_coerced_to_skip_all
                  (SessionState.set SessionState.init "existing_file_action" (PStr "case_by_case"))
                  (PObj "Logger" 0) world0 eq_refl (or_introl eq_refl))).
Defined.

(* ------------------------------------------------------------------ *)
(** ** clamp_era5_available_end_date *)

Definition MSG_LOG_MSG_MISSING_LOGGER : string :=
  "log_msg() missing 1 required positional argument: 'logger'".

(** C7 (code bug): whenever the end date lies after the availability
    boundary (midnight of [now] minus 8 days), so that it would have to
    be clamped, the function raises [TypeError]: its [log_msg] call omits
    the required [logger] argument.  No clamped date is ever returned. *)
Theorem clamp_era5_raises_when_clamping (now end_ : datetime) (w : world) :
  dt_gt end_ (dt_sub_days (dt_midnight now) EIGHT_DAY_LAG) = true ->
  clamp_era5_available_end_date now end_ w =
    (Raise (TypeError MSG_LOG_MSG_MISSING_LOGGER), w).
Proof.
  intros H. unfold clamp_era5_available_end_date. rewrite H. reflexivity.
Qed.

(** Tomorrow's date, with [now] = 2026-10-18 12:00. *)
Lemma clamp_era5_raises_when_clamping_witness :
  dt_gt (datetime_ymd 2026 10 19) (dt_sub_days (dt_midnight (mk_dt 2026 10 18 (12 * 3600 * 1000000)))
                                                EIGHT_DAY_LAG) = true /\
  clamp_era5_available_end_date (mk_dt 2026 10 18 (12 * 3600 * 1000000)) (datetime_ymd 2026 10 19) world0 =
    (Raise (TypeError MSG_LOG_MSG_MISSING_LOGGER), world0).
Proof.
  split; [vm_compute; reflexivity|].
  apply clamp_era5_raises_when_clamping. vm_compute. reflexivity.
Defined.

(** Below the boundary the date is returned unchanged. *)
Lemma clamp_era5_unchanged (now end_ : datetime) (w : world) :
  dt_gt end_ (dt_sub_days (dt_midnight now) EIGHT_DAY_LAG) = false ->
  clamp_era5_available_end_date now end_ w = (Ret end_, w).
Proof.
  intros H. unfold clamp_era5_available_end_date. rewrite H. reflexivity.
Qed.

(* ------------------------------------------------------------------ *)
(** ** map_config_to_session *)

(** A config whose retry count is not an integer literal. *)
Definition cfg_bad_max_retries : list (string * pyval) :=
  [("retry_settings", PDict [("max_retries", PStr "abc")])].

(** C4 (code bug): whatever the helpers outside the module return, the
    config [{"retry_settings": {"max_retries": "abc"}}] makes
    [map_config_to_session] raise [ValueError] from the unguarded
    [int(...)] of the retry section, instead of returning [(False, messages)]
    with the errors it has collected (missing api_key, dates, bounds and
    variables). *)
Theorem map_config_raises_on_bad_max_retries (env : MapEnv) (session : SessionState.t)
    (w : world) :
  map_config_to_session env cfg_bad_max_retries session w =
    (Raise (ValueError "invalid literal for int() with base 10: 'abc'"), w).
Proof.
  unfold map_config_to_session. cbn.
  destruct (env_dir_ok env (env_default_save_dir env)); reflexivity.
Qed.

(* ------------------------------------------------------------------ *)
(** ** execute_cds_download: counting remote calls and retry delays *)

(** Number of [retrieve] calls recorded in an event trace. *)
Fixpoint retrieve_count (evs : list event) : nat :=
  match evs with
  | [] => O
  | ERetrieve _ _ _ _ :: r => S (retrieve_count r)
  | _ :: r => retrieve_count r
  end.

(** The arguments of the [time.sleep(retry_delay_sec)] calls of the retry
    loop, in order. *)
Fixpoint retry_sleeps (evs : list event) : list pyval :=
  match evs with
  | [] => []
  | ESleep RetryDelay s :: r => s :: retry_sleeps r
  | _ :: r => retry_sleeps r
  end.

Lemma retrieve_count_app (a b : list event) :
  retrieve_count (a ++ b) = (retrieve_count a + retrieve_count b)%nat.
Proof. induction a as [|[] r IH]; simpl; rewrite ?IH; reflexivity. Qed.

Lemma retry_sleeps_app (a b : list event) :
  retry_sleeps (a ++ b) = retry_sleeps a ++ retry_sleeps b.
Proof. induction a as [|[| [] |] r IH]; simpl; rewrite ?IH; reflexivity. Qed.

(** [w'] differs from [w] by no retrieve call and no retry delay. *)
Definition quiet (w w' : world) : Prop :=
  retrieve_count (w_events w') = retrieve_count (w_events w) /\
  retry_sleeps (w_events w') = retry_sleeps (w_events w) /\
  w_retrieves w' = w_retrieves w.

Lemma quiet_refl (w : world) : quiet w w.
Proof. repeat split. Qed.

Lemma quiet_trans (w1 w2 w3 : world) : quiet w1 w2 -> quiet w2 w3 -> quiet w1 w3.
Proof. unfold quiet. intros (A & B & C) (D & E & F). repeat split; congruence. Qed.

Lemma quiet_log (w : world) (e : logentry) : quiet w (w_add_log w e).
Proof. repeat split. Qed.

Lemma log_msg_ok (msg : string) (lg : pyval) (level : string) (w : world) :
  py_truthy lg = true ->
  log_msg msg (Some lg) level w = (Ret tt, w_add_log w (mk_log level msg)).
Proof. intros H. unfold log_msg. now rewrite H. Qed.

Definition is_cds_client (c : pyval) : Prop := exists id, c = PObj "cdsapi.Client" id.

(** Unfold the monad of the model one step. *)
Ltac munfold :=
  unfold mbind, M_bind, mret, M_ret, try_except, raise; cbn beta iota zeta.

(** The reconnection helper never raises, does not call [retrieve] nor
    sleep the retry delay, and returns [None] or a client. *)
Lemma ensure_loop_quiet (rm : Remote) (c : pyval) (mr wait : Z) (attempts : list Z)
    (w : world) :
  (0 <= wait)%Z ->
  is_cds_client c ->
  exists r w', ensure_loop rm c mr wait attempts w = (Ret r, w') /\ quiet w w' /\
               (forall c', r = Some c' -> is_cds_client c').
Proof.
  intros Hwait Hc. destruct Hc as [id ->]. revert w.
  induction attempts as [|a rest IH]; intros w.
  - exists None, w. split; [reflexivity|]. split; [apply quiet_refl|discriminate].
  - cbn [ensure_loop]. munfold.
    unfold client_session_probe. simpl.
    destruct (session_alive rm (w_checks w)) eqn:Halive; simpl.
    + eexists _, _. split; [reflexivity|]. split.
      * repeat split.
      * intros c' [= <-]. now exists id.
    + unfold cdsapi_client. simpl.
      destruct (client_init_ok rm (w_inits w)) eqn:Hinit; simpl.
      * eexists _, _. split; [reflexivity|]. split.
        -- unfold quiet. simpl. rewrite retrieve_count_app, retry_sleeps_app. simpl.
           rewrite app_nil_r. repeat split; lia.
        -- intros c' [= <-]. eexists; reflexivity.
      * destruct (Z.ltb a mr).
        -- unfold time_sleep. simpl.
           assert (Hw : Z.ltb wait 0 = false) by (apply Z.ltb_ge; exact Hwait).
           rewrite Hw. simpl.
           match goal with |- context [ensure_loop _ _ _ _ rest ?w1] =>
             destruct (IH w1) as (r & w' & Heq & Hq & Hr);
             exists r, w'; rewrite Heq; split; [reflexivity|]; split; [|exact Hr];
             refine (quiet_trans _ w1 _ _ Hq)
           end.
           unfold quiet. simpl. rewrite retrieve_count_app, retry_sleeps_app. simpl.
           rewrite app_nil_r. repeat split; lia.
        -- eexists _, _. split; [reflexivity|]. split; [repeat split|discriminate].
Qed.

Definition zrange (a : Z) (n : nat) : list Z := map (fun k : nat => a + Z.of_nat k) (seq 0 n).

Lemma zrange_S (a : Z) (n : nat) : zrange a (S n) = a :: zrange (a + 1) n.
Proof.
  unfold zrange. simpl. f_equal; [lia|].
  rewrite <- seq_shift, map_map. apply map_ext. intros; lia.
Qed.

Arguments zrange : simpl never.

Section RetryLoop.

Variables (rm : Remote) (logger : pyval) (product : string) (req : cds_request)
          (save_path : string) (y m N d : Z).
Hypothesis Hlg : py_truthy logger = true.
Hypothesis Hd : (0 <= d)%Z.

Lemma retry_loop_all_fail (n : nat) (a : Z) (c : pyval) (session : SessionState.t)
    (w : world) :
  (forall k, retrieve_ok rm k = false) ->
  is_cds_client c ->
  (a + Z.of_nat n - 1 = N)%Z -> (1 <= n)%nat ->
  let '(r, w') :=
    retry_loop rm logger product req save_path y m N (PInt d) (zrange a n) c session w in
  (exists s', r = Ret (Some (y, m, "failed"), s')) /\
  retrieve_count (w_events w') = (retrieve_count (w_events w) + n)%nat /\
  retry_sleeps (w_events w') = retry_sleeps (w_events w) ++ repeat (PInt d) (n - 1).
Proof.
  intros Hfail. revert a c session w.
  induction n as [|n IH]; intros a c session w Hc HN Hn; [lia|].
  rewrite zrange_S. destruct Hc as [id ->].
  remember (zrange (a + 1) n) as rest eqn:Hrest.
  cbn [retry_loop]. munfold.
  unfold log_msg. rewrite Hlg.
  unfold cds_retrieve. simpl. rewrite Hfail. simpl.
  idtac.
  destruct n as [|n].
  - assert (Hlt : Z.ltb a N = false) by (apply Z.ltb_ge; lia). rewrite Hlt.
    idtac. simpl.
    split; [eexists; reflexivity|].
    rewrite retrieve_count_app, retry_sleeps_app. simpl. split; [lia|].
    now rewrite app_nil_r.
  - assert (Hlt : Z.ltb a N = true) by (apply Z.ltb_lt; lia). rewrite Hlt.
    idtac.
    unfold time_sleep.
    assert (Hw : Z.ltb d 0 = false) by (apply Z.ltb_ge; exact Hd). rewrite Hw. simpl.
    unfold ensure_cds_connection.
    match goal with |- context [ensure_loop _ _ _ _ _ ?w1] =>
      destruct (ensure_loop_quiet rm (PObj "cdsapi.Client" id) 6 15 (py_range1 6) w1)
        as (r & w2 & Heq & (Q1 & Q2 & Q3) & Hr);
      [lia | now exists id | rewrite Heq]
    end.
    destruct r as [c'|]; simpl.
    + idtac. simpl.
      specialize (IH (a + 1) c' (SessionState.set session "session_client" c')
                   (w_add_log w2 (mk_log "info" (tab ++ "Re-authenticated CDS API client.")))
                   (Hr c' eq_refl) ltac:(lia) ltac:(lia)).
      rewrite <- Hrest in IH.
      destruct (retry_loop _ _ _ _ _ _ _ _ _ _ _ _ _) as [r' w'].
      destruct IH as (HR & R1 & R2). split; [exact HR|].
      simpl in *. rewrite R1, R2, Q1, Q2. simpl.
      rewrite retrieve_count_app, retry_sleeps_app, !retrieve_count_app, !retry_sleeps_app. simpl.
      split; [lia|]. rewrite !app_nil_r, <- app_assoc, Nat.sub_0_r. reflexivity.
    + idtac. simpl.
      specialize (IH (a + 1) (PObj "cdsapi.Client" id) session
                   (w_add_log w2 (mk_log "warning" (tab ++ "Re-authentication failed: "
                                    ++ "Re-authentication returned None client.")))
                   ltac:(now exists id) ltac:(lia) ltac:(lia)).
      rewrite <- Hrest in IH.
      destruct (retry_loop _ _ _ _ _ _ _ _ _ _ _ _ _) as [r' w'].
      destruct IH as (HR & R1 & R2). split; [exact HR|].
      simpl in *. rewrite R1, R2, Q1, Q2. simpl.
      rewrite !retrieve_count_app, !retry_sleeps_app. simpl.
      split; [lia|]. rewrite !app_nil_r, <- app_assoc, Nat.sub_0_r. reflexivity.
Qed.

Lemma retry_loop_first_success (j : nat) (n : nat) (a : Z) (c : pyval)
    (session : SessionState.t) (w : world) :
  (forall i, (i < j)%nat -> retrieve_ok rm (w_retrieves w + i) = false) ->
  retrieve_ok rm (w_retrieves w + j) = true ->
  is_cds_client c ->
  (a + Z.of_nat n - 1 = N)%Z -> (j < n)%nat ->
  let '(r, w') :=
    retry_loop rm logger product req save_path y m N (PInt d) (zrange a n) c session w in
  (exists s', r = Ret (Some (y, m, "success"), s')) /\
  retrieve_count (w_events w') = (retrieve_count (w_events w) + S j)%nat.
Proof.
  revert n a c session w.
  induction j as [|j IH]; intros n a c session w Hbefore Hok Hc HN Hj;
    (destruct n as [|n]; [lia|]);
    rewrite zrange_S; destruct Hc as [id ->];
    remember (zrange (a + 1) n) as rest eqn:Hrest;
    cbn [retry_loop]; munfold; unfold log_msg; rewrite Hlg;
    unfold cds_retrieve; simpl.
  - rewrite Nat.add_0_r in Hok. rewrite Hok. simpl.
    split; [eexists; reflexivity|].
    rewrite retrieve_count_app. simpl. lia.
  - pose proof (Hbefore 0%nat ltac:(lia)) as H0. rewrite Nat.add_0_r in H0.
    rewrite H0. simpl.
    assert (Hlt : Z.ltb a N = true) by (apply Z.ltb_lt; lia). rewrite Hlt.
    unfold time_sleep.
    assert (Hw : Z.ltb d 0 = false) by (apply Z.ltb_ge; exact Hd). rewrite Hw. simpl.
    unfold ensure_cds_connection.
    match goal with |- context [ensure_loop _ _ _ _ _ ?w1] =>
      destruct (ensure_loop_quiet rm (PObj "cdsapi.Client" id) 6 15 (py_range1 6) w1)
        as (r & w2 & Heq & (Q1 & Q2 & Q3) & Hr);
      [lia | now exists id | rewrite Heq]
    end.
    simpl in Q1, Q3.
    assert (Hshift : forall i, (i < j)%nat ->
               retrieve_ok rm (w_retrieves w2 + i) = false).
    { intros i Hi. rewrite Q3. replace (S (w_retrieves w) + i)%nat
        with (w_retrieves w + S i)%nat by lia. apply Hbefore. lia. }
    assert (Hok' : retrieve_ok rm (w_retrieves w2 + j) = true).
    { rewrite Q3. replace (S (w_retrieves w) + j)%nat
        with (w_retrieves w + S j)%nat by lia. exact Hok. }
    destruct r as [c'|]; simpl.
    + specialize (IH n (a + 1) c' (SessionState.set session "session_client" c')
                   (w_add_log w2 (mk_log "info" (tab ++ "Re-authenticated CDS API client.")))
                   Hshift Hok' (Hr c' eq_refl) ltac:(lia) ltac:(lia)).
      rewrite <- Hrest in IH.
      destruct (retry_loop _ _ _ _ _ _ _ _ _ _ _ _ _) as [r' w'].
      destruct IH as (HR & R1). split; [exact HR|].
      simpl in R1. rewrite R1, Q1, !retrieve_count_app. simpl. lia.
    + specialize (IH n (a + 1) (PObj "cdsapi.Client" id) session
                   (w_add_log w2 (mk_log "warning" (tab ++ "Re-authentication failed: "
                                    ++ "Re-authentication returned None client.")))
                   Hshift Hok' ltac:(now exists id) ltac:(lia) ltac:(lia)).
      rewrite <- Hrest in IH.
      destruct (retry_loop _ _ _ _ _ _ _ _ _ _ _ _ _) as [r' w'].
      destruct IH as (HR & R1). split; [exact HR|].
      simpl in R1. rewrite R1, Q1, !retrieve_count_app. simpl. lia.
Qed.

End RetryLoop.

Lemma py_range1_zrange (n : Z) : py_range1 n = zrange 1 (Z.to_nat n).
Proof. reflexivity. Qed.

(** With a well-formed session, [execute_cds_download] is the retry loop
    over [range(1, max_retries + 1)]. *)
Lemma execute_cds_download_loop (rm : Remote) (session : SessionState.t)
    (save_path : string) (y m N : Z) (dv : pyval) (logger : pyval) (id : nat) (w : world) :
  SessionState.get session "dataset_short_name" = PStr "era5-world" ->
  SessionState.get session "session_client" = PObj "cdsapi.Client" id ->
  SessionState.get session "retry_settings" =
    PDict [("max_retries", PInt N); ("retry_delay_sec", dv)] ->
  (1 <= m <= 12)%Z ->
  exists req, execute_cds_download rm session save_path y m logger w =
    retry_loop rm logger "reanalysis-era5-single-levels" req save_path y m N dv
               (zrange 1 (Z.to_nat N)) (PObj "cdsapi.Client" id) session w.
Proof.
  intros Hds Hcl Hrs Hm.
  unfold execute_cds_download, get_cds_dataset_config.
  rewrite Hds, Hcl, Hrs. munfold.
  unfold month_days.
  replace (Z.leb 1 m && Z.leb m 12)%bool with true
    by (symmetry; apply andb_true_iff; split; apply Z.leb_le; lia).
  simpl. eexists. reflexivity.
Qed.

(** C3: for a session set up by the configuration layer (dataset
    era5-world, a CDS client, [retry_settings] = {max_retries: N,
    retry_delay_sec: d} with N >= 1 and d >= 0) and a valid month: if
    every [retrieve] call raises, [execute_cds_download] makes exactly N
    retrieve calls, sleeps the retry delay exactly N - 1 times, each time
    for d seconds, and returns (year, month, "failed"); if the calls before
    the (j+1)-th fail and the (j+1)-th succeeds, with j < N, it returns
    (year, month, "success") after exactly j + 1 calls. *)
Theorem execute_cds_download_retries (rm : Remote) (session : SessionState.t)
    (save_path : string) (y m N d : Z) (logger : pyval) (id : nat) (w : world) :
  py_truthy logger = true ->
  SessionState.get session "dataset_short_name" = PStr "era5-world" ->
  SessionState.get session "session_client" = PObj "cdsapi.Client" id ->
  SessionState.get session "retry_settings" =
    PDict [("max_retries", PInt N); ("retry_delay_sec", PInt d)] ->
  (1 <= N)%Z -> (0 <= d)%Z -> (1 <= m <= 12)%Z ->
  ((forall k, retrieve_ok rm k = false) ->
   let '(r, w') := execute_cds_download rm session save_path y m logger w in
   (exists s', r = Ret (Some (y, m, "failed"), s')) /\
   retrieve_count (w_events w') = (retrieve_count (w_events w) + Z.to_nat N)%nat /\
   retry_sleeps (w_events w') = retry_sleeps (w_events w) ++ repeat (PInt d) (Z.to_nat N - 1)) /\
  (forall j : nat, (j < Z.to_nat N)%nat ->
   (forall i, (i < j)%nat -> retrieve_ok rm (w_retrieves w + i) = false) ->
   retrieve_ok rm (w_retrieves w + j) = true ->
   let '(r, w') := execute_cds_download rm session save_path y m logger w in
   (exists s', r = Ret (Some (y, m, "success"), s')) /\
   retrieve_count (w_events w') = (retrieve_count (w_events w) + S j)%nat).
Proof.
  intros Hlg Hds Hcl Hrs HN Hd Hm.
  destruct (execute_cds_download_loop rm session save_path y m N (PInt d) logger id w
              Hds Hcl Hrs Hm) as [req Heq].
  rewrite Heq. split.
  - intros Hfail.
    apply (retry_loop_all_fail rm logger _ req save_path y m N d Hlg Hd); auto.
    + now exists id.
    + rewrite Z2Nat.id by lia. lia.
    + lia.
  - intros j Hj Hbefore Hok.
    apply (retry_loop_first_success rm logger _ req save_path y m N d Hlg Hd); auto.
    + now exists id.
    + rewrite Z2Nat.id by lia. lia.
Qed.

(** A session as [map_config_to_session] leaves it, with three retries
    of 15 seconds. *)
Definition session_3_retries : SessionState.t :=
  SessionState.apply_ops SessionState.init
    [SessionState.OpSet "dataset_short_name" (PStr "era5-world");
     SessionState.OpSet "session_client" (PObj "cdsapi.Client" 0);
     SessionState.OpSet "variables" (PList [PStr "2m_temperature"]);
     SessionState.OpSet "region_bounds" (PList [PInt 10; PInt 0; PInt 0; PInt 10]);
     SessionState.OpSet "retry_settings"
       (PDict [("max_retries", PInt 3); ("retry_delay_sec", PInt 15)])].

Definition remote_always_failing : Remote :=
  mk_remote (fun _ => false) (fun _ => true) (fun _ => true).

Lemma execute_cds_download_retries_witness :
  let '(r, w') := execute_cds_download remote_always_failing session_3_retries
                    "era5.grib" 2020 2 (PObj "Logger" 0) world0 in
  (exists s', r = Ret (Some (2020, 2, "failed"), s')) /\
  retrieve_count (w_events w') = (retrieve_count (w_events world0) + Z.to_nat 3)%nat /\
  retry_sleeps (w_events w') = retry_sleeps (w_events world0) ++ repeat (PInt 15) (Z.to_nat 3 - 1).
Proof.
  apply (proj1 (execute_cds_download_retries remote_always_failing session_3_retries
                  "era5.grib" 2020 2 3 15 (PObj "Logger" 0) 0 world0
                  eq_refl eq_refl eq_refl eq_refl ltac:(lia) ltac:(lia) ltac:(lia))).
  intros k. reflexivity.
Defined.

(** C9: with [max_retries] = 0, a value the configuration layer stores
    without an error, [execute_cds_download] makes no retrieve call, no
    state change, and returns [None] rather than a (year, month, status)
    tuple. *)
Theorem execute_cds_download_zero_retries (rm : Remote) (session : SessionState.t)
    (save_path : string) (y m : Z) (dv : pyval) (logger : pyval) (id : nat) (w : world) :
  SessionState.get session "dataset_short_name" = PStr "era5-world" ->
  SessionState.get session "session_client" = PObj "cdsapi.Client" id ->
  SessionState.get session "retry_settings" =
    PDict [("max_retries", PInt 0); ("retry_delay_sec", dv)] ->
  (1 <= m <= 12)%Z ->
  execute_cds_download rm session save_path y m logger w = (Ret (None, session), w) /\
  (forall (a : acc) (w0 : world),
      sec_retry [("retry_settings", PDict [("max_retries", PInt 0)])] a w0 =
        (Ret (add_msg (set_acc a "retry_settings"
                         (PDict [("max_retries", PInt 0); ("retry_delay_sec", PInt 15)]))
                      "retry_settings = {'max_retries': 0, 'retry_delay_sec': 15}"), w0)).
Proof.
  intros Hds Hcl Hrs Hm. split.
  - destruct (execute_cds_download_loop rm session save_path y m 0 dv logger id w
                Hds Hcl Hrs Hm) as [req Heq].
    rewrite Heq. reflexivity.
  - intros a w0. reflexivity.
Qed.

Definition session_0_retries : SessionState.t :=
  SessionState.set session_3_retries "retry_settings"
    (PDict [("max_retries", PInt 0); ("retry_delay_sec", PInt 15)]).

Lemma execute_cds_download_zero_retries_witness :
  execute_cds_download remote_always_failing session_0_retries "era5.grib" 2020 2
    (PObj "Logger" 0) world0 = (Ret (None, session_0_retries), world0).
Proof.
  apply (proj1 (execute_cds_download_zero_retries remote_always_failing session_0_retries
                  "era5.grib" 2020 2 (PInt 15) (PObj "Logger" 0) 0 world0
                  eq_refl eq_refl eq_refl ltac:(lia))).
Defined.

Lemma month_of_index_index (y m : Z) :
  1 <= m <= 12 -> month_of_index (month_index y m) = (y, m).
Proof.
  intros Hm. unfold month_of_index, month_index. f_equal; Z.div_mod_to_equations; lia.
Qed.

Lemma month_index_of (i : Z) : month_index (fst (month_of_index i)) (snd (month_of_index i)) = i.
Proof. unfold month_of_index, month_index; simpl. Z.div_mod_to_equations; lia. Qed.

(** [datetime(y, m, 1) <= e] compares month indices. *)
Lemma dt_le_month_start (cy cm : Z) (e : datetime) :
  1 <= cm <= 12 -> 1 <= month e <= 12 -> 1 <= day e -> 0 <= us e ->
  dt_le (datetime_ymd cy cm 1) e = Z.leb (month_index cy cm) (month_index (year e) (month e)).
Proof.
  destruct e as [ye me de ue]; simpl. intros Hcm Hme Hde Hue.
  unfold dt_le, datetime_ymd, month_index; cbn [year month day us].
  repeat match goal with
         | |- context [Z.ltb ?a ?b] => destruct (Z.ltb_spec a b)
         | |- context [Z.eqb ?a ?b] => destruct (Z.eqb_spec a b)
         | |- context [Z.leb ?a ?b] => destruct (Z.leb_spec a b)
         end; cbn; (reflexivity || lia).
Qed.

Lemma month_range_cons (i : Z) (n : nat) :
  map (fun k : nat => month_of_index (i + Z.of_nat k)) (seq 0 (S n)) =
  month_of_index i :: map (fun k : nat => month_of_index (i + 1 + Z.of_nat k)) (seq 0 n).
Proof.
  simpl. rewrite Z.add_0_r. f_equal.
  rewrite <- seq_shift, map_map. apply map_ext. intros k. f_equal. lia.
Qed.

Section MonthLoop.
Variable e : datetime.
Hypothesis He : 1 <= month e <= 12 /\ 1 <= day e /\ 0 <= us e.
Hypothesis Hmax : month_index (year e) (month e) < month_index 9999 12.

Lemma month_loop_range (fuel : nat) (i : Z) :
  month_index (year e) (month e) - i < Z.of_nat fuel ->
  month_loop fuel (fst (month_of_index i)) (snd (month_of_index i)) e =
  Ret (map (fun k : nat => month_of_index (i + Z.of_nat k))
           (seq 0 (Z.to_nat (month_index (year e) (month e) - i + 1)))).
Proof.
  destruct He as (Hme & Hde & Hue).
  revert i. induction fuel as [|f IH]; intros i Hf.
  - simpl in Hf. replace (Z.to_nat _) with 0%nat by lia. reflexivity.
  - cbn [month_loop].
    rewrite dt_le_month_start
      by (unfold month_of_index; simpl; try Z.div_mod_to_equations; lia).
    rewrite month_index_of.
    destruct (Z.leb_spec i (month_index (year e) (month e))) as [Hle|Hgt].
    + replace (Z.to_nat (month_index (year e) (month e) - i + 1))
        with (S (Z.to_nat (month_index (year e) (month e) - (i + 1) + 1))) by lia.
      rewrite month_range_cons.
      pose proof (IH (i + 1) ltac:(lia)) as IH'.
      unfold month_index in Hmax, Hle.
      unfold month_of_index in *; simpl in *.
      destruct (Z.eqb_spec (i mod 12 + 1) 12) as [H12|H12].
      * replace ((i + 1) / 12) with (i / 12 + 1) in IH' by (Z.div_mod_to_equations; lia).
        replace ((i + 1) mod 12 + 1) with 1 in IH' by (Z.div_mod_to_equations; lia).
        replace (9999 <? i / 12 + 1) with false by (symmetry; apply Z.ltb_ge; Z.div_mod_to_equations; lia).
        rewrite IH'. reflexivity.
      * replace ((i + 1) / 12) with (i / 12) in IH' by (Z.div_mod_to_equations; lia).
        replace ((i + 1) mod 12 + 1) with (i mod 12 + 1 + 1) in IH' by (Z.div_mod_to_equations; lia).
        rewrite IH'. reflexivity.
    + replace (Z.to_nat _) with 0%nat by lia. reflexivity.
Qed.

End MonthLoop.

Lemma build_month_list_range (s e : datetime) :
  1 <= month s <= 12 -> 1 <= month e <= 12 -> 1 <= day e -> 0 <= us e ->
  month_index (year e) (month e) < month_index 9999 12 ->
  build_month_list s e = Ret (spec_month_range s e).
Proof.
  intros Hms Hme Hde Hue Hmax.
  pose proof (month_loop_range e (conj Hme (conj Hde Hue)) Hmax (month_loop_fuel s e)
                (month_index (year s) (month s))) as H.
  rewrite month_of_index_index in H by exact Hms. simpl in H.
  unfold build_month_list, spec_month_range. apply H. unfold month_loop_fuel. lia.
Qed.

Lemma month_loop_dec9999 (e : datetime) (fuel : nat) (i : Z) :
  year e = 9999 -> month e = 12 -> 1 <= day e -> 0 <= us e ->
  i <= month_index 9999 12 -> month_index 9999 12 - i < Z.of_nat fuel ->
  month_loop fuel (fst (month_of_index i)) (snd (month_of_index i)) e =
  Raise (ValueError "year 10000 is out of range").
Proof.
  intros Hy Hm Hd Hu. revert i. induction fuel as [|f IH]; intros i Hi Hf; [lia|].
  cbn [month_loop].
  rewrite dt_le_month_start
    by (unfold month_of_index; simpl; try Z.div_mod_to_equations; lia).
  rewrite month_index_of, Hy, Hm.
  destruct (Z.leb_spec i (month_index 9999 12)) as [_|]; [|lia].
  pose proof (IH (i + 1)) as IH'.
  unfold month_index in *. unfold month_of_index in *; simpl in *.
  destruct (Z.eqb_spec (i mod 12 + 1) 12) as [H12|H12].
  - destruct (Z.ltb_spec 9999 (i / 12 + 1)) as [Hlt|Hge].
    + replace (i / 12 + 1) with 10000 by (Z.div_mod_to_equations; lia). reflexivity.
    + replace ((i + 1) / 12) with (i / 12 + 1) in IH' by (Z.div_mod_to_equations; lia).
      replace ((i + 1) mod 12 + 1) with 1 in IH' by (Z.div_mod_to_equations; lia).
      rewrite IH' by (Z.div_mod_to_equations; lia). reflexivity.
  - replace ((i + 1) / 12) with (i / 12) in IH' by (Z.div_mod_to_equations; lia).
    replace ((i + 1) mod 12 + 1) with (i mod 12 + 1 + 1) in IH' by (Z.div_mod_to_equations; lia).
    rewrite IH' by (Z.div_mod_to_equations; lia). reflexivity.
Qed.

Lemma build_month_list_dec9999 (s e : datetime) :
  1 <= month s <= 12 -> year s <= 9999 ->
  year e = 9999 -> month e = 12 -> 1 <= day e -> 0 <= us e ->
  build_month_list s e = Raise (ValueError "year 10000 is out of range").
Proof.
  intros Hms Hys Hy Hm Hd Hu.
  pose proof (month_loop_dec9999 e (month_loop_fuel s e) (month_index (year s) (month s))
                Hy Hm Hd Hu) as H.
  rewrite month_of_index_index in H by exact Hms. simpl in H.
  unfold build_month_list. apply H; unfold month_loop_fuel, month_index in *; rewrite ?Hy, ?Hm; lia.
Qed.

(** C2 (amended): for a valid [start_date] and a valid [end_date] after it,
    when the end is not in December 9999, the month loop of [plan_cds_months]
    returns exactly the months from the start's month through the end's
    month, in chronological order (each the successor of the previous one),
    without duplicates, containing exactly the months whose index lies in
    that range; 2020-01-15 .. 2020-03-05 gives [(2020,1); (2020,2); (2020,3)].
    When the end is in December 9999 the loop raises [ValueError] when it
    builds [datetime(10000, 1, 1)]. *)
Theorem plan_months_consecutive (s e : datetime) :
  valid_datetime s -> valid_datetime e -> dt_gt e s = true ->
  ((year e < 9999 \/ month e < 12) ->
  build_month_list s e = Ret (spec_month_range s e) /\
  (forall k p q, nth_error (spec_month_range s e) k = Some p ->
     nth_error (spec_month_range s e) (S k) = Some q ->
     month_index (fst q) (snd q) = month_index (fst p) (snd p) + 1) /\
  NoDup (spec_month_range s e) /\
  (forall y m, In (y, m) (spec_month_range s e) <->
     1 <= m <= 12 /\
     month_index (year s) (month s) <= month_index y m <= month_index (year e) (month e)) /\
  build_month_list (datetime_ymd 2020 1 15) (datetime_ymd 2020 3 5)
    = Ret [(2020, 1); (2020, 2); (2020, 3)]) /\
  (year e = 9999 -> month e = 12 ->
   build_month_list s e = Raise (ValueError "year 10000 is out of range")).
Proof.
  intros Hs He _.
  destruct Hs as (Hys & Hms & Hds & Hus). destruct He as (Hye & Hme & Hde & Hue).
  split; [intros Hend|intros Hy Hm; apply build_month_list_dec9999; lia].
  split; [apply build_month_list_range; unfold month_index; lia|].
  unfold spec_month_range.
  set (i0 := month_index (year s) (month s)).
  set (n := Z.to_nat (month_index (year e) (month e) - i0 + 1)).
  split; [|split; [|split]].
  - intros k p q Hp Hq.
    rewrite nth_error_map, nth_error_seq in Hp, Hq.
    destruct (Nat.ltb_spec k n); [|discriminate].
    destruct (Nat.ltb_spec (S k) n); [|discriminate].
    simpl in Hp, Hq. injection Hp as <-. injection Hq as <-.
    rewrite !month_index_of. lia.
  - apply NoDup_ListNoDup, NoDup_map_NoDup_ForallPairs; [|apply List.seq_NoDup].
    intros a b _ _ Hab.
    apply (f_equal (fun p => month_index (fst p) (snd p))) in Hab.
    rewrite !month_index_of in Hab. lia.
  - intros y m. rewrite in_map_iff. split.
    + intros (k & Hk & Hin). apply in_seq in Hin.
      pose proof (month_index_of (i0 + Z.of_nat k)) as Hi. rewrite Hk in Hi. simpl in Hi.
      unfold month_of_index in Hk. injection Hk as _ Hm.
      split; [subst m; Z.div_mod_to_equations; lia|]. subst n. lia.
    + intros (Hm & Hlo & Hhi). exists (Z.to_nat (month_index y m - i0)). split.
      * rewrite Z2Nat.id by lia. replace (i0 + _) with (month_index y m) by lia.
        apply month_of_index_index. exact Hm.
      * apply in_seq. subst n. lia.
  - reflexivity.
Qed.

Lemma plan_months_consecutive_witness :
  build_month_list (datetime_ymd 2020 1 15) (datetime_ymd 2020 3 5)
    = Ret (spec_month_range (datetime_ymd 2020 1 15) (datetime_ymd 2020 3 5)) /\
  spec_month_range (datetime_ymd 2020 1 15) (datetime_ymd 2020 3 5)
    = [(2020, 1); (2020, 2); (2020, 3)] /\
  build_month_list (datetime_ymd 9999 11 1) (datetime_ymd 9999 12 15)
    = Raise (ValueError "year 10000 is out of range").
Proof.
  split; [|split; [reflexivity|]].
  - destruct (plan_months_consecutive (datetime_ymd 2020 1 15) (datetime_ymd 2020 3 5))
      as [Hok _];
      [unfold valid_datetime, US_PER_DAY; vm_compute; repeat split; discriminate
      |unfold valid_datetime, US_PER_DAY; vm_compute; repeat split; discriminate
      |reflexivity|].
    exact (proj1 (Hok ltac:(simpl; lia))).
  - destruct (plan_months_consecutive (datetime_ymd 9999 11 1) (datetime_ymd 9999 12 15))
      as [_ Hdec];
      [unfold valid_datetime, US_PER_DAY; vm_compute; repeat split; discriminate
      |unfold valid_datetime, US_PER_DAY; vm_compute; repeat split; discriminate
      |reflexivity|].
    exact (Hdec eq_refl eq_refl).
Defined.

(** C2 counterexample: with the end date in December 9999 the loop reaches
    [datetime(10000, 1, 1)], which raises instead of returning the months. *)
Lemma plan_months_december_9999 :
  valid_datetime (datetime_ymd 9999 11 1) /\ valid_datetime (datetime_ymd 9999 12 15) /\
  dt_gt (datetime_ymd 9999 12 15) (datetime_ymd 9999 11 1) = true /\
  build_month_list (datetime_ymd 9999 11 1) (datetime_ymd 9999 12 15)
    = Raise (ValueError "year 10000 is out of range").
Proof.
  unfold valid_datetime, US_PER_DAY; vm_compute. repeat split; try discriminate; reflexivity.
Qed.

(* ------------------------------------------------------------------ *)
(** ** generate_filename_hash *)

Lemma py_sorted_perm (l1 l2 : list string) : l1 ≡ₚ l2 -> py_sorted l1 = py_sorted l2.
Proof.
  intros Hp. unfold py_sorted.
  apply (Sorted_unique String.le); [apply Sorted_merge_sort; apply _ ..|].
  rewrite !merge_sort_Permutation. exact Hp.
Qed.

Lemma substring_prefix_length (m : nat) (s : string) :
  (m <= String.length s)%nat -> String.length (String.substring 0 m s) = m.
Proof.
  revert s. induction m as [|m IH]; intros [|c s] H; simpl in *; try lia.
  f_equal. apply IH. lia.
Qed.

Lemma le_bytes_length (n : nat) (x : Z) : length (MD5.le_bytes n x) = n.
Proof. unfold MD5.le_bytes. rewrite length_map, length_seq. reflexivity. Qed.

Lemma length_string_of_list_ascii (l : list Ascii.ascii) :
  String.length (String.string_of_list_ascii l) = length l.
Proof. induction l as [|a l IH]; simpl; [reflexivity|rewrite IH; reflexivity]. Qed.

Lemma hexdigest_length (msg : list Z) : String.length (MD5.hexdigest msg) = 32%nat.
Proof.
  unfold MD5.hexdigest. rewrite length_string_of_list_ascii.
  assert (Hd : length (MD5.digest msg) = 16%nat).
  { unfold MD5.digest. rewrite !length_app, !le_bytes_length. reflexivity. }
  revert Hd. generalize (MD5.digest msg).
  assert (Hf : forall l : list Z,
     length (flat_map (fun b => [MD5.hex_char (b / 16); MD5.hex_char (b mod 16)]) l)
     = (2 * length l)%nat).
  { induction l as [|b l IH]; simpl; [reflexivity|rewrite IH; lia]. }
  intros l Hl. rewrite Hf, Hl. reflexivity.
Qed.

(** C8: the hash depends on the variables only through [sorted(variables)]:
    permuted variable lists give the same result, which has 12 characters
    and is the first 12 characters of the MD5 hex digest of the UTF-8 bytes
    of [f"{dataset}|{sorted(variables)}|{bounds}"]. *)
Theorem generate_filename_hash_canonical (Num : Type) (num_repr : Num -> string)
    (dataset_short_name : string) (vars1 vars2 : list string) (bounds : list Num) :
  vars1 ≡ₚ vars2 ->
  generate_filename_hash Num num_repr dataset_short_name vars1 bounds
    = generate_filename_hash Num num_repr dataset_short_name vars2 bounds /\
  String.length (generate_filename_hash Num num_repr dataset_short_name vars1 bounds) = 12%nat /\
  generate_filename_hash Num num_repr dataset_short_name vars1 bounds
    = String.substring 0 12 (MD5.hexdigest (utf8_encode
        (dataset_short_name ++ "|" ++ py_list_str (map py_repr_str (py_sorted vars1))
         ++ "|" ++ py_list_str (map num_repr bounds)))).
Proof.
  intros Hp. split; [|split].
  - unfold generate_filename_hash, param_string. rewrite (py_sorted_perm _ _ Hp). reflexivity.
  - unfold generate_filename_hash. apply substring_prefix_length.
    rewrite hexdigest_length. lia.
  - reflexivity.
Qed.

Lemma generate_filename_hash_canonical_witness :
  generate_filename_hash Z py_str_int "era5-world" ["b"; "a"] [1; 2]
    = generate_filename_hash Z py_str_int "era5-world" ["a"; "b"] [1; 2] /\
  generate_filename_hash Z py_str_int "era5-world" ["a"; "b"] [1; 2] = "7c4d859a22ed".
Proof.
  split.
  - apply (generate_filename_hash_canonical Z py_str_int "era5-world" ["b"; "a"] ["a"; "b"] [1; 2]).
    apply perm_swap.
  - vm_compute. reflexivity.
Defined.

(* ------------------------------------------------------------------ *)
(** ** run *)

Lemma log_all_ok (lg : pyval) (msgs : list string) (w : world) :
  py_truthy lg = true -> exists w', log_all lg msgs w = (Ret tt, w').
Proof.
  intros Hlg. revert w. induction msgs as [|m r IH]; intros w.
  - exists w. reflexivity.
  - simpl. munfold. unfold log_msg. rewrite Hlg. apply IH.
Qed.

(** A run environment in which every step succeeds and no month fails;
    [validate] is the result of [validate_config]. *)
Definition session_era5_world : SessionState.t :=
  SessionState.set SessionState.init "dataset_short_name" (PStr "era5-world").

Definition renv_no_failures (validate : pyres unit) : RunEnv :=
  mk_runenv (PObj "Logger" 0) "logs" true "2026-10-18T12:00:00" validate
    (fun _ => (Ret (true, ["mapped"]), session_era5_world))
    (Ret tt) (Ret "50.0") (fun _ => Ret tt) (fun _ => Ret "1m")
    (fun _ => Ret "N0W0S0E0") (fun _ => Ret "7c4d859a22ed") (fun _ => Ret "summary")
    (fun _ _ => Ret (3%nat, 0%nat, 1%nat)) (fun _ _ => Ret tt).

(** C1 (code bug): [run] does not return 0 on a clean run nor 1 when
    [validate_config] fails.  With a truthy logger, a successful mapping of
    an era5-world session and downloads without failures, [run] falls off
    the end of its [try] block and returns [None]; when [validate_config]
    raises, the handler's [create_final_log_file(..., logger=logger, ...)]
    raises [TypeError] (the parameter is [original_logger]), so [run]
    raises instead of returning 1. *)
Theorem run_exit_codes (env : RunEnv) (config : list (string * pyval)) (run_mode : string)
    (lg : pyval) (session : SessionState.t) (notes : list string) (e : py_exc) (w : world) :
  py_truthy lg = true ->
  re_map_config env SessionState.init = (Ret (true, notes), session) ->
  SessionState.get session "dataset_short_name" = PStr "era5-world" ->
  SessionState.get session "parallel_settings" = PNone ->
  re_data_dir env = Ret tt ->
  (exists sp, re_speedtest env = Ret sp) ->
  re_estimate env session = Ret tt ->
  (exists c, re_coord_str env session = Ret c) ->
  (exists h, re_hash env session = Ret h) ->
  (exists sm, re_summary env session = Ret sm) ->
  (forall fb, exists n_ok n_skipped, re_orchestrate env session fb = Ret (n_ok, 0%nat, n_skipped)) ->
  (forall fb, re_final_log env session fb = Ret tt) ->
  (re_validate_config env = Ret tt -> fst (run env config run_mode (Some lg) w) = Ret None) /\
  (re_validate_config env = Raise e ->
   fst (run env config run_mode (Some lg) w)
   = Raise (TypeError "create_final_log_file() got an unexpected keyword argument 'logger'")).
Proof.
  intros Hlg Hmap Hds Hpar Hdd [sp Hsp] Hest [c Hc] [h Hh] [sm Hsm] Horch Hfin.
  split; intros Hv.
  - unfold run. munfold. unfold log_msg. rewrite Hlg. cbn -[SessionState.init rule].
    rewrite Hv. cbn -[SessionState.init rule]. rewrite Hmap.
    unfold run_after_map. munfold.
    match goal with |- context [log_all lg notes ?w0] => destruct (log_all_ok lg notes w0 Hlg) as [w1 ->] end.
    rewrite Hds, Hpar. unfold lift, log_msg, create_final_log_file.
    rewrite Hdd, Hsp, Hest, Hc, Hh, Hsm, Hlg. cbn -[rule].
    match goal with |- context [re_orchestrate env session ?fb] =>
      destruct (Horch fb) as (k & j & ->) end.
    cbn -[rule]. destruct (re_has_file_handler env); cbn -[rule]; [rewrite Hfin|]; reflexivity.
  - unfold run. munfold. unfold log_msg. rewrite Hlg. cbn -[SessionState.init rule].
    rewrite Hv. cbn -[SessionState.init rule].
    unfold run_handler. munfold. unfold log_msg. rewrite Hlg. reflexivity.
Qed.

Lemma run_exit_codes_witness :
  fst (run (renv_no_failures (Ret tt)) [] "automatic" (Some (PObj "Logger" 0)) world0)
    = Ret None /\
  fst (run (renv_no_failures (Raise (ValueError "bad config"))) [] "automatic"
         (Some (PObj "Logger" 0)) world0)
    = Raise (TypeError "create_final_log_file() got an unexpected keyword argument 'logger'").
Proof.
  split.
  - apply (run_exit_codes (renv_no_failures (Ret tt)) [] "automatic" (PObj "Logger" 0)
             session_era5_world ["mapped"] (ValueError "bad config") world0);
      try reflexivity.
    + exists "50.0". reflexivity.
    + exists "N0W0S0E0". reflexivity.
    + exists "7c4d859a22ed". reflexivity.
    + exists "summary". reflexivity.
    + intros fb. exists 3%nat, 1%nat. reflexivity.
  - apply (run_exit_codes (renv_no_failures (Raise (ValueError "bad config"))) [] "automatic"
             (PObj "Logger" 0) session_era5_world ["mapped"] (ValueError "bad config") world0);
      try reflexivity.
    + exists "50.0". reflexivity.
    + exists "N0W0S0E0". reflexivity.
    + exists "7c4d859a22ed". reflexivity.
    + exists "summary". reflexivity.
    + intros fb. exists 3%nat, 1%nat. reflexivity.
Defined.

(* ================================================================== *)
(** * Properties of the surrounding code *)

(* ------------------------------------------------------------------ *)
(** ** SessionState: get/set/unset, first_unfilled_key, previous_key, summary *)

Lemma key_in_update_field (s : SessionState.t) (k k' : string) f :
  SessionState.key_in (SessionState.update_field k f s) k' = SessionState.key_in s k'.
Proof.
  induction s as [|[k0 e] r IH]; simpl; [reflexivity|].
  destruct (String.eqb k k0); simpl; [reflexivity|now rewrite IH].
Qed.

Lemma assoc_get_update_field (s : SessionState.t) (k k' : string) f :
  assoc_get k' (SessionState.update_field k f s) =
  if String.eqb k' k then option_map f (assoc_get k' s) else assoc_get k' s.
Proof.
  induction s as [|[k0 e] r IH]; simpl.
  - destruct (String.eqb k' k); reflexivity.
  - destruct (String.eqb k k0) eqn:E1; simpl.
    + apply String.eqb_eq in E1; subst k0.
      destruct (String.eqb k' k); reflexivity.
    + destruct (String.eqb k' k0) eqn:E2.
      * apply String.eqb_eq in E2; subst k0.
        destruct (String.eqb k' k) eqn:E3; [|reflexivity].
        apply String.eqb_eq in E3; subst k. now rewrite String.eqb_refl in E1.
      * exact IH.
Qed.

Lemma key_in_assoc (s : SessionState.t) (k : string) :
  SessionState.key_in s k = if assoc_get k s then true else false.
Proof.
  induction s as [|[k0 e] r IH]; simpl; [reflexivity|].
  destruct (String.eqb k k0); simpl; [reflexivity|exact IH].
Qed.

(** X1.  Reading a key after [set] gives the value written, when the key
    is a field of the session; every other key reads as before. *)
Theorem session_set_get (s : SessionState.t) (k k' : string) (v : pyval) :
  SessionState.get (SessionState.set s k v) k' =
  if (String.eqb k' k && SessionState.key_in s k)%bool then v else SessionState.get s k'.
Proof.
  unfold SessionState.set, SessionState.get.
  destruct (SessionState.key_in s k) eqn:Hk.
  - rewrite key_in_update_field, assoc_get_update_field.
    destruct (String.eqb k' k) eqn:E; simpl.
    + apply String.eqb_eq in E; subst k'. rewrite Hk.
      rewrite key_in_assoc in Hk. destruct (assoc_get k s); [reflexivity|discriminate].
    + reflexivity.
  - rewrite Bool.andb_false_r. reflexivity.
Qed.

Lemma first_unfilled_update_field (pre post : SessionState.t) (k : string)
    (e : SessionState.field) (f : SessionState.field -> SessionState.field) :
  Forall (fun kv => SessionState.filled kv.2 = true) pre ->
  (forall e', SessionState.filled (f e') = false) ->
  SessionState.first_unfilled_key (SessionState.update_field k f (pre ++ (k, e) :: post)) = Some k.
Proof.
  intros Hpre Hf. induction Hpre as [|[k0 e0] r He _ IH]; simpl in *.
  - rewrite String.eqb_refl. simpl. now rewrite Hf.
  - destruct (String.eqb k k0) eqn:E; simpl.
    + apply String.eqb_eq in E. subst k0. now rewrite Hf.
    + rewrite He. exact IH.
Qed.

(** X2.  After [unset(k)] the key reads as [None] and every other key as
    before; and when every field before [k] is filled, [first_unfilled_key]
    then returns exactly [k] (the wizard backtracks to it). *)
Theorem session_unset_backtrack (s : SessionState.t) (k : string) :
  (forall k', SessionState.get (SessionState.unset s k) k' =
    (if String.eqb k' k then PNone else SessionState.get s k')) /\
  (forall pre e post, s = pre ++ (k, e) :: post ->
    Forall (fun kv => SessionState.filled kv.2 = true) pre ->
    SessionState.first_unfilled_key (SessionState.unset s k) = Some k).
Proof.
  split.
  - intros k'. unfold SessionState.unset, SessionState.get.
    destruct (SessionState.key_in s k) eqn:Hk.
    + rewrite key_in_update_field, assoc_get_update_field.
      destruct (String.eqb k' k) eqn:E; simpl; [|reflexivity].
      apply String.eqb_eq in E; subst k'. rewrite Hk.
      rewrite key_in_assoc in Hk. destruct (assoc_get k s); [reflexivity|discriminate].
    + destruct (String.eqb k' k) eqn:E; [|reflexivity].
      apply String.eqb_eq in E; subst k'. now rewrite Hk.
  - intros pre e post -> Hpre. unfold SessionState.unset.
    replace (SessionState.key_in (pre ++ (k, e) :: post) k) with true.
    + apply first_unfilled_update_field; auto.
    + symmetry. unfold SessionState.key_in. apply existsb_exists.
      exists (k, e). split; [apply in_or_app; right; left; reflexivity|apply String.eqb_refl].
Qed.

Lemma session_unset_backtrack_witness :
  SessionState.get (SessionState.unset SessionState.init "save_dir") "save_dir" = PNone /\
  SessionState.first_unfilled_key
    (SessionState.unset (SessionState.set (SessionState.set SessionState.init
       "data_provider" (PStr "cds")) "dataset_short_name" (PStr "era5-world")) "dataset_short_name")
    = Some "dataset_short_name".
Proof.
  split.
  - exact (proj1 (session_unset_backtrack SessionState.init "save_dir") "save_dir").
  - apply (proj2 (session_unset_backtrack _ "dataset_short_name")
             [("data_provider", SessionState.mk_field (PStr "cds") true)]
             (SessionState.mk_field (PStr "era5-world") true)
             (skipn 2 SessionState.init)).
    + vm_compute. reflexivity.
    + repeat constructor.
Defined.

Lemma list_index_nth (l : list string) (i : nat) :
  NoDup l -> (i < length l)%nat -> list_index (nth i l "") l = Some i.
Proof.
  intros Hnd. revert i. induction Hnd as [|x l Hx Hnd IH]; intros i Hi; simpl in *; [lia|].
  destruct i as [|i]; simpl.
  - now rewrite String.eqb_refl.
  - destruct (String.eqb (nth i l "") x) eqn:E.
    + apply String.eqb_eq in E. exfalso. apply Hx. rewrite <- E. apply list_elem_of_In, nth_In. lia.
    + rewrite IH by lia. reflexivity.
Qed.

Lemma list_index_notin (l : list string) (k : string) :
  ~ In k l -> list_index k l = None.
Proof.
  induction l as [|x l IH]; intros Hn; simpl; [reflexivity|].
  destruct (String.eqb k x) eqn:E.
  - apply String.eqb_eq in E. subst. exfalso. apply Hn. now left.
  - rewrite IH; [reflexivity|]. intros Hi. apply Hn. now right.
Qed.

(** X3.  For a session with distinct keys, [previous_key] of the key at
    position [i + 1] is the key at position [i], the first key has no
    previous key, and an unknown key raises [ValueError]. *)
Theorem previous_key_spec (s : SessionState.t) (w : world)
    (Hnd : NoDup (map fst s)) :
  (forall i, (S i < length s)%nat ->
     previous_key s (nth (S i) (map fst s) "") w = (Ret (Some (nth i (map fst s) "")), w)) /\
  (forall k, head (map fst s) = Some k -> previous_key s k w = (Ret None, w)) /\
  (forall k, ~ In k (map fst s) ->
     previous_key s k w = (Raise (ValueError (py_repr_str k ++ " is not in list")), w)).
Proof.
  unfold previous_key. split; [|split].
  - intros i Hi. rewrite list_index_nth; [|exact Hnd|now rewrite length_map].
    simpl. now rewrite Nat.sub_0_r.
  - intros k Hk. destruct (map fst s) as [|k0 r] eqn:E; [discriminate|].
    injection Hk as <-. simpl. now rewrite String.eqb_refl.
  - intros k Hk. now rewrite list_index_notin.
Qed.

Lemma previous_key_spec_witness :
  NoDup (map fst SessionState.init) /\
  previous_key SessionState.init "save_dir" world0 = (Ret (Some "session_client"), world0).
Proof.
  assert (H : NoDup (map fst SessionState.init)) by (apply (bool_decide_unpack _); vm_compute; exact I).
  split; [exact H|].
  exact (proj1 (previous_key_spec SessionState.init world0 H) 4%nat ltac:(vm_compute; lia)).
Defined.

Lemma summary_lines_update_api_key (str_other : pyval -> string) (s : SessionState.t) (v1 v2 : pyval) :
  map (fun ke : string * SessionState.field => summary_line str_other ke.1 ke.2)
      (SessionState.update_field "api_key" (fun _ => SessionState.mk_field v1 true) s) =
  map (fun ke : string * SessionState.field => summary_line str_other ke.1 ke.2)
      (SessionState.update_field "api_key" (fun _ => SessionState.mk_field v2 true) s).
Proof.
  induction s as [|[k e] r IH]; cbn [SessionState.update_field]; [reflexivity|].
  destruct (String.eqb "api_key" k) eqn:E; cbn [map].
  - apply String.eqb_eq in E. subst k. reflexivity.
  - f_equal. exact IH.
Qed.

(** X4.  [summary()] never shows the API key: the summary of a session is
    the same whatever value [api_key] is set to. *)
Theorem summary_redacts_api_key (str_other : pyval -> string) (s : SessionState.t) (v1 v2 : pyval) :
  summary str_other (SessionState.set s "api_key" v1) =
  summary str_other (SessionState.set s "api_key" v2).
Proof.
  unfold summary, SessionState.set.
  destruct (SessionState.key_in s "api_key"); [|reflexivity].
  now rewrite summary_lines_update_api_key with (v2 := v2).
Qed.

(* ------------------------------------------------------------------ *)
(** ** _require_keys, validate_variables *)

Lemma filter_negb_nil {A} (p : A -> bool) (l : list A) :
  List.filter (fun x => negb (p x)) l = [] <-> Forall (fun x => p x = true) l.
Proof.
  induction l as [|x l IH]; simpl; [split; auto|].
  destruct (p x) eqn:E; simpl.
  - rewrite IH. split; [intros H; now constructor|intros H; now inversion H].
  - split; [discriminate|intros H; inversion H; congruence].
Qed.

Lemma list_filter_sublist {A} (p : A -> bool) (l : list A) : sublist (List.filter p l) l.
Proof.
  induction l as [|x l IH]; simpl; [constructor|].
  destruct (p x); [apply sublist_skip|apply sublist_cons]; exact IH.
Qed.

Lemma count_occ_list_filter (p : string -> bool) (l : list string) (k : string) :
  count_occ String.string_dec (List.filter p l) k = if p k then count_occ String.string_dec l k else O.
Proof.
  induction l as [|x l IH]; simpl; [destruct (p k); reflexivity|].
  destruct (String.string_dec x k) as [->|Hne].
  - destruct (p k) eqn:E; simpl; rewrite IH, ?E;
      [destruct (String.string_dec k k); [reflexivity|congruence]|reflexivity].
  - destruct (p x); simpl; [destruct (String.string_dec x k); [congruence|]|]; exact IH.
Qed.

Lemma dict_has_true (config : list (string * pyval)) (k : string) :
  dict_has config k = true <-> assoc_get k config <> None.
Proof. unfold dict_has. destruct (assoc_get k config); split; congruence. Qed.

(** X5.  [_require_keys(config, keys)] never changes the state; it returns
    exactly when every key is present in the config; otherwise it raises
    [ValueError] naming the missing keys: every occurrence in [keys] of a
    key absent from the config, none of a present key, in the order of
    [keys]. *)
Theorem require_keys_spec (config : list (string * pyval)) (keys : list string) (w : world) :
  (forall r w', require_keys config keys w = (r, w') -> w' = w) /\
  (require_keys config keys w = (Ret tt, w) <->
   forall k, In k keys -> assoc_get k config <> None) /\
  (forall e w', require_keys config keys w = (Raise e, w') ->
   exists missing,
     e = ValueError ("Missing required config keys: " ++ join_comma missing) /\
     missing <> [] /\ sublist missing keys /\
     forall k, count_occ String.string_dec missing k =
               match assoc_get k config with Some _ => O | None => count_occ String.string_dec keys k end).
Proof.
  unfold require_keys.
  pose proof (proj1 (filter_negb_nil (dict_has config) keys)) as Hnil.
  pose proof (proj2 (filter_negb_nil (dict_has config) keys)) as Hnil'.
  pose proof (list_filter_sublist (fun k => negb (dict_has config k)) keys) as Hsub.
  pose proof (count_occ_list_filter (fun k => negb (dict_has config k)) keys) as Hcnt.
  destruct (List.filter (fun k => negb (dict_has config k)) keys) as [|k0 r] eqn:Ef.
  - split; [|split; [split|]].
    + intros r w' H. cbv [mret M_ret] in H. congruence.
    + intros _ k Hk. apply dict_has_true.
      specialize (Hnil eq_refl). rewrite List.Forall_forall in Hnil. apply Hnil. exact Hk.
    + intros _. reflexivity.
    + intros e w' H. cbv [mret M_ret] in H. discriminate.
  - split; [|split; [split|]].
    + intros r' w' H. unfold raise in H. congruence.
    + intros H. discriminate.
    + intros Hall. exfalso.
      assert (Hf : Forall (fun k => dict_has config k = true) keys).
      { apply List.Forall_forall. intros k Hk. apply dict_has_true. auto. }
      specialize (Hnil' Hf). discriminate.
    + intros e w' H. unfold raise in H. injection H as <- _.
      exists (k0 :: r). split; [reflexivity|]. split; [discriminate|]. split; [exact Hsub|].
      intros k. rewrite Hcnt. unfold dict_has. destruct (assoc_get k config); reflexivity.
Qed.

Lemma require_keys_spec_witness :
  require_keys [("a", PNone)] ["a"; "b"; "c"] world0 =
    (Raise (ValueError "Missing required config keys: b, c"), world0) /\
  exists missing,
    ValueError "Missing required config keys: b, c"
      = ValueError ("Missing required config keys: " ++ join_comma missing) /\
    missing <> [] /\ sublist missing ["a"; "b"; "c"] /\
    forall k, count_occ String.string_dec missing k =
              match assoc_get k [("a", PNone)] with
              | Some _ => O | None => count_occ String.string_dec ["a"; "b"; "c"] k end.
Proof.
  split; [vm_compute; reflexivity|].
  apply (proj2 (proj2 (require_keys_spec [("a", PNone)] ["a"; "b"; "c"] world0))
           (ValueError "Missing required config keys: b, c") world0).
  vm_compute. reflexivity.
Defined.

(* ------------------------------------------------------------------ *)
(** ** strptime, validate_date, parse_date_with_defaults *)

Lemma codes_app (a b : string) : codes (a ++ b) = codes a ++ codes b.
Proof. induction a as [|c a IH]; simpl; [reflexivity|]. unfold codes in *. simpl. now rewrite IH. Qed.

Lemma codes_string_of_list (l : list Ascii.ascii) :
  codes (String.string_of_list_ascii l) = map code l.
Proof. induction l as [|c l IH]; simpl; [reflexivity|]. unfold codes in *. simpl. now rewrite IH. Qed.

Lemma code_digit_char (d : Z) : 0 <= d <= 9 -> code (digit_char d) = 48 + d.
Proof.
  intros H. assert (d = 0 \/ d = 1 \/ d = 2 \/ d = 3 \/ d = 4 \/ d = 5 \/ d = 6 \/ d = 7 \/ d = 8 \/ d = 9)
    as Hd by lia.
  repeat destruct Hd as [->|Hd]; try reflexivity. now subst.
Qed.

Lemma digits_rev_4 (y : Z) : 1000 <= y <= 9999 ->
  digits_rev 64 y = [y mod 10; (y / 10) mod 10; (y / 10 / 10) mod 10; y / 10 / 10 / 10].
Proof.
  intros Hy. cbn [digits_rev].
  destruct (Z.ltb_spec y 10); [lia|].
  destruct (Z.ltb_spec (y / 10) 10); [Z.div_mod_to_equations; lia|].
  destruct (Z.ltb_spec (y / 10 / 10) 10); [Z.div_mod_to_equations; lia|].
  destruct (Z.ltb_spec (y / 10 / 10 / 10) 10); [reflexivity|Z.div_mod_to_equations; lia].
Qed.

Lemma str_of_nat_Z_4 (y : Z) : 1000 <= y <= 9999 -> codes (str_of_nat_Z y) = year_digits y.
Proof.
  intros Hy. unfold str_of_nat_Z. rewrite digits_rev_4 by exact Hy.
  rewrite codes_string_of_list. cbn [rev app map].
  unfold year_digits.
  rewrite !code_digit_char; try (Z.div_mod_to_equations; lia). reflexivity.
Qed.

Lemma length_codes (s : string) : length (codes s) = String.length s.
Proof. induction s as [|c s IH]; simpl; [reflexivity|]. unfold codes in *. simpl. now rewrite IH. Qed.

Lemma zpad_4 (y : Z) : 1000 <= y <= 9999 -> zpad 4 y = str_of_nat_Z y.
Proof.
  intros Hy. unfold zpad.
  assert (Hl : String.length (str_of_nat_Z y) = 4%nat)
    by (rewrite <- length_codes, str_of_nat_Z_4 by exact Hy; reflexivity).
  rewrite Hl. reflexivity.
Qed.

Lemma py_str_int_4 (y : Z) : 1000 <= y <= 9999 -> py_str_int y = str_of_nat_Z y.
Proof. intros Hy. unfold py_str_int. destruct (Z.ltb_spec y 0); [lia|reflexivity]. Qed.

Lemma year_digits_ok (y : Z) : 1000 <= y <= 9999 ->
  forallb is_digit (year_digits y) = true /\ group_int (year_digits y) = y.
Proof.
  intros Hy. unfold year_digits, group_int, is_digit. cbn [forallb fold_left].
  repeat match goal with
         | |- context [Z.leb ?a ?b] => destruct (Z.leb_spec a b)
         end; cbn; try (exfalso; Z.div_mod_to_equations; lia).
  split; [reflexivity|]. Z.div_mod_to_equations; lia.
Qed.

Lemma match_fmt_FY (a b c d : Z) (ts : list fmt_tok) (tail : list Z) :
  forallb is_digit [a; b; c; d] = true ->
  match_fmt (FY :: ts) (a :: b :: c :: d :: tail) =
  map (fun '(gs, r) => ([a; b; c; d] :: gs, r)) (match_fmt ts tail).
Proof.
  cbn [forallb]. intros H. rewrite !andb_true_iff in H. destruct H as (Ha & Hb & Hc & Hd & _).
  cbn [match_fmt tok_alts flat_map match_seq]. rewrite Ha, Hb, Hc, Hd, ?app_nil_r.
  reflexivity.
Qed.

Lemma check_md_all : forallb (fun m => forallb (fun d => check_md m d) (py_range1 31)) (py_range1 12) = true.
Proof. vm_compute. reflexivity. Qed.

Lemma forallb_range1 (p : Z -> bool) (n k : Z) :
  forallb p (py_range1 n) = true -> 1 <= k <= n -> p k = true.
Proof.
  intros H Hk. rewrite forallb_forall in H. apply H.
  unfold py_range1. apply in_map_iff. exists (Z.to_nat (k - 1)). split; [lia|].
  apply in_seq. lia.
Qed.

Lemma md_tail_match (m d : Z) : 1 <= m <= 12 -> 1 <= d <= 31 ->
  length (md_tail m d) = 6%nat /\
  exists gs others, match_fmt MD_FMT (md_tail m d) = (gs, []) :: others /\
    find_group is_Fm MD_FMT gs = Some m /\ find_group is_Fd MD_FMT gs = Some d.
Proof.
  intros Hm Hd.
  pose proof (forallb_range1 _ 31 d (forallb_range1 _ 12 m check_md_all Hm) Hd) as H.
  unfold check_md in H. apply andb_true_iff in H as [Hl H].
  split; [now apply Nat.eqb_eq|].
  destruct (match_fmt MD_FMT (md_tail m d)) as [|[gs [|c r]] others]; try discriminate.
  exists gs, others. split; [reflexivity|].
  destruct (find_group is_Fm MD_FMT gs) as [m'|], (find_group is_Fd MD_FMT gs) as [d'|];
    try discriminate.
  apply andb_true_iff in H as [H1 H2]. apply Z.eqb_eq in H1, H2. subst. split; reflexivity.
Qed.

Lemma iso_codes (y m d : Z) : 1000 <= y <= 9999 ->
  codes (date_isoformat (datetime_ymd y m d)) = year_digits y ++ md_tail m d.
Proof.
  intros Hy. unfold date_isoformat, md_tail. cbn [year month day datetime_ymd].
  rewrite !codes_app, zpad_4, str_of_nat_Z_4 by exact Hy. reflexivity.
Qed.

Lemma days_in_month_range (y m : Z) : 1 <= m <= 12 -> 28 <= days_in_month y m <= 31.
Proof.
  intros Hm. unfold days_in_month.
  destruct (Z.eqb m 2 && isleap y)%bool; [lia|].
  assert (m = 1 \/ m = 2 \/ m = 3 \/ m = 4 \/ m = 5 \/ m = 6 \/ m = 7 \/ m = 8 \/ m = 9
          \/ m = 10 \/ m = 11 \/ m = 12) as H by lia.
  repeat destruct H as [->|H]; try (cbv; split; discriminate). subst. cbv; split; discriminate.
Qed.

Lemma strptime_iso (y m d : Z) (w : world) :
  1000 <= y <= 9999 -> 1 <= m <= 12 -> 1 <= d <= days_in_month y m ->
  strptime (PStr (date_isoformat (datetime_ymd y m d))) "%Y-%m-%d" FMT_YMD w
  = (Ret (datetime_ymd y m d), w).
Proof.
  intros Hy Hm Hd.
  pose proof (days_in_month_range y m Hm).
  destruct (md_tail_match m d Hm ltac:(lia)) as [_ (gs & others & Hmf & Hfm & Hfd)].
  destruct (year_digits_ok y Hy) as [Hdig Hgi].
  unfold strptime. rewrite iso_codes by exact Hy.
  unfold year_digits in *. unfold FMT_YMD. cbn [app].
  rewrite match_fmt_FY by exact Hdig. fold MD_FMT. rewrite Hmf. cbn [map].
  cbn [find_group is_FY is_Fm is_Fd]. fold MD_FMT. rewrite Hfm, Hfd. cbn [default_Z].
  rewrite Hgi.
  destruct (Z.leb_spec 1 y), (Z.leb_spec y 9999); try lia.
  destruct (Z.leb_spec 1 m), (Z.leb_spec m 12); try lia.
  destruct (Z.leb_spec 1 d), (Z.leb_spec d (days_in_month y m)); try lia.
  reflexivity.
Qed.

Lemma check_z2_all : forallb check_z2 (map Z.of_nat (seq 0 100)) = true.
Proof. vm_compute. reflexivity. Qed.

Lemma zpad2_codes (k : Z) : 0 <= k <= 99 -> codes (zpad 2 k) = [48 + k / 10; 48 + k mod 10].
Proof.
  intros Hk.
  assert (H : check_z2 k = true).
  { pose proof check_z2_all as H. rewrite forallb_forall in H. apply H.
    apply in_map_iff. exists (Z.to_nat k). split; [lia|]. apply in_seq. lia. }
  unfold check_z2 in H. destruct (codes (zpad 2 k)) as [|a [|b [|c r]]]; try discriminate.
  unfold is_digit in H.
  repeat match goal with
         | H : context [Z.leb ?x ?y] |- _ => destruct (Z.leb_spec x y)
         end; cbn in H; try discriminate.
  apply Z.eqb_eq in H. f_equal; [|f_equal]; Z.div_mod_to_equations; lia.
Qed.

Lemma split_codes_nosep (sep : Z) (l cur : list Z) :
  forallb (fun c => negb (Z.eqb c sep)) l = true ->
  split_codes sep l cur = [str_of_codes (rev cur ++ l)].
Proof.
  revert cur. induction l as [|c l IH]; intros cur H; simpl in *.
  - now rewrite app_nil_r.
  - apply andb_true_iff in H as [Hc H]. destruct (Z.eqb c sep); [discriminate|].
    rewrite IH by exact H. cbn [rev]. now rewrite <- app_assoc.
Qed.

Lemma split_codes_sep (sep : Z) (l1 l2 cur : list Z) :
  forallb (fun c => negb (Z.eqb c sep)) l1 = true ->
  split_codes sep (l1 ++ sep :: l2) cur = str_of_codes (rev cur ++ l1) :: split_codes sep l2 [].
Proof.
  revert cur. induction l1 as [|c l IH]; intros cur H; simpl in *.
  - rewrite Z.eqb_refl, app_nil_r. reflexivity.
  - apply andb_true_iff in H as [Hc H]. destruct (Z.eqb c sep); [discriminate|].
    rewrite IH by exact H. cbn [rev]. now rewrite <- app_assoc.
Qed.

Lemma codes_str_of_codes (l : list Z) :
  Forall (fun c => 0 <= c < 256) l -> codes (str_of_codes l) = l.
Proof.
  induction 1 as [|c l Hc _ IH]; [reflexivity|].
  unfold codes, str_of_codes in *. simpl. f_equal; [|exact IH].
  unfold code, Ascii.nat_of_ascii. rewrite Ascii.N_ascii_embedding.
  - rewrite N_nat_Z, Z2N.id; lia.
  - apply N.compare_lt_iff. change 256%N with (Z.to_N 256). apply Z2N.inj_lt; lia.
Qed.

Lemma int_body_digits (l : list Z) (acc : Z) (b : bool) :
  l <> [] -> forallb is_digit l = true ->
  int_body l acc b = Some (fold_left (fun acc c => if is_digit c then 10 * acc + (c - 48) else acc) l acc).
Proof.
  revert acc b. induction l as [|c l IH]; intros acc b Hne H; [easy|].
  cbn [forallb] in H. apply andb_true_iff in H as [Hc H].
  cbn [int_body fold_left]. unfold is_digit in Hc |- *. rewrite Hc.
  destruct l as [|c' l']; [reflexivity|].
  apply IH; [discriminate|exact H].
Qed.

Lemma drop_while_digit (l : list Z) :
  forallb is_digit l = true -> drop_while py_isspace l = l.
Proof.
  destruct l as [|c l]; [reflexivity|]. cbn [forallb]. intros H.
  apply andb_true_iff in H as [Hc _]. cbn [drop_while].
  unfold is_digit, py_isspace in *.
  destruct (Z.leb_spec 48 c), (Z.leb_spec c 57); try discriminate.
  repeat match goal with
         | |- context [Z.leb ?x ?y] => destruct (Z.leb_spec x y)
         | |- context [Z.eqb ?x ?y] => destruct (Z.eqb_spec x y)
         end; cbn; try lia; reflexivity.
Qed.

Lemma digits_range (l : list Z) : forallb is_digit l = true -> Forall (fun c => 0 <= c < 256) l.
Proof.
  induction l as [|c l IH]; cbn [forallb]; intros H; constructor;
    apply andb_true_iff in H as [Hc H]; [|now apply IH].
  unfold is_digit in Hc. destruct (Z.leb_spec 48 c), (Z.leb_spec c 57); try discriminate. lia.
Qed.

Lemma py_int_digits (l : list Z) (w : world) :
  l <> [] -> forallb is_digit l = true ->
  py_int (PStr (str_of_codes l)) w = (Ret (group_int l), w).
Proof.
  intros Hne H. unfold py_int, parse_int_str, py_strip, py_strip_by.
  rewrite (codes_str_of_codes l) by now apply digits_range.
  rewrite (drop_while_digit l) by exact H.
  assert (Hr : forallb is_digit (rev l) = true).
  { rewrite forallb_forall in *. intros x Hx. apply H. now apply in_rev. }
  rewrite drop_while_digit, rev_involutive by exact Hr.
  rewrite codes_str_of_codes by now apply digits_range.
  destruct l as [|c r]; [easy|].
  pose proof H as H'. cbn [forallb] in H'. apply andb_true_iff in H' as [Hc _].
  assert (Hb : int_body (c :: r) 0 false = Some (group_int (c :: r)))
    by (apply int_body_digits; easy).
  unfold is_digit in Hc. destruct (Z.leb_spec 48 c), (Z.leb_spec c 57); try discriminate.
  assert (c = 48 \/ c = 49 \/ c = 50 \/ c = 51 \/ c = 52 \/ c = 53 \/ c = 54 \/ c = 55
          \/ c = 56 \/ c = 57) as Hc' by lia.
  repeat destruct Hc' as [->|Hc']; try subst c; cbn -[int_body group_int];
    rewrite Hb; reflexivity.
Qed.

Lemma month_form_codes (y m : Z) : 1000 <= y <= 9999 -> 1 <= m <= 12 ->
  codes (zpad 4 y ++ "-" ++ zpad 2 m) = year_digits y ++ 45 :: [48 + m / 10; 48 + m mod 10].
Proof.
  intros Hy Hm. rewrite !codes_app, zpad_4, str_of_nat_Z_4, zpad2_codes by lia. reflexivity.
Qed.
Lemma digits_nosep (l : list Z) :
  forallb is_digit l = true -> forallb (fun c => negb (Z.eqb c 45)) l = true.
Proof.
  rewrite !forallb_forall. intros H x Hx. specialize (H x Hx). unfold is_digit in H.
  destruct (Z.leb_spec 48 x), (Z.leb_spec x 57), (Z.eqb_spec x 45); try discriminate; try lia;
  reflexivity.
Qed.
Lemma two_digits_ok (m : Z) : 0 <= m <= 99 ->
  forallb is_digit [48 + m / 10; 48 + m mod 10] = true /\ group_int [48 + m / 10; 48 + m mod 10] = m.
Proof.
  intros Hm. unfold group_int, is_digit. cbn [forallb fold_left].
  repeat match goal with
         | |- context [Z.leb ?a ?b] => destruct (Z.leb_spec a b)
         end; cbn; try (exfalso; Z.div_mod_to_equations; lia).
  split; [reflexivity|]. Z.div_mod_to_equations; lia.
Qed.
Lemma py_fmt0_nonneg (w : nat) (z : Z) : 0 <= z -> py_fmt0 w z = zpad w z.
Proof. intros H. unfold py_fmt0. destruct (Z.ltb_spec z 0); [lia|reflexivity]. Qed.

(** X6: [parse_date_with_defaults] returns any valid ISO date
    [YYYY-MM-DD] with a four-digit year unchanged, with the datetime of
    that day, whichever month-end default is asked for. *)
Lemma parse_date_with_defaults_iso (y m d : Z) (default_to_month_end : bool) (w : world) :
  1000 <= y <= 9999 -> 1 <= m <= 12 -> 1 <= d <= days_in_month y m ->
  parse_date_with_defaults (date_isoformat (datetime_ymd y m d)) default_to_month_end w
  = (Ret (datetime_ymd y m d, date_isoformat (datetime_ymd y m d)), w).
Proof.
  intros Hy Hm Hd.
  pose proof (days_in_month_range y m Hm).
  destruct (md_tail_match m d Hm ltac:(lia)) as [Hl _].
  unfold parse_date_with_defaults.
  rewrite <- length_codes, iso_codes, length_app, Hl by exact Hy.
  change (length (year_digits y)) with 4%nat. cbn [Nat.eqb Nat.add].
  unfold mbind, mret, M_bind, M_ret.
  rewrite strptime_iso by assumption. reflexivity.
Qed.

(** X7: on a month [YYYY-MM] with a four-digit year,
    [parse_date_with_defaults] gives the first day of the month, or its
    last day when [default_to_month_end] is set, together with the ISO
    text of that day. *)
Lemma parse_date_with_defaults_month (y m : Z) (w : world) :
  1000 <= y <= 9999 -> 1 <= m <= 12 ->
  parse_date_with_defaults (zpad 4 y ++ "-" ++ zpad 2 m) false w
  = (Ret (datetime_ymd y m 1, date_isoformat (datetime_ymd y m 1)), w) /\
  parse_date_with_defaults (zpad 4 y ++ "-" ++ zpad 2 m) true w
  = (Ret (datetime_ymd y m (days_in_month y m),
          date_isoformat (datetime_ymd y m (days_in_month y m))), w).
Proof.
  intros Hy Hm.
  pose proof (days_in_month_range y m Hm) as Hdim.
  destruct (year_digits_ok y Hy) as [Hyd Hyg].
  destruct (two_digits_ok m ltac:(lia)) as [Hmd Hmg].
  unfold parse_date_with_defaults.
  rewrite <- length_codes, month_form_codes by lia. rewrite length_app. cbn [length Nat.add].
  rewrite split_codes_sep by (now apply digits_nosep).
  rewrite split_codes_nosep by (now apply digits_nosep).
  cbn [rev app unpack2].
  change (length (year_digits y)) with 4%nat. cbn [Nat.eqb Nat.add].
  unfold mbind, mret, M_bind, M_ret.
  rewrite py_int_digits by (unfold year_digits; easy). rewrite Hyg.
  rewrite py_int_digits by easy. rewrite Hmg.
  rewrite py_str_int_4, py_fmt0_nonneg by lia.
  rewrite <- zpad_4 by lia.
  split.
  - change ("-01")%string with ("-" +:+ zpad 2 1)%string.
    change (zpad 4 y +:+ "-" +:+ zpad 2 m +:+ "-" +:+ zpad 2 1)%string
      with (date_isoformat (datetime_ymd y m 1)).
    rewrite strptime_iso by (cbn; lia). reflexivity.
  - unfold monthrange_days.
    destruct (Z.leb_spec 1 m), (Z.leb_spec m 12); try lia. cbn [andb negb].
    cbv beta iota delta [mret M_ret].
    rewrite py_fmt0_nonneg by lia.
    change (zpad 4 y +:+ "-" +:+ zpad 2 m +:+ "-" +:+ zpad 2 (days_in_month y m))%string
      with (date_isoformat (datetime_ymd y m (days_in_month y m))).
    rewrite strptime_iso by (cbn; lia). reflexivity.
Qed.

Lemma parse_date_with_defaults_iso_witness :
  (1000 <= 2024 <= 9999 /\ 1 <= 2 <= 12 /\ 1 <= 29 <= days_in_month 2024 2) /\
  parse_date_with_defaults (date_isoformat (datetime_ymd 2024 2 29)) true world0
  = (Ret (datetime_ymd 2024 2 29, date_isoformat (datetime_ymd 2024 2 29)), world0).
Proof.
  split; [vm_compute; repeat split; discriminate|].
  apply parse_date_with_defaults_iso; vm_compute; split; discriminate.
Defined.

Lemma parse_date_with_defaults_month_witness :
  (1000 <= 2023 <= 9999 /\ 1 <= 2 <= 12) /\
  parse_date_with_defaults (zpad 4 2023 ++ "-" ++ zpad 2 2) true world0
  = (Ret (datetime_ymd 2023 2 (days_in_month 2023 2),
          date_isoformat (datetime_ymd 2023 2 (days_in_month 2023 2))), world0).
Proof.
  split; [lia|].
  apply (parse_date_with_defaults_month 2023 2 world0); lia.
Defined.

Lemma check_small_year_all : forallb check_small_year (py_range1 999) = true.
Proof. vm_compute. reflexivity. Qed.

Lemma check_ym_tail_all : forallb check_ym_tail (py_range1 12) = true.
Proof. vm_compute. reflexivity. Qed.

Lemma match_seq_short (n : nat) (s r : list Z) :
  (length s < n)%nat -> forallb is_digit s = true ->
  match_seq (repeat is_digit n) (s ++ 45 :: r) = None.
Proof.
  revert n. induction s as [|c s IH]; intros n Hn Hd; destruct n as [|n]; cbn in Hn; try lia.
  - reflexivity.
  - cbn [forallb] in Hd. apply andb_true_iff in Hd as [Hc Hd].
    cbn [repeat app match_seq]. rewrite Hc, IH by (lia || exact Hd). reflexivity.
Qed.

Lemma small_year_digits (y : Z) : 1 <= y <= 999 ->
  exists a b c d, codes (zpad 4 y) = [a; b; c; d] /\ forallb is_digit [a; b; c; d] = true /\
    group_int [a; b; c; d] = y /\
    (length (codes (str_of_nat_Z y)) < 4)%nat /\ forallb is_digit (codes (str_of_nat_Z y)) = true.
Proof.
  intros Hy. pose proof (forallb_range1 _ 999 y check_small_year_all Hy) as H.
  unfold check_small_year in H. rewrite !andb_true_iff in H.
  destruct H as ((((Hl & Hd) & Hg) & Hs) & Hsd).
  destruct (codes (zpad 4 y)) as [|a [|b [|c [|d [|e r]]]]]; try discriminate.
  exists a, b, c, d. apply Z.eqb_eq in Hg. apply Nat.ltb_lt in Hs. auto.
Qed.

Lemma find_group_cons (sel : fmt_tok -> bool) (t : fmt_tok) (ts : list fmt_tok)
  (g : list Z) (gs : list (list Z)) :
  find_group sel (t :: ts) (g :: gs) = if sel t then Some (group_int g) else find_group sel ts gs.
Proof. reflexivity. Qed.

Lemma find_group_none (sel : fmt_tok -> bool) (ts : list fmt_tok) (gs : list (list Z)) :
  forallb (fun t => negb (sel t)) ts = true -> find_group sel ts gs = None.
Proof.
  revert gs. induction ts as [|t ts IH]; intros gs H; destruct gs as [|g gs]; try reflexivity.
  cbn [forallb] in H. apply andb_true_iff in H as [Ht H].
  rewrite find_group_cons. destruct (sel t); [discriminate|]. now apply IH.
Qed.

Lemma codes_dash (s : string) : codes ("-" +:+ s) = 45 :: codes s.
Proof. reflexivity. Qed.

Lemma match_fmt_FY_short (ts : list fmt_tok) (s r : list Z) :
  (length s < 4)%nat -> forallb is_digit s = true -> match_fmt (FY :: ts) (s ++ 45 :: r) = [].
Proof.
  intros Hl Hd. cbn [match_fmt tok_alts flat_map].
  change [is_digit; is_digit; is_digit; is_digit] with (repeat is_digit 4).
  rewrite match_seq_short by assumption. reflexivity.
Qed.

(** X8: a month [YYYY-MM] whose year is below 1000 (written with
    leading zeros) passes [validate_date] with [allow_month_only], but
    [parse_date_with_defaults] rebuilds the date with [str(year)], which
    has fewer than four digits, and raises [ValueError] from [strptime]. *)
Lemma validate_date_accepts_unparsable_month (y m : Z) (w : world) :
  1 <= y <= 999 -> 1 <= m <= 12 ->
  validate_date (PStr (zpad 4 y ++ "-" ++ zpad 2 m)) true w = (Ret true, w) /\
  parse_date_with_defaults (zpad 4 y ++ "-" ++ zpad 2 m) false w
  = (Raise (ValueError ("time data " ++ py_repr_str (py_str_int y ++ "-" ++ zpad 2 m ++ "-01")
                         ++ " does not match format '%Y-%m-%d'")), w).
Proof.
  intros Hy Hm.
  destruct (small_year_digits y Hy) as (a & b & c & d & Hc & Hd & Hg & Hs & Hsd).
  pose proof (forallb_range1 _ 12 m check_ym_tail_all Hm) as Ht. unfold check_ym_tail in Ht.
  split.
  - unfold validate_date, except_value, try_except, strptime.
    rewrite codes_app, Hc. cbn [app]. unfold FMT_YMD, FMT_YM.
    rewrite !match_fmt_FY by exact Hd.
    destruct (match_fmt [FLit 45; Fm; FLit 45; Fd] _) eqn:E1; [|discriminate].
    destruct (match_fmt [FLit 45; Fm] _) as [|[gs [|x r]] others] eqn:E2; try discriminate.
    destruct (find_group is_Fm [FLit 45; Fm] gs) as [m'|] eqn:E3; [|discriminate].
    apply Z.eqb_eq in Ht. subst m'.
    cbn [map]. rewrite !find_group_cons. cbn [is_FY is_Fm is_Fd].
    rewrite E3, Hg, find_group_none by reflexivity. cbn [default_Z].
    unfold mbind, M_bind, raise, mret, M_ret.
    destruct (Z.leb_spec 1 y), (Z.leb_spec y 9999); try lia.
    destruct (Z.leb_spec 1 m), (Z.leb_spec m 12); try lia.
    pose proof (days_in_month_range y m Hm).
    destruct (Z.leb_spec 1 1), (Z.leb_spec 1 (days_in_month y m)); try lia.
    reflexivity.
  - assert (Hcodes : codes (zpad 4 y ++ "-" ++ zpad 2 m) = [a; b; c; d] ++ 45 :: [48 + m / 10; 48 + m mod 10])
      by (rewrite !codes_app, Hc, zpad2_codes by lia; reflexivity).
    destruct (two_digits_ok m ltac:(lia)) as [Hmd Hmg].
    unfold parse_date_with_defaults.
    rewrite <- length_codes, Hcodes, length_app. cbn [length Nat.add Nat.eqb].
    rewrite split_codes_sep by (now apply digits_nosep).
    rewrite split_codes_nosep by (now apply digits_nosep).
    cbn [rev app unpack2].
    unfold mbind, mret, M_bind, M_ret.
    rewrite py_int_digits by easy. rewrite Hg.
    rewrite py_int_digits by easy. rewrite Hmg.
    rewrite py_fmt0_nonneg by lia.
    assert (Hpy : py_str_int y = str_of_nat_Z y)
      by (unfold py_str_int; destruct (Z.ltb_spec y 0); [lia|reflexivity]).
    unfold strptime. rewrite Hpy, codes_app, codes_dash. unfold FMT_YMD.
    rewrite match_fmt_FY_short by assumption. reflexivity.
Qed.

Lemma validate_date_accepts_unparsable_month_witness :
  (1 <= 999 <= 999 /\ 1 <= 5 <= 12) /\
  validate_date (PStr (zpad 4 999 ++ "-" ++ zpad 2 5)) true world0 = (Ret true, world0) /\
  parse_date_with_defaults (zpad 4 999 ++ "-" ++ zpad 2 5) false world0
  = (Raise (ValueError ("time data " ++ py_repr_str (py_str_int 999 ++ "-" ++ zpad 2 5 ++ "-01")
                         ++ " does not match format '%Y-%m-%d'")), world0).
Proof.
  split; [lia|].
  apply (validate_date_accepts_unparsable_month 999 5 world0); lia.
Defined.

Lemma bind_ret_inv {A B} (m : M A) (k : A -> M B) (w : world) (b : B) (w' : world) :
  (m ≫= k) w = (Ret b, w') -> exists a w1, m w = (Ret a, w1) /\ k a w1 = (Ret b, w').
Proof.
  unfold mbind, M_bind. destruct (m w) as [[a|e] w1]; intros H; [eauto|discriminate].
Qed.

Lemma assoc_get_dict_set_eq (kv : list (string * pyval)) (k : string) (v : pyval) :
  assoc_get k (dict_set kv k v) = Some v.
Proof.
  induction kv as [|[k' v'] kv IH]; cbn.
  - now rewrite String.eqb_refl.
  - destruct (String.eqb_spec k k') as [->|Hne]; cbn.
    + now rewrite String.eqb_refl.
    + apply String.eqb_neq in Hne. now rewrite Hne.
Qed.

Lemma assoc_get_dict_set_ne (kv : list (string * pyval)) (k k' : string) (v : pyval) :
  k' <> k -> assoc_get k' (dict_set kv k v) = assoc_get k' kv.
Proof.
  intros Hne. induction kv as [|[k1 v1] kv IH]; cbn.
  - apply String.eqb_neq in Hne. now rewrite Hne.
  - destruct (String.eqb_spec k k1) as [->|Hne1]; cbn.
    + apply String.eqb_neq in Hne. now rewrite Hne.
    + now rewrite IH.
Qed.

Lemma dict_get_set_eq (kv : list (string * pyval)) (k : string) (v d : pyval) :
  dict_get (dict_set kv k v) k d = v.
Proof. unfold dict_get. now rewrite assoc_get_dict_set_eq. Qed.

Lemma dict_get_set_ne (kv : list (string * pyval)) (k k' : string) (v d : pyval) :
  k' <> k -> dict_get (dict_set kv k v) k' d = dict_get kv k' d.
Proof. intros H. unfold dict_get. now rewrite assoc_get_dict_set_ne. Qed.

Lemma mret_inv {A} (v x : A) (w w' : world) : (mret v : M A) w = (Ret x, w') -> x = v /\ w' = w.
Proof. cbv [mret M_ret]. intros H. injection H as -> ->. auto. Qed.

Lemma log_msg_inv (msg : string) (lg : option pyval) (lvl : string) (w : world) (u : unit) (w' : world) :
  log_msg msg lg lvl w = (Ret u, w') -> exists l, lg = Some l /\ py_truthy l = true.
Proof.
  unfold log_msg. destruct lg as [l|]; [|discriminate].
  destruct (py_truthy l) eqn:E; [eauto|discriminate].
Qed.

Ltac inv_M H :=
  repeat (cbv beta iota in H;
  match type of H with
  | (mbind _ _) _ = (Ret _, _) =>
      let Hm := fresh "Hm" in apply bind_ret_inv in H as (? & ? & Hm & H); try inv_M Hm
  | raise _ _ = (Ret _, _) => discriminate H
  | mret _ _ = (Ret _, _) => apply mret_inv in H as [? ?]; subst
  | (match ?x with _ => _ end) _ = (Ret _, _) => let E := fresh "E" in destruct x eqn:E
  end).

Ltac zbool :=
  repeat match goal with
         | H : (_ <? _) = true |- _ => apply Z.ltb_lt in H
         | H : (_ <? _) = false |- _ => apply Z.ltb_ge in H
         | H : (_ <=? _) = true |- _ => apply Z.leb_le in H
         | H : (_ <=? _) = false |- _ => apply Z.leb_gt in H
         end;
  repeat (apply andb_true_iff; split); try apply Z.leb_le; try lia; try reflexivity.

Lemma keeps_dict_set (c : list (string * pyval)) (k : string) (v : pyval) :
  keeps_other_keys k c (dict_set c k v).
Proof. intros k' Hk. now apply assoc_get_dict_set_ne. Qed.

Lemma common_retry_ret (config : list (string * pyval)) (logger : pyval) (w : world) c' w' :
  common_retry config logger w = (Ret c', w') ->
  retry_settings_ok (cfg_at c' "retry_settings") = true /\ keeps_other_keys "retry_settings" config c'.
Proof.
  intros H. unfold common_retry in H. inv_M H.
  all: try (split; [|apply keeps_dict_set]; unfold cfg_at; rewrite dict_get_set_eq).
  all: unfold retry_settings_ok, int_in; simpl; rewrite ?E0, ?E2; zbool.
Qed.

Lemma common_parallel_ret (config : list (string * pyval)) (logger : pyval) (w : world) c' w' :
  common_parallel config logger w = (Ret c', w') ->
  parallel_settings_ok (cfg_at c' "parallel_settings") = true
  /\ keeps_other_keys "parallel_settings" config c'.
Proof.
  intros H. unfold common_parallel in H. inv_M H.
  all: split; [|apply keeps_dict_set]; unfold cfg_at; rewrite dict_get_set_eq.
  all: unfold parallel_settings_ok, int_in; simpl; rewrite ?E0.
  all: destruct (py_truthy (dict_get kv "enabled" (PBool false))); cbn [andb] in *; zbool.
Qed.

Lemma validate_common_efa_ret (config : list (string * pyval)) run_mode logger w c' w' :
  validate_common_existing_file_action config run_mode logger w = (Ret c', w') ->
  str_in (py_str (dict_get c' "existing_file_action" (PStr "case_by_case"))) EFA_ALLOWED = true
  /\ keeps_other_keys "existing_file_action" config c'.
Proof.
  intros H. unfold validate_common_existing_file_action in H. inv_M H.
  - split; [|apply keeps_dict_set]. now rewrite dict_get_set_eq.
  - split; [|intros k _; reflexivity]. now apply negb_false_iff.
Qed.

Lemma validate_dataset_cds (ds p : pyval) w ok w' :
  validate_data_provider p = true ->
  validate_dataset_short_name ds p w = (Ret ok, w') -> p = PStr "cds".
Proof.
  unfold validate_data_provider, validate_dataset_short_name.
  destruct (pv_is_str p "cds") eqn:Ec; cbn [orb].
  - destruct p; try discriminate. cbn in Ec. apply String.eqb_eq in Ec. now subst.
  - intros Ho H. rewrite Ho in H. discriminate.
Qed.

Lemma keeps_trans (k1 k2 : string) c1 c2 c3 (k : string) :
  keeps_other_keys k1 c1 c2 -> keeps_other_keys k2 c2 c3 -> k <> k1 -> k <> k2 ->
  assoc_get k c3 = assoc_get k c1.
Proof. intros H1 H2 Hk1 Hk2. rewrite H2 by exact Hk2. now apply H1. Qed.

Lemma validate_common_ret env config logger run_mode w c' w' :
  validate_common env config logger run_mode w = (Ret c', w') ->
  cfg_at config "data_provider" = PStr "cds" /\ cfg_at c' "data_provider" = PStr "cds" /\
  retry_settings_ok (cfg_at c' "retry_settings") = true /\
  parallel_settings_ok (cfg_at c' "parallel_settings") = true /\
  str_in (py_str (dict_get c' "existing_file_action" (PStr "case_by_case"))) EFA_ALLOWED = true /\
  region_bounds_ok (cfg_at c' "region_bounds") = true.
Proof.
  intros H. unfold validate_common in H. inv_M H.
  all: apply common_parallel_ret in H as [Hp Kp].
  all: apply common_retry_ret in Hm8 as [Hr Kr].
  all: apply validate_common_efa_ret in Hm7 as [He Ke].
  all: apply negb_false_iff in E; pose proof (validate_dataset_cds _ _ _ _ _ E Hm0) as Hcds.
  all: split; [exact Hcds|].
  all: unfold cfg_at, dict_get in *.
  all: split; [rewrite Kp, Kr, Ke, !assoc_get_dict_set_ne by discriminate; exact Hcds|].
  all: split; [rewrite Kp by discriminate; exact Hr|].
  all: split; [exact Hp|].
  all: split; [rewrite Kp, Kr by discriminate; exact He|].
  all: rewrite Kp, Kr, Ke, assoc_get_dict_set_eq by discriminate.
  all: destruct o, o0, o1, o2; try discriminate; exact (proj1 (negb_false_iff _) E17).
Qed.

Lemma validate_cds_ret env config logger live w c' w' :
  validate_cds env config logger live w = (Ret c', w') ->
  live = false /\ keeps_other_keys "end_date" config c'.
Proof.
  intros H. unfold validate_cds in H. inv_M H.
  all: split; [reflexivity|]; first [apply keeps_dict_set | intros k _; reflexivity].
Qed.

(** X9: [validate_config] returns normally only for a config whose
    [data_provider] is ["cds"] and only without [live_auth_check]: an
    ["open-meteo"] config and every live authentication check end in an
    exception. *)
Lemma validate_config_returns_only_cds env config logger run_mode live_auth_check w c' w' :
  validate_config env config logger run_mode live_auth_check w = (Ret c', w') ->
  cfg_at config "data_provider" = PStr "cds" /\ live_auth_check = false.
Proof.
  intros H. unfold validate_config in H. inv_M H.
  - apply validate_common_ret in Hm as [Hcds _]. apply validate_cds_ret in H as [Hl _]. auto.
  - apply validate_common_ret in Hm as (_ & Hcds & _). rewrite Hcds in E. discriminate.
Qed.

(** X10: when [validate_config] returns, the config it leaves has
    [retry_settings] reduced to int [max_retries] in [0, 20] and int
    [retry_delay_sec] in [0, 3600], [parallel_settings] reduced to a bool
    [enabled] and an int [max_concurrent], in [1, 8] when enabled, an
    allowed [existing_file_action], and four float region bounds that pass
    [validate_coordinates]. *)
Lemma validate_config_normalises env config logger run_mode live_auth_check w c' w' :
  validate_config env config logger run_mode live_auth_check w = (Ret c', w') ->
  retry_settings_ok (cfg_at c' "retry_settings") = true /\
  parallel_settings_ok (cfg_at c' "parallel_settings") = true /\
  str_in (py_str (dict_get c' "existing_file_action" (PStr "case_by_case"))) EFA_ALLOWED = true /\
  region_bounds_ok (cfg_at c' "region_bounds") = true.
Proof.
  intros H. unfold validate_config in H. inv_M H.
  - apply validate_common_ret in Hm as (_ & _ & Hr & Hp & He & Hb).
    apply validate_cds_ret in H as [_ K].
    unfold cfg_at, dict_get in *. rewrite !K by discriminate. auto.
  - apply validate_common_ret in Hm as (_ & Hcds & _). rewrite Hcds in E. discriminate.
Qed.

Lemma validate_config_returns_only_cds_witness :
  exists c' w',
    validate_config sample_env sample_config (PObj "Logger" 0) "automatic" false world0 = (Ret c', w') /\
    (cfg_at sample_config "data_provider" = PStr "cds" /\ false = false).
Proof.
  eexists; eexists. split; [vm_compute; reflexivity|].
  eapply (validate_config_returns_only_cds sample_env sample_config (PObj "Logger" 0) "automatic" false world0).
  vm_compute. reflexivity.
Defined.

Lemma validate_config_normalises_witness :
  exists c' w',
    validate_config sample_env sample_config (PObj "Logger" 0) "automatic" false world0 = (Ret c', w') /\
    (retry_settings_ok (cfg_at c' "retry_settings") = true /\
     parallel_settings_ok (cfg_at c' "parallel_settings") = true /\
     str_in (py_str (dict_get c' "existing_file_action" (PStr "case_by_case"))) EFA_ALLOWED = true /\
     region_bounds_ok (cfg_at c' "region_bounds") = true).
Proof.
  eexists; eexists. split; [vm_compute; reflexivity|].
  eapply (validate_config_normalises sample_env sample_config (PObj "Logger" 0) "automatic" false world0).
  vm_compute. reflexivity.
Defined.

(* ------------------------------------------------------------------ *)
(** ** map_config_to_session: the sections and the normalised session *)

Lemma key_in_set (s : SessionState.t) (k k' : string) (v : pyval) :
  SessionState.key_in (SessionState.set s k v) k' = SessionState.key_in s k'.
Proof.
  unfold SessionState.set. destruct (SessionState.key_in s k); [|reflexivity].
  apply key_in_update_field.
Qed.

Lemma session_get_set (s : SessionState.t) (k k' : string) (v : pyval) :
  SessionState.get (SessionState.set s k v) k' =
  if (String.eqb k' k && SessionState.key_in s k)%bool then v else SessionState.get s k'.
Proof.
  unfold SessionState.set, SessionState.get.
  destruct (SessionState.key_in s k) eqn:Hk.
  - rewrite key_in_update_field, assoc_get_update_field.
    destruct (String.eqb k' k) eqn:E; simpl.
    + apply String.eqb_eq in E; subst k'. rewrite Hk.
      rewrite key_in_assoc in Hk. destruct (assoc_get k s); [reflexivity|discriminate].
    + reflexivity.
  - rewrite Bool.andb_false_r. reflexivity.
Qed.

Lemma get_set_ne (s : SessionState.t) (k k' : string) (v : pyval) :
  k' <> k -> SessionState.get (SessionState.set s k v) k' = SessionState.get s k'.
Proof.
  intros H. rewrite session_get_set. apply String.eqb_neq in H. now rewrite H.
Qed.

Lemma get_set_eq (s : SessionState.t) (k : string) (v : pyval) :
  SessionState.key_in s k = true -> SessionState.get (SessionState.set s k v) k = v.
Proof. intros H. rewrite session_get_set, String.eqb_refl, H. reflexivity. Qed.

Ltac same_keys_tac :=
  intros ?k; cbn [a_session set_acc add_msg add_err]; rewrite ?key_in_set; reflexivity.

Lemma sec_provider_keys env cfg a : same_keys (a_session a) (a_session (sec_provider env cfg a)).
Proof. unfold sec_provider. repeat case_match; same_keys_tac. Qed.

Lemma sec_dataset_keys env cfg a : same_keys (a_session a) (a_session (sec_dataset env cfg a)).
Proof. unfold sec_dataset. repeat case_match; same_keys_tac. Qed.

Lemma sec_api_keys env cfg a : same_keys (a_session a) (a_session (sec_api env cfg a)).
Proof. unfold sec_api. repeat case_match; same_keys_tac. Qed.

Lemma sec_bounds_keys env cfg a : same_keys (a_session a) (a_session (sec_bounds env cfg a)).
Proof. unfold sec_bounds. repeat case_match; same_keys_tac. Qed.

Lemma sec_variables_keys env cfg a : same_keys (a_session a) (a_session (sec_variables env cfg a)).
Proof. unfold sec_variables. repeat case_match; simplify_eq; same_keys_tac. Qed.

Lemma sec_dates_keys env cfg a w a' w' :
  sec_dates env cfg a w = (Ret a', w') -> same_keys (a_session a) (a_session a').
Proof.
  unfold sec_dates. intros H. repeat case_match; injection H as <- <-; same_keys_tac.
Qed.

Lemma sec_save_dir_keys env cfg a w a' w' :
  sec_save_dir env cfg a w = (Ret a', w') -> same_keys (a_session a) (a_session a').
Proof. unfold sec_save_dir, validate_directory. intros H. inv_M H; same_keys_tac. Qed.

Lemma sec_existing_file_action_set env cfg a :
  a_errs (sec_existing_file_action env cfg a) = a_errs a /\
  exists p, a_session (sec_existing_file_action env cfg a)
            = SessionState.set (a_session a) "existing_file_action" (PStr p)
         /\ str_in p EFA_ALLOWED = true.
Proof.
  unfold sec_existing_file_action.
  destruct (str_in _ EFA_ALLOWED) eqn:E1.
  - split; [reflexivity|]. eexists; split; [reflexivity|exact E1].
  - destruct (str_in _ ["1"; "2"; "3"]) eqn:E2.
    + split; [reflexivity|]. eexists; split; [reflexivity|].
      repeat match goal with |- context [if ?b then _ else _] => destruct b end; reflexivity.
    + split; [reflexivity|]. eexists; split; [reflexivity|reflexivity].
Qed.

Lemma sec_retry_ret cfg a w a' w' :
  sec_retry cfg a w = (Ret a', w') ->
  (a_session a' = a_session a /\ a_errs a' <> []) \/
  (a_errs a' = a_errs a /\
   exists v, a_session a' = SessionState.set (a_session a) "retry_settings" v
             /\ retry_session_ok v = true).
Proof.
  unfold sec_retry. intros H. inv_M H.
  - left. split; [reflexivity|]. cbn. intros Hn. by apply app_nil in Hn as [_ ?].
  - right. split; [reflexivity|]. eexists; split; [reflexivity|].
    apply orb_false_iff in E as [E1 E2]. cbn. zbool.
Qed.

Lemma sec_parallel_ret cfg a w a' w' :
  sec_parallel cfg a w = (Ret a', w') ->
  a_errs a' = a_errs a /\
  exists v, a_session a' = SessionState.set (a_session a) "parallel_settings" v
            /\ parallel_session_ok v = true.
Proof.
  unfold sec_parallel. intros H. inv_M H.
  - split; [reflexivity|]. eexists; split; [reflexivity|reflexivity].
  - split; [reflexivity|]. eexists; split; [reflexivity|].
    cbn. match goal with |- context [Z.ltb ?m 2] => destruct (Z.ltb_spec m 2) end; zbool.
Qed.

(** X11: whatever configuration [map_config_to_session] is given, when it
    returns, the session it returns holds an allowed existing-file policy and
    parallel settings of the normalised shape, and, when it reports success,
    retry settings with non-negative integers (for a session that has those
    fields, as [SessionState.init] does). *)
Lemma map_config_to_session_normalises (env : MapEnv) (cfg : list (string * pyval))
  (session : SessionState.t) (w : world) (ok : bool) (msgs : list string)
  (s' : SessionState.t) (w' : world) :
  map_config_to_session env cfg session w = (Ret (ok, msgs, s'), w') ->
  SessionState.key_in session "existing_file_action" = true ->
  SessionState.key_in session "parallel_settings" = true ->
  SessionState.key_in session "retry_settings" = true ->
  efa_session_ok (SessionState.get s' "existing_file_action") = true /\
  parallel_session_ok (SessionState.get s' "parallel_settings") = true /\
  (ok = true -> retry_session_ok (SessionState.get s' "retry_settings") = true).
Proof.
  intros H He Hp Hr.
  unfold map_config_to_session in H. inv_M H.
  all: injection H as -> -> ->.
  all: assert (K1 : forall k, SessionState.key_in (a_session x1) k = SessionState.key_in session k)
         by (intros k; rewrite (sec_save_dir_keys _ _ _ _ _ _ Hm0), sec_variables_keys,
               sec_bounds_keys, (sec_dates_keys _ _ _ _ _ _ Hm), sec_api_keys, sec_dataset_keys,
               sec_provider_keys; reflexivity).
  all: destruct (sec_existing_file_action_set env cfg x1) as [Eerr (p & Hs8 & Hp8)].
  all: destruct (sec_parallel_ret _ _ _ _ _ Hm2) as [Eerr2 (v & Hs10 & Hv)].
  all: assert (K3 : forall k, SessionState.key_in (a_session x3) k = SessionState.key_in session k)
         by (intros k; destruct (sec_retry_ret _ _ _ _ _ Hm1) as [[-> _]|[_ (v' & -> & _)]];
             rewrite ?key_in_set, Hs8, key_in_set; apply K1).
  all: assert (Hefa : SessionState.get (a_session x3) "existing_file_action" = PStr p)
         by (destruct (sec_retry_ret _ _ _ _ _ Hm1) as [[-> _]|[_ (v' & -> & _)]];
             rewrite ?get_set_ne by discriminate; rewrite Hs8, get_set_eq by (rewrite K1; exact He);
             reflexivity).
  all: rewrite Hs10; split; [rewrite get_set_ne, Hefa by discriminate; exact Hp8|].
  all: split; [rewrite get_set_eq by (rewrite K3; exact Hp); exact Hv|].
  all: intros Hok; try discriminate Hok.
  rewrite get_set_ne by discriminate.
  destruct (sec_retry_ret _ _ _ _ _ Hm1) as [[_ Hne]|[_ (v' & Hs9 & Hv')]].
  - rewrite Eerr2 in E. contradiction.
  - rewrite Hs9, get_set_eq; [exact Hv'|]. rewrite Hs8, key_in_set, K1. exact Hr.
Qed.

Lemma filter_blank_nil {A} (p : A -> bool) (l : list A) :
  Forall (fun x => p x = true) l -> filter (fun x => negb (p x)) l = [].
Proof.
  induction 1 as [|x l Hx _ IH]; [reflexivity|].
  cbn. unfold filter in IH. rewrite Hx. exact IH.
Qed.

(** X12: in [map_config_to_session], a [variables] entry (comma-separated
    string or list) whose items are all blank after stripping leaves the
    session, messages and errors untouched: no variables are set and no
    error is recorded. *)
Lemma sec_variables_blank env cfg a :
  ((exists s, dict_get cfg "variables" PNone = PStr s /\
              Forall (fun v => String.eqb (py_strip v) "" = true) (py_split_comma s)) \/
   (exists l, dict_get cfg "variables" PNone = PList l /\
              Forall (fun v => String.eqb (py_strip (py_text env v)) "" = true) l)) ->
  sec_variables env cfg a = a.
Proof.
  intros [(s & Hv & Hb)|(l & Hv & Hb)]; unfold sec_variables; rewrite Hv.
  - rewrite (filter_blank_nil (fun v => String.eqb (py_strip v) "")) by exact Hb. reflexivity.
  - rewrite (filter_blank_nil (fun v => String.eqb (py_strip (py_text env v)) "")) by exact Hb.
    reflexivity.
Qed.

Lemma map_config_to_session_normalises_witness :
  exists ok msgs s' w',
    map_config_to_session sample_mapenv sample_config SessionState.init world0
      = (Ret (ok, msgs, s'), w') /\
    efa_session_ok (SessionState.get s' "existing_file_action") = true /\
    parallel_session_ok (SessionState.get s' "parallel_settings") = true /\
    (ok = true -> retry_session_ok (SessionState.get s' "retry_settings") = true).
Proof.
  eexists; eexists; eexists; eexists. split; [vm_compute; reflexivity|].
  eapply (map_config_to_session_normalises sample_mapenv sample_config SessionState.init world0).
  - vm_compute. reflexivity.
  - vm_compute. reflexivity.
  - vm_compute. reflexivity.
  - vm_compute. reflexivity.
Defined.

Lemma sec_variables_blank_witness :
  sec_variables sample_mapenv [("variables", PStr " , ")] (mk_acc SessionState.init [] [])
    = mk_acc SessionState.init [] [].
Proof.
  apply sec_variables_blank. left. exists " , ". split; [reflexivity|].
  vm_compute. repeat constructor.
Defined.

(* ------------------------------------------------------------------ *)
(** ** prepare / download / find_existing_month_file, validate_dataset_short_name *)

(** X13: when [prepare_cds_download] returns, the session is either
    unchanged or has its policy reset to [skip_all]; a target path that does
    not exist always gives [proceed = True] with the session unchanged; and
    under the [case_by_case] policy it only returns when the path does not
    exist (an existing file always raises). *)
Lemma prepare_cds_download_ret exists_path str_other session filename_base year month logger
    allow_prompts w proceed save_path s' w' :
  prepare_cds_download exists_path str_other session filename_base year month logger
    allow_prompts w = (Ret (proceed, save_path, s'), w') ->
  (exists_path save_path = false -> proceed = true /\ s' = session) /\
  (s' = session \/ s' = SessionState.set session "existing_file_action" (PStr "skip_all")) /\
  (SessionState.get session "existing_file_action" = PStr "case_by_case" ->
   proceed = true /\ exists_path save_path = false).
Proof.
  intros H. unfold prepare_cds_download in H. inv_M H.
  all: cbv beta iota in *.
  all: repeat match goal with
       | H : (if ?b then _ else _) _ = (Ret _, _) |- _ => destruct b eqn:?
       | H : (mbind _ _) _ = (Ret _, _) |- _ => inv_M H
       end.
  all: try discriminate.
  all: try (apply mret_inv in H as [H ->]).
  all: injection H as Hp1 Hp2 Hp3; subst proceed save_path s'.
  all: split; [|split].
  all: try (intros Hc; rewrite Hc in *; discriminate).
  all: try (intros; split; reflexivity).
  all: try (left; reflexivity); try (right; reflexivity).
  all: intros; split; [reflexivity|assumption].
Qed.

Lemma download_cds_month_one exists_path str_other rm session filename_base year month logger
    allow_prompts L w y' m' st s' L' w' :
  download_cds_month exists_path str_other rm session filename_base year month logger
    allow_prompts L w = (Ret (y', m', st, s', L'), w') ->
  exists S F K,
    successful L' = successful L ++ S /\ failed L' = failed L ++ F /\
    skipped L' = skipped L ++ K /\ (length S + length F + length K = 1)%nat.
Proof.
  intros H. unfold download_cds_month in H. inv_M H.
  all: cbv beta iota in *.
  all: repeat match goal with
       | H : (if ?b then _ else _) _ = (Ret _, _) |- _ => destruct b eqn:?
       | H : (mbind _ _) _ = (Ret _, _) |- _ => inv_M H
       end.
  all: try discriminate.
  all: try (apply mret_inv in H as [H ->]); injection H as ? ? ? ? HL; subst L'; cbn.
  - exists [], [], [(year, month)]. rewrite !app_nil_r. auto.
  - exists [(z, z0)], [], []. rewrite !app_nil_r. auto.
  - exists [], [(z, z0)], []. rewrite !app_nil_r. auto.
Qed.

(** X14: when the sequential download loop of [orchestrate_cds_downloads]
    returns, it has only appended to the successful, failed and skipped
    lists, and it appended exactly one entry per month it was given. *)
Lemma download_seq_accounts exists_path str_other rm session filename_base logger allow_prompts
    months L w s' L' w' :
  download_seq exists_path str_other rm session filename_base logger allow_prompts months L w
    = (Ret (s', L'), w') ->
  exists S F K,
    successful L' = successful L ++ S /\ failed L' = failed L ++ F /\
    skipped L' = skipped L ++ K /\ (length S + length F + length K = length months)%nat.
Proof.
  revert session L w. induction months as [|[y m] rest IH]; intros session L w H; cbn in H.
  - apply mret_inv in H as [H ->]. injection H as <- <-.
    exists [], [], []. rewrite !app_nil_r. auto.
  - inv_M H. destruct x as [[[[y1 m1] st1] s1] L1].
    apply download_cds_month_one in Hm as (S1 & F1 & K1 & ES1 & EF1 & EK1 & N1).
    apply IH in H as (S2 & F2 & K2 & ES2 & EF2 & EK2 & N2).
    exists (S1 ++ S2), (F1 ++ F2), (K1 ++ K2).
    rewrite ES2, EF2, EK2, ES1, EF1, EK1, !app_assoc, !length_app. cbn. repeat split; lia.
Qed.

Lemma strip_prefix_app (p r : list Z) : strip_prefix p (p ++ r) = Some r.
Proof. induction p as [|x p IH]; cbn; [reflexivity|]. rewrite Z.eqb_refl. exact IH. Qed.

Lemma find_in_some {A} (f : A -> bool) (l : list A) (x : A) :
  In x l -> f x = true -> exists y, List.find f l = Some y /\ f y = true.
Proof.
  induction l as [|a l IH]; cbn; [tauto|]. intros [->|Hin] Hx.
  - rewrite Hx. eauto.
  - destruct (f a) eqn:Ea; eauto.
Qed.

Lemma month_file_match_prepared (filename_base : string) (year month : Z) (ext : string) :
  1000 <= year <= 9999 -> codes ext <> [] -> forallb is_alnum_ascii (codes ext) = true ->
  month_file_match filename_base year month
    (filename_base ++ "_" ++ py_str_int year ++ "_" ++ py_fmt0 2 month ++ "." ++ ext) = true.
Proof.
  intros Hy Hne Hal. unfold month_file_match.
  assert (E : py_fmt0 4 year = py_str_int year).
  { unfold py_fmt0. destruct (Z.ltb_spec year 0); [lia|].
    rewrite zpad_4, py_str_int_4 by lia. reflexivity. }
  rewrite E, !codes_app.
  replace (codes filename_base ++ codes "_" ++ codes (py_str_int year) ++ codes "_"
             ++ codes (py_fmt0 2 month) ++ codes "." ++ codes ext)
    with ((codes filename_base ++ codes "_" ++ codes (py_str_int year))
             ++ 95 :: (codes (py_fmt0 2 month) ++ codes ".") ++ codes ext)
    by (cbn; rewrite <- !app_assoc; reflexivity).
  rewrite strip_prefix_app. cbn [Z.eqb Pos.eqb orb].
  rewrite strip_prefix_app. unfold ext_match.
  destruct (codes ext); [congruence|]. rewrite Hal. reflexivity.
Qed.

(** X15: for a four-digit year, a file named as [prepare_cds_download] names
    it (with a non-empty alphanumeric extension) is seen by
    [find_existing_month_file]: it returns some file of the directory that
    matches the month pattern. *)
Lemma find_existing_month_file_prepared (entries : list (string * bool)) (filename_base : string)
    (year month : Z) (ext : string) :
  1000 <= year <= 9999 -> codes ext <> [] -> forallb is_alnum_ascii (codes ext) = true ->
  In ((filename_base ++ "_" ++ py_str_int year ++ "_" ++ py_fmt0 2 month ++ "." ++ ext)%string, true)
     entries ->
  exists name, find_existing_month_file_dir (Some entries) filename_base year month = Some name /\
               month_file_match filename_base year month name = true.
Proof.
  intros Hy Hne Hal Hin. cbn [find_existing_month_file_dir].
  destruct (find_in_some (fun e => (e.2 && month_file_match filename_base year month e.1)%bool)
              entries _ Hin) as ([n b] & -> & Hf).
  { cbn. apply month_file_match_prepared; assumption. }
  apply andb_true_iff in Hf as [_ Hf]. exists n. auto.
Qed.

Lemma strip_fails_early_app (p l r : list Z) :
  strip_fails_early p l = true -> strip_prefix p (l ++ r) = None.
Proof.
  revert l. induction p as [|x p IH]; intros [|c l] H; cbn in *; try discriminate.
  destruct (Z.eqb x c); [apply IH; exact H|reflexivity].
Qed.

Lemma strip_prefix_app_l (p l1 l2 : list Z) :
  strip_prefix (p ++ l1) (p ++ l2) = strip_prefix l1 l2.
Proof. induction p as [|x p IH]; cbn; [reflexivity|]. rewrite Z.eqb_refl. exact IH. Qed.

Lemma short_year_mismatch_all : forallb short_year_mismatch (map Z.of_nat (seq 0 1000)) = true.
Proof. vm_compute. reflexivity. Qed.

(** X16: for a year below 1000, the file name built by
    [prepare_cds_download] ([f"{year}"], not zero-padded) never matches the
    pattern of [find_existing_month_file] ([{year:04d}]). *)
Lemma month_file_match_short_year (filename_base : string) (year month : Z) (ext : string) :
  0 <= year <= 999 ->
  month_file_match filename_base year month
    (filename_base ++ "_" ++ py_str_int year ++ "_" ++ py_fmt0 2 month ++ "." ++ ext) = false.
Proof.
  intros Hy. unfold month_file_match.
  assert (E1 : py_fmt0 4 year = zpad 4 year).
  { unfold py_fmt0. destruct (Z.ltb_spec year 0); [lia|reflexivity]. }
  assert (E2 : py_str_int year = str_of_nat_Z year).
  { unfold py_str_int. destruct (Z.ltb_spec year 0); [lia|reflexivity]. }
  assert (Hs : short_year_mismatch year = true).
  { pose proof short_year_mismatch_all as H. rewrite forallb_forall in H. apply H.
    apply in_map_iff. exists (Z.to_nat year). split; [lia|]. apply in_seq. lia. }
  rewrite E1, E2, !codes_app.
  replace (codes filename_base ++ codes "_" ++ codes (str_of_nat_Z year) ++ codes "_"
             ++ codes (py_fmt0 2 month) ++ codes "." ++ codes ext)
    with ((codes filename_base ++ codes "_") ++ (codes (str_of_nat_Z year) ++ [95])
             ++ codes (py_fmt0 2 month) ++ codes "." ++ codes ext)
    by (cbn; rewrite <- !app_assoc; reflexivity).
  rewrite app_assoc, strip_prefix_app_l, strip_fails_early_app by exact Hs.
  reflexivity.
Qed.

Lemma prepare_cds_download_ret_witness :
  exists proceed save_path s' w',
    prepare_cds_download (fun _ => true) (fun _ => "") sample_dl_session "era5" 2020 1
      (PObj "Logger" 0) false world0 = (Ret (proceed, save_path, s'), w') /\
    ((fun _ => true) save_path = false -> proceed = true /\ s' = sample_dl_session) /\
    (s' = sample_dl_session \/
     s' = SessionState.set sample_dl_session "existing_file_action" (PStr "skip_all")) /\
    (SessionState.get sample_dl_session "existing_file_action" = PStr "case_by_case" ->
     proceed = true /\ (fun _ => true) save_path = false).
Proof.
  eexists; eexists; eexists; eexists. split; [vm_compute; reflexivity|].
  eapply (prepare_cds_download_ret (fun _ => true) (fun _ => "") sample_dl_session "era5" 2020 1
           (PObj "Logger" 0) false world0).
  vm_compute. reflexivity.
Defined.

Lemma download_seq_accounts_witness :
  exists s' L' w',
    download_seq (fun p => String.eqb p "data/era5_2020_01.grib") (fun _ => "") sample_remote
      sample_dl_session "era5" (PObj "Logger" 0) false [(2020, 1); (2020, 2); (2020, 3)]
      (mk_lists [] [] []) world0 = (Ret (s', L'), w') /\
    exists S F K,
      successful L' = [] ++ S /\ failed L' = [] ++ F /\ skipped L' = [] ++ K /\
      (length S + length F + length K = 3)%nat.
Proof.
  eexists; eexists; eexists. split; [vm_compute; reflexivity|].
  eapply (download_seq_accounts (fun p => String.eqb p "data/era5_2020_01.grib") (fun _ => "")
           sample_remote sample_dl_session "era5" (PObj "Logger" 0) false
           [(2020, 1); (2020, 2); (2020, 3)] (mk_lists [] [] []) world0).
  vm_compute. reflexivity.
Defined.

Lemma find_existing_month_file_prepared_witness :
  exists name,
    find_existing_month_file_dir (Some [("notes.txt", true); ("era5_2020_01.grib", true)])
      "era5" 2020 1 = Some name /\ month_file_match "era5" 2020 1 name = true.
Proof.
  apply (find_existing_month_file_prepared [("notes.txt", true); ("era5_2020_01.grib", true)]
           "era5" 2020 1 "grib").
  - lia.
  - discriminate.
  - reflexivity.
  - right. left. reflexivity.
Defined.

Lemma month_file_match_short_year_witness :
  month_file_match "era5" 999 1 "era5_999_01.grib" = false.
Proof. apply (month_file_match_short_year "era5" 999 1 "grib"). lia. Defined.

(** X17: [validate_dataset_short_name] with a provider other than [cds] and
    [open-meteo] raises [TypeError] (its warning calls [log_msg] without a
    logger) instead of returning [False]. *)
Lemma validate_dataset_short_name_unknown_provider (ds provider : pyval) (w : world) :
  pv_is_str provider "cds" = false -> pv_is_str provider "open-meteo" = false ->
  validate_dataset_short_name ds provider w
  = (Raise (TypeError "log_msg() missing 1 required positional argument: 'logger'"), w).
Proof.
  intros H1 H2. unfold validate_dataset_short_name. rewrite H1, H2.
  unfold mbind, M_bind. reflexivity.
Qed.

Lemma validate_dataset_short_name_unknown_provider_witness :
  validate_dataset_short_name (PStr "era5-world") (PStr "ecmwf") world0
  = (Raise (TypeError "log_msg() missing 1 required positional argument: 'logger'"), world0).
Proof. apply validate_dataset_short_name_unknown_provider; reflexivity. Defined.
